(** * Vernacular Artisan Catalog: the catalog processing core

    A shallow embedding of the Python fragments of
    [.kiro/specs/vernacular-artisan-catalog/design.md]: the ONDC schema
    mapper ([map_to_beckn_item], [build_long_description],
    [map_category_to_ondc], [generate_item_id]), the validator
    ([validate_ondc_payload]), the backend error handlers
    ([ProcessingErrorHandler], [ONDCErrorHandler]) and the
    [CircuitBreaker].  The attribute resolver, the submission manager and
    the check in front of the marketplace gateway are described by the
    design but not written out in it; they are modelled from the
    specification and marked as such.  Also embedded are the edge
    client's TypeScript [ErrorHandler] of the same document, the CDK
    entry point [bin/app.ts] and [scripts/deploy_infrastructure.sh].

    Conventions of the embedding.
    - A Python [str] is a [string]; each [ascii] stands for the code point
      of the same number (0..255), so [len], slicing, [sorted] and
      [lower] act on characters and [encode] produces UTF-8 bytes.
    - A Python [dict] with string keys is a [gmap string _].
    - A Python [float] and a JavaScript [number] are binary64 floats
      ([Double.t]), with the rounding of their arithmetic.
    - A call that can raise returns a [result]; the exception is a [pyexc].
    - Mutation of [record] and of the handler object ([self]) is explicit
      state passing. *)

From Stdlib Require Import ZArith String Ascii List Lia QArith.
From Stdlib Require Import Sorting Permutation DecimalString DecimalZ DecimalPos.
From Stdlib Require Import SpecFloat.
From stdpp Require Import gmap strings.
Import ListNotations.

Local Open Scope Z_scope.

(** ** Python values, exceptions and results *)

(** The dynamically typed values that the fragments store in dictionaries.
    A float is carried as its [repr] (for instance ["0.0"]): the only
    operations the code applies to one are storing it and [str]. *)
Inductive pyval : Type :=
| PyNone
| PyInt (z : Z)
| PyFloat (repr : string)
| PyStr (s : string).

Inductive pyexc : Type :=
| KeyError (key : string)
| AttributeError (what : string)
| TypeError (what : string)
| CircuitBreakerOpenError
| ModelTimeoutError
| UnsupportedLanguageError
| OtherError (name : string).

Inductive result (A : Type) : Type :=
| Ok (a : A)
| Raise (e : pyexc).
Arguments Ok {A} a.
Arguments Raise {A} e.

#[global] Instance result_ret : MRet result := fun A a => Ok a.

#[global] Instance result_bind : MBind result := fun A B k r =>
  match r with
  | Ok a => k a
  | Raise e => Raise e
  end.

(** [d[key]] on a dictionary. *)
Definition getitem {V : Type} (d : gmap string V) (key : string) : result V :=
  match d !! key with
  | Some v => Ok v
  | None => Raise (KeyError key)
  end.

(** ** String operations of the Python runtime *)

Module Py.

(** [str(v)] *)
Definition str (v : pyval) : string :=
  match v with
  | PyNone => "None"
  | PyInt z => NilZero.string_of_int (Z.to_int z)
  | PyFloat r => r
  | PyStr s => s
  end.

(** [bool(v)]: the truth value tested by [if v] and [not v]. *)
Definition truthy (v : pyval) : bool :=
  match v with
  | PyNone => false
  | PyInt z => negb (z =? 0)
  | PyFloat r => negb (String.eqb r "0.0" || String.eqb r "-0.0")
  | PyStr s => negb (String.eqb s "")
  end.

(** [sep.join(parts)] *)
Fixpoint join (sep : string) (parts : list string) : string :=
  match parts with
  | [] => ""
  | [p] => p
  | p :: rest => p +:+ sep +:+ join sep rest
  end.

(** [c.lower()] on one character of the range 0..255: the letters A-Z
    and the upper-case letters of Latin-1 (0xC0..0xDE without the
    multiplication sign 0xD7) move up by 32. *)
Definition lower_char (c : ascii) : ascii :=
  let n := N_of_ascii c in
  if ((65 <=? n) && (n <=? 90))%N then ascii_of_N (n + 32)
  else if ((192 <=? n) && (n <=? 222) && negb (n =? 215))%N
       then ascii_of_N (n + 32)
  else c.

(** [s.lower()] *)
Fixpoint lower (s : string) : string :=
  match s with
  | EmptyString => EmptyString
  | String c rest => String (lower_char c) (lower rest)
  end.

(** [s[:n]] *)
Definition prefix (n : nat) (s : string) : string := substring 0 n s.

(** Insertion into a list kept in ascending order of code points. *)
Fixpoint insert_sorted (x : string) (l : list string) : list string :=
  match l with
  | [] => [x]
  | y :: rest => if String.leb x y then x :: l else y :: insert_sorted x rest
  end.

(** [sorted(l)] on a list of strings: ascending, by code points. *)
Fixpoint sorted (l : list string) : list string :=
  match l with
  | [] => []
  | x :: rest => insert_sorted x (sorted rest)
  end.

(** [s.encode()]: UTF-8, one byte below 128 and two bytes above. *)
Fixpoint encode (s : string) : list Z :=
  match s with
  | EmptyString => []
  | String c rest =>
      let n := Z.of_N (N_of_ascii c) in
      if n <? 128 then n :: encode rest
      else Z.lor 192 (Z.shiftr n 6) :: Z.lor 128 (Z.land n 63) :: encode rest
  end.

End Py.

(** ** Floating-point numbers

    A Python [float] and a JavaScript [number] are IEEE 754 binary64
    values: 53 bits of precision, round to nearest even. *)

Module Double.

Definition t : Type := spec_float.

Definition add (x y : t) : t := SFadd 53 1024 x y.
Definition sub (x y : t) : t := SFsub 53 1024 x y.
Definition mul (x y : t) : t := SFmul 53 1024 x y.
Definition div (x y : t) : t := SFdiv 53 1024 x y.

(** The float nearest to an integer ([float(n)], or the literal [n] of
    JavaScript). *)
Definition of_Z (n : Z) : t := binary_normalize 53 1024 n 0 false.

Definition one : t := of_Z 1.

(** The number that a finite float stands for. *)
Definition value (x : t) : option Q :=
  match x with
  | S754_zero _ => Some 0%Q
  | S754_finite s m e =>
      Some (match e with
            | Zneg k => Qmake (cond_Zopp s (Zpos m)) (2 ^ k)
            | _ => inject_Z (cond_Zopp s (Zpos m) * 2 ^ e)
            end)
  | S754_infinity _ | S754_nan => None
  end.

(** [x > n] for a float [x] and an [int] [n]: Python compares the two
    numbers exactly; a NaN is greater than nothing. *)
Definition gt_int (x : t) (n : Z) : bool :=
  match x with
  | S754_nan => false
  | S754_infinity s => negb s
  | S754_zero _ | S754_finite _ _ _ =>
      match value x with
      | Some q => negb (Qle_bool q (inject_Z n))
      | None => false
      end
  end.

End Double.

(** ** SHA-256 ([hashlib.sha256]) on bytes, words as [Z] modulo 2^32 *)

Module SHA256.

Definition mask32 : Z := 0xFFFFFFFF.
Definition w32 (x : Z) : Z := Z.land x mask32.
Definition add32 (x y : Z) : Z := w32 (x + y).
Definition rotr (n x : Z) : Z :=
  Z.lor (Z.shiftr x n) (w32 (Z.shiftl x (32 - n))).
Definition not32 (x : Z) : Z := Z.lxor x mask32.

Definition Ch (x y z : Z) : Z := Z.lxor (Z.land x y) (Z.land (not32 x) z).
Definition Maj (x y z : Z) : Z :=
  Z.lxor (Z.lxor (Z.land x y) (Z.land x z)) (Z.land y z).
Definition Sigma0 (x : Z) : Z := Z.lxor (Z.lxor (rotr 2 x) (rotr 13 x)) (rotr 22 x).
Definition Sigma1 (x : Z) : Z := Z.lxor (Z.lxor (rotr 6 x) (rotr 11 x)) (rotr 25 x).
Definition sigma0 (x : Z) : Z := Z.lxor (Z.lxor (rotr 7 x) (rotr 18 x)) (Z.shiftr x 3).
Definition sigma1 (x : Z) : Z := Z.lxor (Z.lxor (rotr 17 x) (rotr 19 x)) (Z.shiftr x 10).

(** The constants are derived as FIPS 180-4 defines them, from the first
    sixty-four primes. *)
Definition is_prime (n : Z) : bool :=
  forallb (fun d => negb (n mod Z.of_nat d =? 0)) (seq 2 (Z.to_nat n - 2)).

Definition primes : list Z :=
  Eval vm_compute in filter is_prime (map Z.of_nat (seq 2 310)).

(** The largest [r] below [2 ^ bits] with [r ^ 3 <= n]. *)
Fixpoint cube_root (bits : nat) (n r : Z) : Z :=
  match bits with
  | O => r
  | S b =>
      let candidate := r + 2 ^ Z.of_nat b in
      cube_root b n (if candidate ^ 3 <=? n then candidate else r)
  end.

(** Round constants: the first 32 bits of the fractional parts of the
    cube roots of the primes. *)
Definition K : list Z :=
  Eval vm_compute in map (fun p => w32 (cube_root 36 (p * 2 ^ 96) 0)) primes.

(** Initial hash value: the first 32 bits of the fractional parts of the
    square roots of the first eight primes. *)
Definition H0 : list Z :=
  Eval vm_compute in map (fun p => w32 (Z.sqrt (p * 2 ^ 64))) (firstn 8 primes).

(** Big-endian bytes of a [n]-byte number. *)
Fixpoint be_bytes (n : nat) (x : Z) : list Z :=
  match n with
  | O => []
  | S m => Z.land (Z.shiftr x (8 * Z.of_nat m)) 255 :: be_bytes m x
  end.

(** The message followed by 0x80, zeros up to 56 modulo 64, and the bit
    length on eight bytes. *)
Definition pad (msg : list Z) : list Z :=
  let len := Z.of_nat (length msg) in
  let zeros := Z.to_nat ((55 - len) mod 64) in
  msg ++ [128] ++ repeat 0 zeros ++ be_bytes 8 (8 * len).

(** Big-endian words of a byte string (a trailing partial word is
    dropped; [pad] never leaves one). *)
Fixpoint words (bytes : list Z) : list Z :=
  match bytes with
  | b0 :: b1 :: b2 :: b3 :: rest =>
      Z.lor (Z.shiftl b0 24) (Z.lor (Z.shiftl b1 16) (Z.lor (Z.shiftl b2 8) b3))
      :: words rest
  | _ => []
  end.

(** One round.  [window] holds the sixteen schedule words W(t)..W(t+15);
    the round consumes W(t) and appends W(t+16). *)
Definition round (st : list Z * list Z) (k : Z) : list Z * list Z :=
  match st with
  | ([a; b; c; d; e; f; g; h], window) =>
      let w := nth 0 window 0 in
      let t1 := add32 (add32 (add32 (add32 h (Sigma1 e)) (Ch e f g)) k) w in
      let t2 := add32 (Sigma0 a) (Maj a b c) in
      let next :=
        add32 (add32 (add32 (sigma1 (nth 14 window 0)) (nth 9 window 0))
                     (sigma0 (nth 1 window 0))) w in
      ([add32 t1 t2; a; b; c; add32 d t1; e; f; g], tl window ++ [next])
  | _ => st
  end.

Fixpoint add_all (xs ys : list Z) : list Z :=
  match xs, ys with
  | x :: xs', y :: ys' => add32 x y :: add_all xs' ys'
  | _, _ => []
  end.

Definition compress (h : list Z) (block : list Z) : list Z :=
  add_all h (fst (fold_left round K (h, block))).

(** The hash state after all sixteen-word blocks of [ws]; [fuel] bounds
    the number of blocks. *)
Fixpoint blocks (fuel : nat) (h : list Z) (ws : list Z) : list Z :=
  match fuel, ws with
  | S n, _ :: _ => blocks n (compress h (firstn 16 ws)) (skipn 16 ws)
  | _, _ => h
  end.

(** The 32-byte digest. *)
Definition digest (msg : list Z) : list Z :=
  let ws := words (pad msg) in
  flat_map (be_bytes 4) (blocks (length ws) H0 ws).

Definition hex_digit (n : Z) : ascii :=
  if n <? 10 then ascii_of_N (Z.to_N (48 + n)) else ascii_of_N (Z.to_N (87 + n)).

Fixpoint hex (bytes : list Z) : string :=
  match bytes with
  | [] => EmptyString
  | b :: rest =>
      String (hex_digit (Z.shiftr b 4)) (String (hex_digit (Z.land b 15)) (hex rest))
  end.

(** [hashlib.sha256(msg).hexdigest()] *)
Definition hexdigest (msg : list Z) : string := hex (digest msg).

End SHA256.

(** ** Data models *)

(** [class CSI] *)
Record CSI : Type := {
  vernacular_term : string;
  transliteration : string;
  english_context : string;
  cultural_significance : string
}.

(** [class ExtractedAttributes] *)
Record ExtractedAttributes : Type := {
  category : string;
  subcategory : string;
  material : list string;
  colors : list string;
  dimensions : gmap string pyval;
  weight : gmap string pyval;
  price : gmap string pyval;
  short_description : string;
  long_description : string;
  csis : list CSI;
  craft_technique : string;
  region_of_origin : string;
  confidence_scores : gmap string pyval
}.

(** [class ItemDescriptor]: the fields that the mapper fills and the
    validator reads. *)
Record ItemDescriptor : Type := {
  name : string;
  short_desc : string;
  long_desc : string;
  images : list string
}.

(** [Price(currency=..., value=...)] *)
Record Price : Type := {
  currency : pyval;
  value : pyval
}.

(** [class ONDCCatalogItem]: the fields that the mapper fills and the
    validator reads.  [item_price] is [None] when [payload.price] is. *)
Record ONDCCatalogItem : Type := {
  id : string;
  descriptor : ItemDescriptor;
  item_price : option Price;
  category_id : string;
  tags : gmap string string
}.

Record ValidationResult : Type := {
  is_valid : bool;
  errors : list string
}.

(** [enum ProcessingStatus] *)
Inductive ProcessingStatus : Type :=
| PENDING
| IN_PROGRESS
| COMPLETED
| FAILED
| SKIPPED.

(** ** Deterministic ID generation *)

(** The list [id_components] of [generate_item_id]; only the price lookup
    can raise. *)
Definition id_components (extracted : ExtractedAttributes) : result (list string) :=
  v ← getitem (price extracted) "value";
  Ok [ category extracted;
       subcategory extracted;
       Py.join "," (Py.sorted (material extracted));
       Py.join "," (Py.sorted (colors extracted));
       Py.str v ].

(** ['|'.join(id_components)] *)
Definition hash_input (extracted : ExtractedAttributes) : result string :=
  parts ← id_components extracted;
  Ok (Py.join "|" parts).

(** [hashlib.sha256(hash_input.encode()).hexdigest()[:16]] *)
Definition item_hash (input : string) : string :=
  Py.prefix 16 (SHA256.hexdigest (Py.encode input)).

Definition generate_item_id (extracted : ExtractedAttributes) : result string :=
  input ← hash_input extracted;
  Ok ("item_" +:+ item_hash input).

(** ** Long description *)

(** One line of the section: [f"- {term} ({translit}): {context}\n"]. *)
Definition csi_line (csi : CSI) : string :=
  "- " +:+ vernacular_term csi +:+ " (" +:+ transliteration csi +:+ "): "
       +:+ english_context csi +:+ String "010" "".

(** The loop [for csi in extracted.csis: csi_section += ...]. *)
Definition csi_section (items : list CSI) : string :=
  fold_left (fun acc csi => acc +:+ csi_line csi) items
            ("Cultural Significance:" +:+ String "010" "").

Definition build_long_description (extracted : ExtractedAttributes) : string :=
  let parts := [long_description extracted] in
  let parts :=
    match csis extracted with
    | [] => parts
    | _ :: _ => parts ++ [csi_section (csis extracted)]
    end in
  let parts :=
    if String.eqb (craft_technique extracted) "" then parts
    else parts ++ ["Craft Technique: " +:+ craft_technique extracted] in
  Py.join (String "010" (String "010" "")) parts.

(** ** Mapper and validator

    The helpers [get_image_urls], [map_csis_to_tags], [is_valid_price],
    [is_valid_url] and [auto_correct], and the part of the category table
    elided in the design (["# ... comprehensive mapping table"]), are not
    in the sources: they are parameters. *)

(** A dict display [{k1: v1, k2: v2, ...}]: a later entry replaces an
    earlier one with the same key. *)
Definition dict_of {V : Type} (entries : list (string * V)) : gmap string V :=
  fold_left (fun d kv => <[kv.1 := kv.2]> d) entries ∅.

Section Mapper.

Variable category_mapping_rest : list (string * string).
Variable get_image_urls : ExtractedAttributes -> list string.
Variable map_csis_to_tags : list CSI -> gmap string string.
Variable is_valid_price : pyval -> bool.
Variable is_valid_url : string -> bool.

Definition category_mapping : gmap string string :=
  dict_of ([ ("handloom saree", "Fashion:Ethnic Wear:Sarees");
             ("pottery", "Home & Decor:Handicrafts:Pottery");
             ("jewelry", "Fashion:Jewelry:Handcrafted") ]
           ++ category_mapping_rest).

(** [category_mapping.get(category.lower(), 'General:Handicrafts')] *)
Definition map_category_to_ondc (category : string) : string :=
  default "General:Handicrafts" (category_mapping !! Py.lower category).

(** The keyword arguments are evaluated in the order written: the id
    first, then the descriptor, the price, the category and the tags. *)
Definition map_to_beckn_item (extracted : ExtractedAttributes)
  : result ONDCCatalogItem :=
  item_id ← generate_item_id extracted;
  let item_descriptor :=
    {| name := Py.prefix 100 (short_description extracted);
       short_desc := short_description extracted;
       long_desc := build_long_description extracted;
       images := get_image_urls extracted |} in
  cur ← getitem (price extracted) "currency";
  v ← getitem (price extracted) "value";
  Ok {| id := item_id;
        descriptor := item_descriptor;
        item_price := Some {| currency := cur; value := PyStr (Py.str v) |};
        category_id := map_category_to_ondc (category extracted);
        tags :=
          map_csis_to_tags (csis extracted)
          ∪ dict_of [ ("material", Py.join "," (material extracted));
                      ("color", Py.join "," (colors extracted));
                      ("craft_technique", craft_technique extracted);
                      ("region", region_of_origin extracted) ] |}.

(** [payload.price.value]; [payload.price] being [None] raises. *)
Definition price_value (payload : ONDCCatalogItem) : result pyval :=
  match item_price payload with
  | Some p => Ok (value p)
  | None => Raise (AttributeError "'NoneType' object has no attribute 'value'")
  end.

(** [not payload.price or not payload.price.value] *)
Definition price_value_missing (payload : ONDCCatalogItem) : bool :=
  match item_price payload with
  | None => true
  | Some p => negb (Py.truthy (value p))
  end.

(** The loop over [payload.descriptor.images]. *)
Definition image_errors (urls : list string) : list string :=
  flat_map (fun img_url =>
              if is_valid_url img_url then []
              else ["Invalid image URL: " +:+ img_url]) urls.

Definition validate_ondc_payload (payload : ONDCCatalogItem)
  : result ValidationResult :=
  let errors := [] in
  (* Required field validation *)
  let errors :=
    if String.eqb (name (descriptor payload)) ""
    then errors ++ ["descriptor.name is required"] else errors in
  let errors :=
    if price_value_missing payload
    then errors ++ ["price.value is required"] else errors in
  let errors :=
    if String.eqb (category_id payload) ""
    then errors ++ ["category_id is required"] else errors in
  (* Format validation *)
  v ← price_value payload;
  let errors :=
    if Py.truthy v && negb (is_valid_price v)
    then errors ++ ["price.value must be numeric string"] else errors in
  (* Length validation *)
  let errors :=
    if (100 <? String.length (name (descriptor payload)))%nat
    then errors ++ ["descriptor.name must be <= 100 characters"] else errors in
  let errors :=
    if (500 <? String.length (short_desc (descriptor payload)))%nat
    then errors ++ ["descriptor.short_desc must be <= 500 characters"]
    else errors in
  (* Image validation *)
  let errors :=
    match images (descriptor payload) with
    | [] => errors ++ ["At least one image is required"]
    | _ :: _ => errors
    end in
  let errors := errors ++ image_errors (images (descriptor payload)) in
  Ok {| is_valid := (length errors =? 0)%nat; errors := errors |}.

End Mapper.

(** ** Catalog processing record and error handlers *)

(** [class CatalogProcessingRecord].  A field that is not set yet holds
    [None] (the payload, the catalog id, the completion time). *)
Record CatalogProcessingRecord : Type := {
  tracking_id : string;
  tenant_id : string;
  artisan_id : string;
  photo_key : string;
  audio_key : string;
  language : string;
  asr_status : ProcessingStatus;
  asr_result : gmap string pyval;
  vision_status : ProcessingStatus;
  vision_result : gmap string pyval;
  extraction_status : ProcessingStatus;
  extraction_result : gmap string pyval;
  mapping_status : ProcessingStatus;
  ondc_payload : option ONDCCatalogItem;
  submission_status : ProcessingStatus;
  ondc_catalog_id : option string;
  created_at : Z;
  updated_at : Z;
  completed_at : option Z
}.

Definition set_asr (record : CatalogProcessingRecord) (status : ProcessingStatus)
    (res : gmap string pyval) : CatalogProcessingRecord :=
  {| tracking_id := tracking_id record; tenant_id := tenant_id record;
     artisan_id := artisan_id record; photo_key := photo_key record;
     audio_key := audio_key record; language := language record;
     asr_status := status; asr_result := res;
     vision_status := vision_status record; vision_result := vision_result record;
     extraction_status := extraction_status record;
     extraction_result := extraction_result record;
     mapping_status := mapping_status record; ondc_payload := ondc_payload record;
     submission_status := submission_status record;
     ondc_catalog_id := ondc_catalog_id record;
     created_at := created_at record; updated_at := updated_at record;
     completed_at := completed_at record |}.

Definition set_mapping (record : CatalogProcessingRecord) (status : ProcessingStatus)
    (payload : option ONDCCatalogItem) : CatalogProcessingRecord :=
  {| tracking_id := tracking_id record; tenant_id := tenant_id record;
     artisan_id := artisan_id record; photo_key := photo_key record;
     audio_key := audio_key record; language := language record;
     asr_status := asr_status record; asr_result := asr_result record;
     vision_status := vision_status record; vision_result := vision_result record;
     extraction_status := extraction_status record;
     extraction_result := extraction_result record;
     mapping_status := status; ondc_payload := payload;
     submission_status := submission_status record;
     ondc_catalog_id := ondc_catalog_id record;
     created_at := created_at record; updated_at := updated_at record;
     completed_at := completed_at record |}.

Definition set_submission_status (record : CatalogProcessingRecord)
    (status : ProcessingStatus) : CatalogProcessingRecord :=
  {| tracking_id := tracking_id record; tenant_id := tenant_id record;
     artisan_id := artisan_id record; photo_key := photo_key record;
     audio_key := audio_key record; language := language record;
     asr_status := asr_status record; asr_result := asr_result record;
     vision_status := vision_status record; vision_result := vision_result record;
     extraction_status := extraction_status record;
     extraction_result := extraction_result record;
     mapping_status := mapping_status record; ondc_payload := ondc_payload record;
     submission_status := status;
     ondc_catalog_id := ondc_catalog_id record;
     created_at := created_at record; updated_at := updated_at record;
     completed_at := completed_at record |}.

(** [class ONDCResponse] *)
Record ONDCResponse : Type := {
  status_code : Z;
  body : string
}.

(** What a handler does besides mutating [record]: the calls on the
    collaborators of [self], in the order made, each with the record as
    it is at the time of the call. *)
Inductive effect : Type :=
| QueuePublish (record : CatalogProcessingRecord) (priority : string)
| QueuePublishWithDelay (record : CatalogProcessingRecord) (delay_seconds : Z)
| NotifyManualReview (record : CatalogProcessingRecord) (errors : option (list string))
| NotifyArtisan (record : CatalogProcessingRecord) (message : string)
| AuditLogFailure (record : CatalogProcessingRecord) (response : ONDCResponse)
| LoggerError (message : string).

(** [str(error)] for the exceptions of the model. *)
Definition exc_str (e : pyexc) : string :=
  match e with
  | KeyError k => "'" +:+ k +:+ "'"
  | AttributeError m => m
  | TypeError m => m
  | CircuitBreakerOpenError => ""
  | ModelTimeoutError => ""
  | UnsupportedLanguageError => ""
  | OtherError m => m
  end.

Module ProcessingErrorHandler.

Definition handle_asr_error (record : CatalogProcessingRecord) (error : pyexc)
  : CatalogProcessingRecord * list effect :=
  match error with
  | ModelTimeoutError =>
      (* Retry with smaller audio chunk *)
      let record := set_asr record PENDING (asr_result record) in
      (record, [QueuePublish record "high"])
  | UnsupportedLanguageError =>
      (* Flag for manual transcription *)
      let record :=
        set_asr record FAILED
          (dict_of [ ("error", PyStr "unsupported_language");
                     ("fallback", PyStr "manual") ]) in
      (record, [NotifyManualReview record None])
  | _ =>
      (* Log and continue with empty transcription *)
      let message :=
        "ASR failed for " +:+ tracking_id record +:+ ": " +:+ exc_str error in
      let record :=
        set_asr record SKIPPED
          (dict_of [ ("transcription", PyStr "");
                     ("confidence", PyFloat "0.0") ]) in
      (record, [LoggerError message])
  end.

Section Validation.

(** [self.auto_correct(payload, errors)]: a corrected payload, or
    nothing. *)
Variable auto_correct :
  option ONDCCatalogItem -> list string -> option ONDCCatalogItem.

Definition handle_validation_error (record : CatalogProcessingRecord)
    (errors : list string) : CatalogProcessingRecord * list effect :=
  (* Attempt automatic correction *)
  match auto_correct (ondc_payload record) errors with
  | Some corrected_payload =>
      (set_mapping record COMPLETED (Some corrected_payload), [])
  | None =>
      (* Flag for manual review *)
      let record := set_mapping record FAILED (ondc_payload record) in
      (record, [NotifyManualReview record (Some errors)])
  end.

End Validation.

End ProcessingErrorHandler.

Module ONDCErrorHandler.

Inductive error_category : Type :=
| RETRYABLE
| VALIDATION_ERROR
| PERMANENT.

(** ['validation' in response.body] *)
Definition mentions_validation (text : string) : bool :=
  match index 0 "validation" text with
  | Some _ => true
  | None => false
  end.

Definition categorize_error (response : ONDCResponse) : error_category :=
  if 500 <=? status_code response then RETRYABLE
  else if status_code response =? 429 then RETRYABLE
  else if (status_code response =? 400) && mentions_validation (body response)
       then VALIDATION_ERROR
  else PERMANENT.

Section Submission.

(** [self.handle_validation_error] and [self.parse_validation_errors]:
    the class defines neither method and has no base class that does, so
    both are parameters, as the collaborators of [self] are.  The first
    gives the record as it leaves it and the calls that it made. *)
Variable handle_validation_error :
  CatalogProcessingRecord -> list string -> CatalogProcessingRecord * list effect.
Variable parse_validation_errors : ONDCResponse -> list string.

Definition handle_submission_error (record : CatalogProcessingRecord)
    (response : ONDCResponse) : CatalogProcessingRecord * list effect :=
  match categorize_error response with
  | RETRYABLE =>
      (* Retry with same idempotency key *)
      let record := set_submission_status record PENDING in
      (record, [QueuePublishWithDelay record 60])
  | VALIDATION_ERROR =>
      (* Parse specific validation errors and attempt correction *)
      let validation_errors := parse_validation_errors response in
      handle_validation_error record validation_errors
  | PERMANENT =>
      (* Permanent failure - notify and log *)
      let record := set_submission_status record FAILED in
      (record, [AuditLogFailure record response;
                NotifyArtisan record "submission_failed"])
  end.

End Submission.

End ONDCErrorHandler.

(** ** Circuit breaker *)

Module CircuitBreaker.

Inductive breaker_state : Type :=
| CLOSED
| OPEN
| HALF_OPEN.

Record t : Type := {
  failure_count : Z;
  failure_threshold : Z;
  timeout : Z;
  state : breaker_state;
  last_failure_time : option Double.t
}.

(** [__init__(failure_threshold, timeout)]; the defaults are 5 and 60. *)
Definition init (failure_threshold timeout : Z) : t :=
  {| failure_count := 0;
     failure_threshold := failure_threshold;
     timeout := timeout;
     state := CLOSED;
     last_failure_time := None |}.

Definition set_state (self : t) (s : breaker_state) : t :=
  {| failure_count := failure_count self;
     failure_threshold := failure_threshold self;
     timeout := timeout self;
     state := s;
     last_failure_time := last_failure_time self |}.

Definition set_failure_count (self : t) (n : Z) : t :=
  {| failure_count := n;
     failure_threshold := failure_threshold self;
     timeout := timeout self;
     state := state self;
     last_failure_time := last_failure_time self |}.

Definition set_last_failure_time (self : t) (now : Double.t) : t :=
  {| failure_count := failure_count self;
     failure_threshold := failure_threshold self;
     timeout := timeout self;
     state := state self;
     last_failure_time := Some now |}.

Section Call.

(** The world that the wrapped function acts on; [clock] is the float
    that [time.time()] reads in it. *)
Context {W A : Type}.
Variable clock : W -> Double.t.

(** [time.time() - self.last_failure_time > self.timeout]: the
    difference of the two floats is rounded to a float, which is then
    compared with the [int]. *)
Definition cooled_down (now last : Double.t) (timeout : Z) : bool :=
  Double.gt_int (Double.sub now last) timeout.

(** The first [if] of [call]: the breaker after the test, or the
    exception that leaves [call] before [func] is tried. *)
Definition before_call (self : t) (w : W) : result t :=
  match state self with
  | OPEN =>
      match last_failure_time self with
      | Some last =>
          if cooled_down (clock w) last (timeout self)
          then Ok (set_state self HALF_OPEN)
          else Raise CircuitBreakerOpenError
      | None =>
          Raise (TypeError "unsupported operand type(s) for -: 'float' and 'NoneType'")
      end
  | _ => Ok self
  end.

Definition on_success (self : t) : t :=
  match state self with
  | HALF_OPEN => set_failure_count (set_state self CLOSED) 0
  | _ => self
  end.

Definition on_failure (self : t) (now : Double.t) : t :=
  let self := set_failure_count self (failure_count self + 1) in
  let self := set_last_failure_time self now in
  if failure_threshold self <=? failure_count self
  then set_state self OPEN
  else self.

(** [call(func)]: the result or the exception, the breaker and the
    world afterwards. *)
Definition call (self : t) (func : W -> result A * W) (w : W)
  : result A * t * W :=
  match before_call self w with
  | Raise e => (Raise e, self, w)
  | Ok self =>
      match func w with
      | (Ok r, w') => (Ok r, on_success self, w')
      | (Raise e, w') => (Raise e, on_failure self (clock w'), w')
      end
  end.

(** The breaker after a sequence of calls. *)
Fixpoint run (self : t) (funcs : list (W -> result A * W)) (w : W) : t * W :=
  match funcs with
  | [] => (self, w)
  | func :: rest =>
      let '(_, self', w') := call self func w in
      run self' rest w'
  end.

End Call.

End CircuitBreaker.

(** ** Parts of the pipeline that the sources describe but do not contain *)

Module Resolver.

(** Modelled from the spec: the interpretation that one source (voice or
    vision) gives of an item, the input of the resolver, which is not in
    the sources; a field that the source does not mention is [None]. *)
Record Interpretation : Type := {
  i_category : option string;
  i_subcategory : option string;
  i_material : option (list string);
  i_colors : option (list string);
  i_dimensions : option (gmap string pyval);
  i_weight : option (gmap string pyval);
  i_price : option (gmap string pyval);
  i_craft_technique : option string;
  i_region_of_origin : option string
}.

(** Modelled from the spec: the conflict resolution rule of the
    Attribute Extractor and Resolver (the extraction code is not in the
    sources).  For one field, the voice-derived value wins when both
    are present, and the vision-derived value is used when voice does
    not mention the field. *)
Definition prefer_voice {A : Type} (voice vision : option A) : option A :=
  match voice with
  | Some v => Some v
  | None => vision
  end.

(** Modelled from the spec: the resolver output, an
    [ExtractedAttributes] whose attribute fields are resolved one by
    one; a field that neither source mentions is left empty, and the
    descriptions, the CSIs and the scores come from [generated], the
    output of description generation. *)
Definition resolve (voice vision : Interpretation)
    (generated : ExtractedAttributes) : ExtractedAttributes :=
  {| category := default "" (prefer_voice (i_category voice) (i_category vision));
     subcategory :=
       default "" (prefer_voice (i_subcategory voice) (i_subcategory vision));
     material := default [] (prefer_voice (i_material voice) (i_material vision));
     colors := default [] (prefer_voice (i_colors voice) (i_colors vision));
     dimensions :=
       default ∅ (prefer_voice (i_dimensions voice) (i_dimensions vision));
     weight := default ∅ (prefer_voice (i_weight voice) (i_weight vision));
     price := default ∅ (prefer_voice (i_price voice) (i_price vision));
     short_description := short_description generated;
     long_description := long_description generated;
     csis := csis generated;
     craft_technique :=
       default "" (prefer_voice (i_craft_technique voice)
                                (i_craft_technique vision));
     region_of_origin :=
       default "" (prefer_voice (i_region_of_origin voice)
                                (i_region_of_origin vision));
     confidence_scores := confidence_scores generated |}.

(** The attribute fields, and a uniform view of their values. *)
Inductive field : Type :=
| Category | Subcategory | Material | Colors | Dimensions | Weight
| PriceField | CraftTechnique | RegionOfOrigin.

Inductive field_value : Type :=
| Text (s : string)
| Items (l : list string)
| Dict (d : gmap string pyval).

Definition mentioned (f : field) (i : Interpretation) : option field_value :=
  match f with
  | Category => Text <$> i_category i
  | Subcategory => Text <$> i_subcategory i
  | Material => Items <$> i_material i
  | Colors => Items <$> i_colors i
  | Dimensions => Dict <$> i_dimensions i
  | Weight => Dict <$> i_weight i
  | PriceField => Dict <$> i_price i
  | CraftTechnique => Text <$> i_craft_technique i
  | RegionOfOrigin => Text <$> i_region_of_origin i
  end.

Definition extracted_value (f : field) (e : ExtractedAttributes) : field_value :=
  match f with
  | Category => Text (category e)
  | Subcategory => Text (subcategory e)
  | Material => Items (material e)
  | Colors => Items (colors e)
  | Dimensions => Dict (dimensions e)
  | Weight => Dict (weight e)
  | PriceField => Dict (price e)
  | CraftTechnique => Text (craft_technique e)
  | RegionOfOrigin => Text (region_of_origin e)
  end.

End Resolver.

Module SubmissionManager.

(** Modelled from the spec: one row of the Record Store (the store and
    the [version] field are not in the sources): the processing record,
    the idempotency key of its mapped item, and the version counter. *)
Record Entry : Type := {
  entry_record : CatalogProcessingRecord;
  idempotency_key : string;
  version : Z
}.

(** Modelled from the spec: what the marketplace gateway answers to one
    attempt (the gateway client is not in the sources): a catalog id with
    a response code, or an error response. *)
Inductive gateway_outcome : Type :=
| Accepted (catalog_id : string) (response_code : Z)
| Rejected (response : ONDCResponse).

(** Modelled from the spec: the write of a successful submission (not in
    the sources): the stage is COMPLETED and the record holds the id. *)
Definition complete_submission (record : CatalogProcessingRecord)
    (catalog_id : string) : CatalogProcessingRecord :=
  {| tracking_id := tracking_id record; tenant_id := tenant_id record;
     artisan_id := artisan_id record; photo_key := photo_key record;
     audio_key := audio_key record; language := language record;
     asr_status := asr_status record; asr_result := asr_result record;
     vision_status := vision_status record; vision_result := vision_result record;
     extraction_status := extraction_status record;
     extraction_result := extraction_result record;
     mapping_status := mapping_status record; ondc_payload := ondc_payload record;
     submission_status := COMPLETED;
     ondc_catalog_id := Some catalog_id;
     created_at := created_at record; updated_at := updated_at record;
     completed_at := completed_at record |}.

(** Modelled from the spec: update-versus-create detection of the
    Submission Manager (not in the sources): the catalog id of a stored
    record with the same idempotency key and a populated
    [ondc_catalog_id], if there is one. *)
Definition existing_catalog_id (store : gmap string Entry) (key : string)
  : option string :=
  head (omap (fun kv : string * Entry =>
                if String.eqb (idempotency_key kv.2) key
                then ondc_catalog_id (entry_record kv.2)
                else None)
             (map_to_list store)).

Section Submit.

Variable auto_correct :
  option ONDCCatalogItem -> list string -> option ONDCCatalogItem.
Variable parse_validation_errors : ONDCResponse -> list string.

(** Modelled from the spec: one submission attempt for the record
    [tid] and what the gateway answered (the Submission Manager is not
    in the sources; the rejection path is [handle_submission_error]
    of the sources, given [handle_validation_error] of
    [ProcessingErrorHandler] for the method that its class leaves out).  With an existing catalog id for the key, the
    attempt is an update: the original id is carried forward and the
    version incremented; otherwise it is a creation and the id that
    the gateway assigned is stored.  An id already stored in the
    record is never replaced. *)
Definition submit (store : gmap string Entry) (tid : string)
    (outcome : gateway_outcome) : gmap string Entry * list effect :=
  match store !! tid with
  | None => (store, [])
  | Some e =>
      match outcome with
      | Accepted assigned _ =>
          match existing_catalog_id store (idempotency_key e) with
          | Some original =>
              let kept := default original (ondc_catalog_id (entry_record e)) in
              (<[tid := {| entry_record := complete_submission (entry_record e) kept;
                           idempotency_key := idempotency_key e;
                           version := version e + 1 |}]> store, [])
          | None =>
              let kept := default assigned (ondc_catalog_id (entry_record e)) in
              (<[tid := {| entry_record := complete_submission (entry_record e) kept;
                           idempotency_key := idempotency_key e;
                           version := version e |}]> store, [])
          end
      | Rejected response =>
          let '(record, effects) :=
            ONDCErrorHandler.handle_submission_error
              (ProcessingErrorHandler.handle_validation_error auto_correct)
              parse_validation_errors (entry_record e) response in
          (<[tid := {| entry_record := record;
                       idempotency_key := idempotency_key e;
                       version := version e |}]> store, effects)
      end
  end.

(** Modelled from the spec: a sequence of attempts, on any records,
    retries and updates included (the retry loop is not in the sources). *)
Fixpoint submit_all (store : gmap string Entry)
    (attempts : list (string * gateway_outcome)) : gmap string Entry :=
  match attempts with
  | [] => store
  | (tid, outcome) :: rest => submit_all (submit store tid outcome).1 rest
  end.

End Submit.

End SubmissionManager.

Section SubmissionGuard.

Variable is_valid_price : pyval -> bool.
Variable is_valid_url : string -> bool.
Context {W : Type}.

(** Modelled from the spec: the step between validation and the
    marketplace gateway (the orchestrator code that calls the gateway
    is not in the sources).  A payload that fails validation is a hard
    rejection and no submission is attempted; [gateway] is the call to
    the external gateway, acting on the world [W]. *)
Definition submit_if_valid (gateway : ONDCCatalogItem -> W -> W)
    (payload : ONDCCatalogItem) (w : W) : result W :=
  v ← validate_ondc_payload is_valid_price is_valid_url payload;
  Ok (if is_valid v then gateway payload w else w).

End SubmissionGuard.

Module Corrector.

Section AutoCorrect.

Variable is_valid_price : pyval -> bool.
Variable is_valid_url : string -> bool.

(** The corrections themselves (truncate, strip, substitute a safe
    default), given the payload and the reported errors. *)
Variable correct : ONDCCatalogItem -> list string -> ONDCCatalogItem.

(** Modelled from the spec: [self.auto_correct], which the handler
    [handle_validation_error] calls and which is not in the sources.
    The bounded auto-correction is applied once and is followed by one
    re-validation pass; a payload that still fails it is not handed
    back, which makes the handler mark the record FAILED and route it to
    manual review.  Without a payload there is nothing to correct. *)
Definition auto_correct (payload : option ONDCCatalogItem) (errors : list string)
  : option ONDCCatalogItem :=
  match payload with
  | Some item =>
      let corrected := correct item errors in
      match validate_ondc_payload is_valid_price is_valid_url corrected with
      | Ok revalidated => if is_valid revalidated then Some corrected else None
      | Raise _ => None
      end
  | None => None
  end.

End AutoCorrect.

End Corrector.

(** The long description as the specification words it: each of the three
    sections is left out when its source data is absent. *)
Definition spec_build_long_description (extracted : ExtractedAttributes) : string :=
  let parts :=
    if String.eqb (long_description extracted) "" then []
    else [long_description extracted] in
  let parts :=
    match csis extracted with
    | [] => parts
    | _ :: _ => parts ++ [csi_section (csis extracted)]
    end in
  let parts :=
    if String.eqb (craft_technique extracted) "" then parts
    else parts ++ ["Craft Technique: " +:+ craft_technique extracted] in
  Py.join (String "010" (String "010" "")) parts.

(** ** Sample instances of the helpers that the sources leave out

    They are used to run the definitions on concrete inputs. *)

Module Sample.

Definition is_digit (c : ascii) : bool :=
  let n := N_of_ascii c in ((48 <=? n) && (n <=? 57))%N.

Fixpoint all_digits (s : string) : bool :=
  match s with
  | EmptyString => true
  | String c rest => is_digit c && all_digits rest
  end.

(** A price is valid when it is a non-empty string of digits. *)
Definition is_valid_price (v : pyval) : bool :=
  match v with
  | PyStr s => negb (String.eqb s "") && all_digits s
  | _ => false
  end.

(** A URL is well formed when it starts with [https://]. *)
Definition is_valid_url (url : string) : bool :=
  String.eqb (Py.prefix 8 url) "https://".

Definition get_image_urls (_ : ExtractedAttributes) : list string :=
  ["https://media.example/item.jpg"].

Definition map_csis_to_tags (items : list CSI) : gmap string string :=
  dict_of (map (fun csi => ("csi_" +:+ transliteration csi, vernacular_term csi))
               items).

(** Truncation of the two length-checked fields. *)
Definition truncate (payload : ONDCCatalogItem) : ONDCCatalogItem :=
  {| id := id payload;
     descriptor :=
       {| name := Py.prefix 100 (name (descriptor payload));
          short_desc := Py.prefix 500 (short_desc (descriptor payload));
          long_desc := long_desc (descriptor payload);
          images := images (descriptor payload) |};
     item_price := item_price payload;
     category_id := category_id payload;
     tags := tags payload |}.

(** An auto-correction that truncates over-long fields. *)
Definition auto_correct (payload : option ONDCCatalogItem) (_ : list string)
  : option ONDCCatalogItem :=
  truncate <$> payload.

Definition parse_validation_errors (response : ONDCResponse) : list string :=
  [body response].

Definition saree : ExtractedAttributes :=
  {| category := "Handloom Saree";
     subcategory := "Banarasi Silk";
     material := ["silk"; "zari"];
     colors := ["red"; "gold"];
     dimensions := ∅;
     weight := ∅;
     price := dict_of [("value", PyInt 2500); ("currency", PyStr "INR")];
     short_description := "Handwoven Banarasi silk saree";
     long_description := "A Banarasi silk saree with zari work.";
     csis := [ {| vernacular_term := "zari";
                  transliteration := "zari";
                  english_context := "metallic thread work";
                  cultural_significance := "wedding wear" |} ];
     craft_technique := "Handwoven on pit loom";
     region_of_origin := "Varanasi, Uttar Pradesh";
     confidence_scores := ∅ |}.


Definition blank_record : CatalogProcessingRecord :=
  {| tracking_id := "trk-1"; tenant_id := "tenant-123";
     artisan_id := "artisan-456"; photo_key := "photo.jpg";
     audio_key := "audio.opus"; language := "hi";
     asr_status := IN_PROGRESS; asr_result := ∅;
     vision_status := PENDING; vision_result := ∅;
     extraction_status := PENDING; extraction_result := ∅;
     mapping_status := PENDING; ondc_payload := None;
     submission_status := PENDING; ondc_catalog_id := None;
     created_at := 0; updated_at := 0; completed_at := None |}.

End Sample.

(** ** Inputs for the idempotency key *)

Module Collision.



(** The sample saree with materials and colours listed in another
    order and other descriptions. *)
Definition saree_reordered : ExtractedAttributes :=
  {| category := "Handloom Saree";
     subcategory := "Banarasi Silk";
     material := ["zari"; "silk"];
     colors := ["gold"; "red"];
     dimensions := ∅;
     weight := ∅;
     price := dict_of [("currency", PyStr "INR"); ("value", PyInt 2500)];
     short_description := "Red and gold saree";
     long_description := "";
     csis := [];
     craft_technique := "";
     region_of_origin := "";
     confidence_scores := ∅ |}.


End Collision.

(** ** Closed forms used in the statements *)


(** The fields of a CSI that its line of the long description prints. *)
Definition printed_fields (csi : CSI) : string * string * string :=
  (vernacular_term csi, transliteration csi, english_context csi).

(** The singleton [[msg]] when [b] holds, nothing otherwise. *)
Definition when (b : bool) (msg : string) : list string :=
  if b then [msg] else [].

(** The sections of the long description after the first, in order. *)
Definition later_sections (extracted : ExtractedAttributes) : list string :=
  match csis extracted with
  | [] => []
  | _ :: _ => [csi_section (csis extracted)]
  end
  ++ (if String.eqb (craft_technique extracted) "" then []
      else ["Craft Technique: " +:+ craft_technique extracted]).

(** The hard rejections of the validator on a payload whose price object
    is [pr]: an empty name, a price value that is missing or not numeric,
    an empty category, no image, or an image reference that is not a
    well-formed URL. *)
Definition hard_defect (is_valid_price : pyval -> bool)
    (is_valid_url : string -> bool) (payload : ONDCCatalogItem) (pr : Price)
  : Prop :=
  name (descriptor payload) = ""
  \/ Py.truthy (value pr) = false
  \/ is_valid_price (value pr) = false
  \/ category_id payload = ""
  \/ images (descriptor payload) = []
  \/ (exists url, In url (images (descriptor payload))
                  /\ is_valid_url url = false).

(** Attributes with neither a long description nor CSIs, and a craft
    technique. *)
Definition bare_pot : ExtractedAttributes :=
  {| category := "pottery";
     subcategory := "";
     material := ["clay"];
     colors := ["brown"];
     dimensions := ∅;
     weight := ∅;
     price := dict_of [("value", PyInt 250); ("currency", PyStr "INR")];
     short_description := "Clay pot";
     long_description := "";
     csis := [];
     craft_technique := "Wheel thrown";
     region_of_origin := "";
     confidence_scores := ∅ |}.

(** ** Sample payloads and records *)

Fixpoint replicate (n : nat) (c : ascii) : string :=
  match n with
  | O => EmptyString
  | S m => String c (replicate m c)
  end.

(** A payload with a price object whose value is empty. *)
Definition unpriced_item : ONDCCatalogItem :=
  {| id := "item_0000000000000000";
     descriptor := {| name := "Clay pot"; short_desc := "Clay pot";
                      long_desc := "";
                      images := ["https://media.example/pot.jpg"] |};
     item_price := Some {| currency := PyStr "INR"; value := PyStr "" |};
     category_id := "Home & Decor:Handicrafts:Pottery";
     tags := ∅ |}.

(** A payload with a name of 101 characters and no image. *)
Definition overlong_item : ONDCCatalogItem :=
  {| id := "item_0000000000000000";
     descriptor := {| name := replicate 101 "a"; short_desc := "Clay pot";
                      long_desc := ""; images := [] |};
     item_price := Some {| currency := PyStr "INR"; value := PyStr "250" |};
     category_id := "Home & Decor:Handicrafts:Pottery";
     tags := ∅ |}.

(** The record of [overlong_item] after mapping, and the errors that the
    validator reports for it. *)
Definition overlong_record : CatalogProcessingRecord :=
  set_mapping Sample.blank_record IN_PROGRESS (Some overlong_item).

Definition overlong_errors : list string :=
  [ "descriptor.name must be <= 100 characters";
    "At least one image is required" ].

(** ** Breakers that a program can hold, and sample calls *)

(** A breaker as it stands between two calls: built by [__init__] and
    changed by [call] only. *)
Inductive reachable {W A : Type} (clock : W -> Double.t) : CircuitBreaker.t -> Prop :=
| reachable_init (failure_threshold timeout : Z) :
    reachable clock (CircuitBreaker.init failure_threshold timeout)
| reachable_call (self : CircuitBreaker.t) (func : W -> result A * W) (w : W) :
    reachable clock self ->
    reachable clock (CircuitBreaker.call clock self func w).1.2.

(** Between two calls the breaker is never HALF_OPEN, and it is OPEN only
    with the counter at or above the threshold and a recorded failure
    time. *)
Definition settled (self : CircuitBreaker.t) : Prop :=
  CircuitBreaker.state self <> CircuitBreaker.HALF_OPEN
  /\ (CircuitBreaker.state self = CircuitBreaker.OPEN ->
      CircuitBreaker.failure_threshold self <= CircuitBreaker.failure_count self
      /\ is_Some (CircuitBreaker.last_failure_time self)).

(** The world of the samples is the time itself; a call takes one
    second. *)
Definition seconds (w : Double.t) : Double.t := w.

Definition failing_call (w : Double.t) : result unit * Double.t :=
  (Raise (OtherError "503 Service Unavailable"), Double.add w Double.one).

Definition passing_call (w : Double.t) : result unit * Double.t :=
  (Ok tt, Double.add w Double.one).

(** The breaker with threshold 2 and timeout 60 after one failing call
    made at time 0. *)
Definition failed_once : CircuitBreaker.t :=
  (CircuitBreaker.call seconds (CircuitBreaker.init 2 60) failing_call
     (Double.of_Z 0)).1.2.

(** The floats [0.2] and [60.2]: the nearest to 1/5 and to 301/5. *)
Definition fifth : Double.t := Double.div (Double.of_Z 1) (Double.of_Z 5).

Definition sixty_and_fifth : Double.t :=
  Double.div (Double.of_Z 301) (Double.of_Z 5).

(** A breaker with threshold 1 and timeout 60 that was opened by a
    failure at time [since]. *)
Definition tripped (since : Double.t) : CircuitBreaker.t :=
  CircuitBreaker.on_failure (CircuitBreaker.init 1 60) since.

(** ** The scenario of the specification for the resolver

    Transcription "stunning banarasi silk saree, 2500 rupees" and a
    vision result with category "sari" and colour red. *)

Definition voice_says : Resolver.Interpretation :=
  {| Resolver.i_category := Some "banarasi saree";
     Resolver.i_subcategory := None;
     Resolver.i_material := Some ["silk"];
     Resolver.i_colors := None;
     Resolver.i_dimensions := None;
     Resolver.i_weight := None;
     Resolver.i_price :=
       Some (dict_of [("value", PyInt 2500); ("currency", PyStr "INR")]);
     Resolver.i_craft_technique := None;
     Resolver.i_region_of_origin := None |}.

Definition vision_sees : Resolver.Interpretation :=
  {| Resolver.i_category := Some "sari";
     Resolver.i_subcategory := None;
     Resolver.i_material := None;
     Resolver.i_colors := Some ["red"];
     Resolver.i_dimensions := None;
     Resolver.i_weight := None;
     Resolver.i_price := None;
     Resolver.i_craft_technique := None;
     Resolver.i_region_of_origin := None |}.

(** ** A store for the submission scenario

    Two records of the same product (same idempotency key); [trk-1] has
    been published as [cat-1], [trk-2] has not been submitted yet. *)

Definition published_entry : SubmissionManager.Entry :=
  {| SubmissionManager.entry_record :=
       SubmissionManager.complete_submission Sample.blank_record "cat-1";
     SubmissionManager.idempotency_key := "item_9b6b68c5f65325bf";
     SubmissionManager.version := 1 |}.

Definition pending_entry : SubmissionManager.Entry :=
  {| SubmissionManager.entry_record := Sample.blank_record;
     SubmissionManager.idempotency_key := "item_9b6b68c5f65325bf";
     SubmissionManager.version := 1 |}.

Definition sample_store : gmap string SubmissionManager.Entry :=
  dict_of [("trk-1", published_entry); ("trk-2", pending_entry)].

(** The catalog id that the store holds for a record. *)
Definition stored_catalog_id (store : gmap string SubmissionManager.Entry)
    (tid : string) : option string :=
  e ← store !! tid; ondc_catalog_id (SubmissionManager.entry_record e).

Definition stored_version (store : gmap string SubmissionManager.Entry)
    (tid : string) : option Z :=
  SubmissionManager.version <$> store !! tid.

(** ** Edge client error handler (TypeScript) *)

Module EdgeClient.

(** [enum QueueStatus] *)
Inductive QueueStatus : Type :=
| QUEUED
| SYNCING
| SYNCED
| SYNC_FAILED.

(** [interface LocalQueueEntry].  The sizes and the retry count are of
    type [number], a float; a [timestamp] is kept as an integer. *)
Record LocalQueueEntry : Type := {
  localId : string;
  photoPath : string;
  audioPath : string;
  photoSize : Double.t;
  audioSize : Double.t;
  capturedAt : Z;
  syncStatus : QueueStatus;
  retryCount : Double.t;
  lastRetryAt : option Z;
  trackingId : option string;
  errorMessage : option string
}.

(** [CaptureError]: the handler reads its [type] only. *)
Record CaptureError : Type := {
  error_type : string;
  error_detail : string
}.

(** The calls that the handler makes, in order; an entry is recorded as
    it is at the time of the call. *)
Inductive ui_effect : Type :=
| ShowLocalizedMessage (key : string)
| OpenAppSettings
| SuggestCleanup
| LogError (error : CaptureError)
| ScheduleRetry (entry : LocalQueueEntry) (delay : Double.t)
| NotifyUser (entry : LocalQueueEntry).

(** [n++] on a [number]: the float sum of [n] and 1. *)
Definition increment (n : Double.t) : Double.t := Double.add n Double.one.

Definition handleCaptureError (error : CaptureError) : list ui_effect :=
  if String.eqb (error_type error) "CAMERA_PERMISSION_DENIED" then
    [ShowLocalizedMessage "camera_permission_required"; OpenAppSettings]
  else if String.eqb (error_type error) "STORAGE_FULL" then
    [ShowLocalizedMessage "storage_full"; SuggestCleanup]
  else
    [LogError error; ShowLocalizedMessage "capture_failed_retry"].

Section Sync.

(** [SyncError] and the helpers [isTransientError], [calculateBackoff]
    and [localizeError] are not in the sources. *)
Context {SyncError : Type}.
Variable isTransientError : SyncError -> bool.
Variable calculateBackoff : Double.t -> Double.t.
Variable localizeError : SyncError -> string.

Definition handleSyncError (entry : LocalQueueEntry) (error : SyncError)
  : LocalQueueEntry * list ui_effect :=
  if isTransientError error then
    let entry :=
      {| localId := localId entry; photoPath := photoPath entry;
         audioPath := audioPath entry; photoSize := photoSize entry;
         audioSize := audioSize entry; capturedAt := capturedAt entry;
         syncStatus := QUEUED;
         retryCount := increment (retryCount entry);
         lastRetryAt := lastRetryAt entry; trackingId := trackingId entry;
         errorMessage := errorMessage entry |} in
    (entry, [ScheduleRetry entry (calculateBackoff (retryCount entry))])
  else
    let entry :=
      {| localId := localId entry; photoPath := photoPath entry;
         audioPath := audioPath entry; photoSize := photoSize entry;
         audioSize := audioSize entry; capturedAt := capturedAt entry;
         syncStatus := SYNC_FAILED;
         retryCount := retryCount entry;
         lastRetryAt := lastRetryAt entry; trackingId := trackingId entry;
         errorMessage := Some (localizeError error) |} in
    (entry, [NotifyUser entry]).

(** The handler applied to the errors of successive sync attempts of one
    entry; the effects are in the order made. *)
Fixpoint handleSyncErrors (entry : LocalQueueEntry) (errors : list SyncError)
  : LocalQueueEntry * list ui_effect :=
  match errors with
  | [] => (entry, [])
  | error :: rest =>
      let '(entry, made) := handleSyncError entry error in
      let '(entry, later) := handleSyncErrors entry rest in
      (entry, made ++ later)
  end.

End Sync.

End EdgeClient.

(** ** CDK application entry point ([bin/app.ts]) *)

Module CdkApp.

(** The [env] property of the stack: [account] may be undefined. *)
Record StackEnv : Type := {
  account : option string;
  region : string
}.

(** [a || b] on a value that is a string or undefined: the empty string
    is falsy as well. *)
Definition or_else (a : option string) (b : string) : string :=
  match a with
  | Some s => if String.eqb s "" then b else s
  | None => b
  end.

(** The [env] passed to [VernacularArtisanCatalogStack], from
    [process.env]. *)
Definition stack_env (process_env : gmap string string) : StackEnv :=
  {| account := process_env !! "CDK_DEFAULT_ACCOUNT";
     region := or_else (process_env !! "CDK_DEFAULT_REGION") "ap-south-1" |}.

End CdkApp.

(** ** Deployment script ([scripts/deploy_infrastructure.sh]) *)

Module DeployScript.

(** The external commands of the script, in the order of the text. *)
Inductive command : Type :=
| CommandV (tool : string)
| NpmInstallGlobalCdk
| AwsStsGetCallerIdentity
| CdBackendInfrastructureCdk
| NpmInstall
| CdkBootstrap
| CdkSynth
| CdkDeploy.

Inductive event : Type :=
| Echo (line : string)
| Run (c : command).

(** A run of the script: the exit status and what was echoed and run.
    [status c] is the exit status of command [c] on this machine.  Under
    [set -e] a command that fails outside a condition ends the script
    with its status. *)
Section Script.

Variable status : command -> Z.

Definition ok (c : command) : bool := status c =? 0.

(** The commands after a step, under [set -e]: [rest] runs only when the
    step succeeds. *)
Definition then_run (c : command) (rest : Z * list event) : Z * list event :=
  if ok c then (rest.1, Run c :: rest.2) else (status c, [Run c]).

Definition banner : string := "==========================================".

Definition deploy_steps : Z * list event :=
  let '(code, events) :=
    then_run CdBackendInfrastructureCdk
      (let '(code, events) :=
         then_run NpmInstall
           (let bootstrap :=
              if ok CdkBootstrap then [Run CdkBootstrap]
              else [Run CdkBootstrap; Echo "CDK already bootstrapped"] in
            let '(code, events) :=
              then_run CdkSynth
                (let '(code, events) :=
                   then_run CdkDeploy
                     (0, [Echo banner; Echo "Deployment complete!"; Echo banner;
                          Echo "Check AWS Console for deployed resources"]) in
                 (code, Echo "Deploying stack..." :: events)) in
            (code, Echo "Bootstrapping CDK..." :: bootstrap
                   ++ Echo "Synthesizing CloudFormation template..." :: events)) in
       (code, Echo "Installing CDK dependencies..." :: events)) in
  (code, events).

Definition check_credentials : Z * list event :=
  if ok AwsStsGetCallerIdentity then
    let '(code, events) := deploy_steps in
    (code, Echo "Checking AWS credentials..." :: Run AwsStsGetCallerIdentity :: events)
  else
    (1, [Echo "Checking AWS credentials..."; Run AwsStsGetCallerIdentity;
         Echo "Error: AWS credentials not configured. Run 'aws configure' first."]).

Definition check_cdk : Z * list event :=
  if ok (CommandV "cdk") then
    let '(code, events) := check_credentials in
    (code, Run (CommandV "cdk") :: events)
  else
    let '(code, events) := then_run NpmInstallGlobalCdk check_credentials in
    (code, Run (CommandV "cdk")
           :: Echo "Error: AWS CDK not found. Installing..." :: events).

Definition check_node : Z * list event :=
  if ok (CommandV "node") then
    let '(code, events) := check_cdk in
    (code, Run (CommandV "node") :: events)
  else
    (1, [Run (CommandV "node");
         Echo "Error: Node.js not found. Please install it first."]).

Definition deploy_infrastructure : Z * list event :=
  let header :=
    [Echo banner; Echo "Deploying Vernacular Artisan Catalog Infrastructure";
     Echo banner; Echo "Checking prerequisites..."] in
  if ok (CommandV "aws") then
    let '(code, events) := check_node in
    (code, header ++ Run (CommandV "aws") :: events)
  else
    (1, header ++ [Run (CommandV "aws");
                   Echo "Error: AWS CLI not found. Please install it first."]).

End Script.

(** The commands that a run executed, in order. *)
Definition commands_run (events : list event) : list command :=
  omap (fun e => match e with Run c => Some c | Echo _ => None end) events.

End DeployScript.

(** ** Predicates on strings used in the statements *)

(** Every character of [s] satisfies [p]. *)
Fixpoint all_chars (p : ascii -> bool) (s : string) : bool :=
  match s with
  | EmptyString => true
  | String c rest => p c && all_chars p rest
  end.

(** One of [0-9a-f]. *)
Definition is_lower_hex (c : ascii) : bool :=
  let n := N_of_ascii c in
  (((48 <=? n) && (n <=? 57)) || ((97 <=? n) && (n <=? 102)))%N.

(** [t in s]: [t] occurs in [s] as a contiguous piece. *)
Definition occurs_in (t s : string) : Prop :=
  exists before after, s = before +:+ t +:+ after.

(** ** Inputs for the separator of the id *)

(** The same components with the ["|"] inside the category, and inside
    the subcategory. *)
Definition piped_category : ExtractedAttributes :=
  {| category := "Home|Decor";
     subcategory := "Pottery";
     material := ["clay"];
     colors := [];
     dimensions := ∅;
     weight := ∅;
     price := dict_of [("value", PyInt 250); ("currency", PyStr "INR")];
     short_description := "Clay pot";
     long_description := "";
     csis := [];
     craft_technique := "";
     region_of_origin := "";
     confidence_scores := ∅ |}.

Definition piped_subcategory : ExtractedAttributes :=
  {| category := "Home";
     subcategory := "Decor|Pottery";
     material := ["clay"];
     colors := [];
     dimensions := ∅;
     weight := ∅;
     price := dict_of [("value", PyInt 250); ("currency", PyStr "INR")];
     short_description := "Earthen pot";
     long_description := "";
     csis := [];
     craft_technique := "";
     region_of_origin := "";
     confidence_scores := ∅ |}.

(** ** Handlers over a sequence of failures *)

(** [handle_asr_error] applied to the errors of successive ASR attempts
    on one record; the effects are in the order made. *)
Fixpoint handle_asr_errors (record : CatalogProcessingRecord) (errors : list pyexc)
  : CatalogProcessingRecord * list effect :=
  match errors with
  | [] => (record, [])
  | error :: rest =>
      let '(record, made) := ProcessingErrorHandler.handle_asr_error record error in
      let '(record, later) := handle_asr_errors record rest in
      (record, made ++ later)
  end.

(** The fields of a record that belong to no stage handled by the error
    handlers: identity, media, language, vision and extraction stages,
    catalog id and times. *)
Definition same_outside_stages (r r' : CatalogProcessingRecord) : Prop :=
  tracking_id r' = tracking_id r /\ tenant_id r' = tenant_id r
  /\ artisan_id r' = artisan_id r /\ photo_key r' = photo_key r
  /\ audio_key r' = audio_key r /\ language r' = language r
  /\ vision_status r' = vision_status r /\ vision_result r' = vision_result r
  /\ extraction_status r' = extraction_status r
  /\ extraction_result r' = extraction_result r
  /\ ondc_catalog_id r' = ondc_catalog_id r
  /\ created_at r' = created_at r /\ updated_at r' = updated_at r
  /\ completed_at r' = completed_at r.

(** ** Calls that always fail *)

(** A wrapped function that raises in every world. *)
Definition always_raises {W A : Type} (func : W -> result A * W) : Prop :=
  forall w, exists e w', func w = (Raise e, w').

(** ** Sample queue entry of the edge client *)

Definition sample_entry : EdgeClient.LocalQueueEntry :=
  {| EdgeClient.localId := "local-1";
     EdgeClient.photoPath := "/data/photo.jpg";
     EdgeClient.audioPath := "/data/audio.opus";
     EdgeClient.photoSize := Double.of_Z 204800;
     EdgeClient.audioSize := Double.of_Z 51200;
     EdgeClient.capturedAt := 0;
     EdgeClient.syncStatus := EdgeClient.SYNCING;
     EdgeClient.retryCount := Double.of_Z 0;
     EdgeClient.lastRetryAt := None;
     EdgeClient.trackingId := None;
     EdgeClient.errorMessage := None |}.

(** Sample helpers: an error is its HTTP status, transient from 500 up;
    the backoff is one second for every retry made. *)
Definition sample_is_transient (status : Z) : bool := 500 <=? status.
Definition sample_backoff (retry : Double.t) : Double.t :=
  Double.mul (Double.of_Z 1000) retry.

(** The sample entry after [2^53 - 1] retries. *)
Definition worn_entry : EdgeClient.LocalQueueEntry :=
  {| EdgeClient.localId := "local-1";
     EdgeClient.photoPath := "/data/photo.jpg";
     EdgeClient.audioPath := "/data/audio.opus";
     EdgeClient.photoSize := Double.of_Z 204800;
     EdgeClient.audioSize := Double.of_Z 51200;
     EdgeClient.capturedAt := 0;
     EdgeClient.syncStatus := EdgeClient.QUEUED;
     EdgeClient.retryCount := Double.of_Z (2 ^ 53 - 1);
     EdgeClient.lastRetryAt := None;
     EdgeClient.trackingId := None;
     EdgeClient.errorMessage := None |}.

(** The delays of the retries that were scheduled, in order. *)
Definition scheduled_delays (made : list EdgeClient.ui_effect) : list Double.t :=
  omap (fun e => match e with
                 | EdgeClient.ScheduleRetry _ delay => Some delay
                 | _ => None
                 end) made.
Definition sample_localize (status : Z) : string :=
  "sync_failed_" +:+ Py.str (PyInt status).

(** ** Conditions of the deployment script *)

(** The checks of the script pass: the three tools are there (or the
    CDK could be installed) and the credentials are valid. *)
Definition prerequisites_met (status : DeployScript.command -> Z) : bool :=
  DeployScript.ok status (DeployScript.CommandV "aws")
  && DeployScript.ok status (DeployScript.CommandV "node")
  && (DeployScript.ok status (DeployScript.CommandV "cdk")
      || DeployScript.ok status DeployScript.NpmInstallGlobalCdk)
  && DeployScript.ok status DeployScript.AwsStsGetCallerIdentity.

(** The steps before the deployment succeed; the bootstrap is not among
    them. *)
Definition build_succeeds (status : DeployScript.command -> Z) : bool :=
  DeployScript.ok status DeployScript.CdBackendInfrastructureCdk
  && DeployScript.ok status DeployScript.NpmInstall
  && DeployScript.ok status DeployScript.CdkSynth.

(** A machine on which everything works except [cdk bootstrap]. *)
Definition bootstrapped_machine (c : DeployScript.command) : Z :=
  match c with
  | DeployScript.CdkBootstrap => 1
  | _ => 0
  end.

(** A machine with [aws] and [node] but without [cdk], on which the
    global installation fails and the credentials are not valid. *)
Definition bare_machine (c : DeployScript.command) : Z :=
  match c with
  | DeployScript.CommandV "cdk" => 1
  | DeployScript.NpmInstallGlobalCdk => 243
  | DeployScript.AwsStsGetCallerIdentity => 255
  | _ => 0
  end.

(** ** Strings without a separator *)

(** [sep not in s] *)
Definition free_of (sep : ascii) (s : string) : bool :=
  all_chars (fun c => negb (Ascii.eqb c sep)) s.

(** An element that the comma-join of the id keeps apart from its
    neighbours: not empty, and without [","] and ["|"]. *)
Definition plain_element (x : string) : Prop :=
  x <> "" /\ free_of "," x = true /\ free_of "|" x = true.

(** Attributes whose category and subcategory contain no ["|"] and whose
    materials and colours are plain elements. *)
Definition unambiguous (e : ExtractedAttributes) : Prop :=
  free_of "|" (category e) = true
  /\ free_of "|" (subcategory e) = true
  /\ List.Forall plain_element (material e)
  /\ List.Forall plain_element (colors e).

(** * Properties *)

(** ** Known answers *)

(** Known answers of SHA-256 (FIPS 180-4 examples). *)
Example sha256_empty :
  SHA256.hexdigest [] =
  "e3b0c44298fc1c149afbf4c8996fb92427ae41e4649b934ca495991b7852b855".
Proof. vm_compute. reflexivity. Qed.

Example sha256_abc :
  SHA256.hexdigest (Py.encode "abc") =
  "ba7816bf8f01cfea414140de5dae2223b00361a396177a9cb410ff61f20015ad".
Proof. vm_compute. reflexivity. Qed.

Example sha256_two_blocks :
  SHA256.hexdigest
    (Py.encode "abcdbcdecdefdefgefghfghighijhijkijkljklmklmnlmnomnopnopq") =
  "248d6a61d20638b8e5c026930c3e6039a33ce45964ff2167f6ecedd419db06c1".
Proof. vm_compute. reflexivity. Qed.

Example generate_item_id_saree :
  hash_input Sample.saree = Ok "Handloom Saree|Banarasi Silk|silk,zari|gold,red|2500"
  /\ generate_item_id Sample.saree = Ok "item_9b6b68c5f65325bf".
Proof. split; vm_compute; reflexivity. Qed.

(** Known answers of binary64 arithmetic: [0.1 + 0.2] is
    [0.30000000000000004] (bits [0x3FD3333333333334]), [0.2] has the bits
    [0x3FC999999999999A], and [2^53 + 1] rounds to [2^53]. *)
Example double_known_answers :
  Double.add (Double.div (Double.of_Z 1) (Double.of_Z 10))
             (Double.div (Double.of_Z 1) (Double.of_Z 5))
  = S754_finite false 0x13333333333334 (-54)
  /\ Double.div (Double.of_Z 1) (Double.of_Z 5)
     = S754_finite false 0x1999999999999A (-55)
  /\ Double.add (Double.of_Z (2 ^ 53)) Double.one = Double.of_Z (2 ^ 53)
  /\ Double.gt_int (Double.of_Z 60) 60 = false
  /\ Double.gt_int (Double.div (Double.of_Z 121) (Double.of_Z 2)) 60 = true.
Proof. vm_compute. repeat split. Qed.

(** ** Strings *)

Lemma append_cons (c : ascii) (s t : string) :
  String c s +:+ t = String c (s +:+ t).
Proof. reflexivity. Qed.


Lemma length_append (s t : string) :
  String.length (s +:+ t) = (String.length s + String.length t)%nat.
Proof.
  induction s as [|c s IH]; [reflexivity |].
  rewrite append_cons. simpl. now rewrite IH.
Qed.

Lemma append_nil_r (s : string) : s +:+ "" = s.
Proof.
  induction s as [|c s IH]; [reflexivity |].
  rewrite append_cons. now rewrite IH.
Qed.

Lemma append_assoc (s t u : string) : (s +:+ t) +:+ u = s +:+ (t +:+ u).
Proof.
  induction s as [|c s IH]; [reflexivity |].
  rewrite !append_cons. now rewrite IH.
Qed.



(** [join] on a non-empty tail. *)
Lemma join_cons (sep p q : string) (rest : list string) :
  Py.join sep (p :: q :: rest) = p +:+ sep +:+ Py.join sep (q :: rest).
Proof. reflexivity. Qed.


(** [str] separates distinct integers. *)
Lemma str_int_inj (z1 z2 : Z) : Py.str (PyInt z1) = Py.str (PyInt z2) -> z1 = z2.
Proof.
  simpl. intros H.
  assert (Hnil : forall z, Z.to_int z <> Decimal.Pos Decimal.Nil
                           /\ Z.to_int z <> Decimal.Neg Decimal.Nil).
  { intros [|p|p]; simpl; split; try discriminate; intros E; injection E as E;
      exact (DecimalPos.Unsigned.to_uint_nonnil p E). }
  apply DecimalZ.to_int_inj.
  destruct (Hnil z1) as [A1 B1], (Hnil z2) as [A2 B2].
  pose proof (NilZero.isi _ A1 B1) as I1.
  pose proof (NilZero.isi _ A2 B2) as I2.
  rewrite H in I1. rewrite I1 in I2. now injection I2.
Qed.

(** ** Idempotency key *)












(** ** Long description *)

Lemma csi_section_fold (items : list CSI) (header : string) :
  fold_left (fun acc csi => acc +:+ csi_line csi) items header
  = header +:+ Py.join "" (map csi_line items).
Proof.
  revert header. induction items as [|csi items IH]; intros header; simpl.
  - now rewrite append_nil_r.
  - rewrite IH, append_assoc. f_equal.
    destruct items as [|csi' items]; simpl; [now rewrite append_nil_r |].
    reflexivity.
Qed.

Lemma build_long_description_parts (e : ExtractedAttributes) :
  build_long_description e
  = Py.join (String "010" (String "010" "")) (long_description e :: later_sections e).
Proof.
  unfold build_long_description, later_sections.
  destruct (csis e); destruct (String.eqb (craft_technique e) ""); reflexivity.
Qed.

Lemma spec_build_long_description_parts (e : ExtractedAttributes) :
  long_description e <> "" ->
  spec_build_long_description e
  = Py.join (String "010" (String "010" "")) (long_description e :: later_sections e).
Proof.
  intros H. unfold spec_build_long_description, later_sections.
  destruct (String.eqb_spec (long_description e) ""); [contradiction |].
  destruct (csis e); destruct (String.eqb (craft_technique e) ""); reflexivity.
Qed.

(** C8, as stated, fails: with no long description the function still
    puts an empty first part in front of the separator, where the
    specification leaves the section out. *)
Lemma build_long_description_keeps_empty_part :
  long_description bare_pot = ""
  /\ build_long_description bare_pot
     = String "010" (String "010" "Craft Technique: Wheel thrown")
  /\ spec_build_long_description bare_pot = "Craft Technique: Wheel thrown"
  /\ build_long_description bare_pot <> spec_build_long_description bare_pot.
Proof. repeat split; try reflexivity. discriminate. Qed.

(** C8 (amended): [build_long_description] joins with a blank line, in
    this order, the long description (always, also when it is empty), the
    Cultural Significance section (the header, then one line
    ["- term (transliteration): context"] per CSI, in order) when there is
    at least one CSI, and the craft technique line when the technique is
    not empty; when the long description is not empty this is the
    description that the specification words. *)
Theorem build_long_description_sections (e : ExtractedAttributes) :
  build_long_description e
  = Py.join (String "010" (String "010" "")) (long_description e :: later_sections e)
  /\ later_sections e
     = match csis e with
       | [] => []
       | _ :: _ =>
           [("Cultural Significance:" +:+ String "010" "")
            +:+ Py.join "" (map csi_line (csis e))]
       end
       ++ when (negb (String.eqb (craft_technique e) ""))
               ("Craft Technique: " +:+ craft_technique e)
  /\ (long_description e <> "" ->
      build_long_description e = spec_build_long_description e).
Proof.
  split; [apply build_long_description_parts | split].
  - unfold later_sections, csi_section. rewrite csi_section_fold.
    destruct (csis e); destruct (String.eqb (craft_technique e) ""); reflexivity.
  - intros H. now rewrite build_long_description_parts,
      spec_build_long_description_parts.
Qed.

Lemma build_long_description_sections_witness :
  build_long_description Sample.saree = spec_build_long_description Sample.saree.
Proof.
  apply (proj2 (proj2 (build_long_description_sections Sample.saree))).
  discriminate.
Defined.

Example build_long_description_saree :
  build_long_description Sample.saree
  = "A Banarasi silk saree with zari work."
    +:+ String "010" (String "010" "Cultural Significance:")
    +:+ String "010" "- zari (zari): metallic thread work"
    +:+ String "010" ""
    +:+ String "010" (String "010" "Craft Technique: Handwoven on pit loom").
Proof. vm_compute. reflexivity. Qed.

(** ** Validator: closed form of the error list *)

Lemma validate_ondc_payload_errors (is_valid_price : pyval -> bool)
    (is_valid_url : string -> bool) (payload : ONDCCatalogItem) (pr : Price) :
  item_price payload = Some pr ->
  let errs :=
    when (String.eqb (name (descriptor payload)) "") "descriptor.name is required"
    ++ when (negb (Py.truthy (value pr))) "price.value is required"
    ++ when (String.eqb (category_id payload) "") "category_id is required"
    ++ when (Py.truthy (value pr) && negb (is_valid_price (value pr)))
            "price.value must be numeric string"
    ++ when (100 <? String.length (name (descriptor payload)))%nat
            "descriptor.name must be <= 100 characters"
    ++ when (500 <? String.length (short_desc (descriptor payload)))%nat
            "descriptor.short_desc must be <= 500 characters"
    ++ when (match images (descriptor payload) with [] => true | _ => false end)
            "At least one image is required"
    ++ image_errors is_valid_url (images (descriptor payload)) in
  validate_ondc_payload is_valid_price is_valid_url payload
  = Ok {| is_valid := (length errs =? 0)%nat; errors := errs |}.
Proof.
  intros Hp. unfold validate_ondc_payload, price_value, price_value_missing.
  rewrite Hp. cbn [mbind result_bind].
  destruct (String.eqb (name (descriptor payload)) "");
    destruct (Py.truthy (value pr));
    destruct (String.eqb (category_id payload) "");
    destruct (is_valid_price (value pr));
    destruct (100 <? String.length (name (descriptor payload)))%nat;
    destruct (500 <? String.length (short_desc (descriptor payload)))%nat;
    destruct (images (descriptor payload)); reflexivity.
Qed.

(** Without a price object the validator does not return: the format
    check dereferences [payload.price]. *)
Lemma validate_ondc_payload_no_price (is_valid_price : pyval -> bool)
    (is_valid_url : string -> bool) (payload : ONDCCatalogItem) :
  item_price payload = None ->
  validate_ondc_payload is_valid_price is_valid_url payload
  = Raise (AttributeError "'NoneType' object has no attribute 'value'").
Proof.
  intros Hp. unfold validate_ondc_payload, price_value. now rewrite Hp.
Qed.

Lemma image_errors_In (is_valid_url : string -> bool) (urls : list string)
    (msg : string) :
  In msg (image_errors is_valid_url urls) <->
  exists url, In url urls /\ is_valid_url url = false
              /\ msg = "Invalid image URL: " +:+ url.
Proof.
  unfold image_errors. rewrite in_flat_map. split.
  - intros (url & Hin & Hmsg). exists url.
    destruct (is_valid_url url); simpl in Hmsg; [contradiction |].
    destruct Hmsg as [<- | []]. auto.
  - intros (url & Hin & Hbad & ->). exists url. split; [exact Hin |].
    rewrite Hbad. now left.
Qed.

Lemma when_In (b : bool) (msg x : string) : In x (when b msg) <-> b = true /\ x = msg.
Proof.
  destruct b; simpl; split; try tauto.
  - intros [<- | []]. auto.
  - intros [_ ->]. now left.
  - intros [H _]. discriminate.
Qed.

(** ** Category mapping *)

Lemma lower_char_idempotent (c : ascii) :
  Py.lower_char (Py.lower_char c) = Py.lower_char c.
Proof. destruct c as [[] [] [] [] [] [] [] []]; reflexivity. Qed.

Lemma lower_idempotent (s : string) : Py.lower (Py.lower s) = Py.lower s.
Proof.
  induction s as [|c s IH]; simpl; [reflexivity |].
  now rewrite lower_char_idempotent, IH.
Qed.

Lemma fold_insert_values {V : Type} (P : V -> Prop) (entries : list (string * V)) :
  Forall (fun kv => P kv.2) entries ->
  forall m : gmap string V,
    (forall k v, m !! k = Some v -> P v) ->
    forall k v,
      fold_left (fun d kv => <[kv.1 := kv.2]> d) entries m !! k = Some v -> P v.
Proof.
  induction 1 as [|[k0 v0] entries H0 _ IH]; intros m Hm k v; simpl.
  - apply Hm.
  - apply IH. intros k' v'. simpl in H0.
    destruct (decide (k0 = k')) as [-> | Hne].
    + rewrite lookup_insert_eq. now intros [= <-].
    + rewrite lookup_insert_ne by exact Hne. apply Hm.
Qed.

Lemma category_mapping_values (rest : list (string * string)) :
  Forall (fun kv => kv.2 <> "") rest ->
  forall k v, category_mapping rest !! k = Some v -> v <> "".
Proof.
  intros Hrest. unfold category_mapping, dict_of.
  apply fold_insert_values.
  - repeat constructor; try discriminate. exact Hrest.
  - intros k v. now rewrite lookup_empty.
Qed.

Lemma map_category_to_ondc_nonempty (rest : list (string * string)) (c : string) :
  Forall (fun kv => kv.2 <> "") rest -> map_category_to_ondc rest c <> "".
Proof.
  intros Hrest. unfold map_category_to_ondc.
  destruct (category_mapping rest !! Py.lower c) as [v|] eqn:E; simpl.
  - exact (category_mapping_values rest Hrest _ _ E).
  - discriminate.
Qed.

(** C10: the lookup is case-insensitive, whatever the table holds;
    without a table entry the result is ['General:Handicrafts']; and (the
    elided table entries having non-empty values, as the three written
    ones have) the result is never empty, so that a payload carrying it
    as [category_id] is validated without the error
    ["category_id is required"]. *)
Theorem map_category_to_ondc_total (rest : list (string * string)) (c : string) :
  map_category_to_ondc rest c = map_category_to_ondc rest (Py.lower c)
  /\ (category_mapping rest !! Py.lower c = None ->
      map_category_to_ondc rest c = "General:Handicrafts")
  /\ (Forall (fun kv => kv.2 <> "") rest ->
      map_category_to_ondc rest c <> ""
      /\ (forall is_valid_price is_valid_url payload pr,
            item_price payload = Some pr ->
            category_id payload = map_category_to_ondc rest c ->
            exists v,
              validate_ondc_payload is_valid_price is_valid_url payload = Ok v
              /\ ~ In "category_id is required" (errors v))).
Proof.
  split; [| split].
  - unfold map_category_to_ondc. now rewrite lower_idempotent.
  - unfold map_category_to_ondc. now intros ->.
  - intros Hrest. split; [now apply map_category_to_ondc_nonempty |].
    intros ivp ivu payload pr Hp Hc.
    eexists. split; [apply (validate_ondc_payload_errors ivp ivu payload pr Hp) |].
    cbn [errors]. rewrite !in_app_iff, !when_In, image_errors_In.
    assert (Hne : String.eqb (category_id payload) "" = false).
    { apply String.eqb_neq. rewrite Hc. now apply map_category_to_ondc_nonempty. }
    rewrite Hne.
    intros [[_ H] | [[_ H] | [[H _] | [[_ H] | [[_ H] | [[_ H] | [[_ H] | H]]]]]]];
      try discriminate.
    destruct H as (url & _ & _ & H). discriminate.
Qed.

Lemma map_category_to_ondc_total_witness :
  map_category_to_ondc [] "Brassware" = "General:Handicrafts"
  /\ map_category_to_ondc [] "POTTERY" <> "".
Proof.
  split.
  - apply (proj1 (proj2 (map_category_to_ondc_total [] "Brassware"))).
    vm_compute. reflexivity.
  - apply (proj1 (proj2 (proj2 (map_category_to_ondc_total [] "POTTERY"))
                    (List.Forall_nil _))).
Defined.

Example map_category_to_ondc_pottery :
  map_category_to_ondc [] "POTTERY" = "Home & Decor:Handicrafts:Pottery"
  /\ map_category_to_ondc [] "Handloom Saree" = "Fashion:Ethnic Wear:Sarees"
  /\ map_category_to_ondc [("pottery", "Home:Pots")] "Pottery" = "Home:Pots".
Proof. repeat split. Qed.

(** ** Mapper *)

Lemma map_to_beckn_item_ok (rest : list (string * string))
    (get_image_urls : ExtractedAttributes -> list string)
    (map_csis_to_tags : list CSI -> gmap string string)
    (e : ExtractedAttributes) (item : ONDCCatalogItem) :
  map_to_beckn_item rest get_image_urls map_csis_to_tags e = Ok item ->
  generate_item_id e = Ok (id item)
  /\ name (descriptor item) = Py.prefix 100 (short_description e)
  /\ long_desc (descriptor item) = build_long_description e
  /\ category_id item = map_category_to_ondc rest (category e)
  /\ exists cur v,
       price e !! "currency" = Some cur /\ price e !! "value" = Some v
       /\ item_price item = Some {| currency := cur; value := PyStr (Py.str v) |}.
Proof.
  unfold map_to_beckn_item, getitem.
  destruct (generate_item_id e) as [item_id | ex]; cbn [mbind result_bind];
    [| discriminate].
  destruct (price e !! "currency") as [cur|]; cbn [mbind result_bind];
    [| discriminate].
  destruct (price e !! "value") as [v|]; cbn [mbind result_bind];
    [| discriminate].
  intros [= <-]. cbn. repeat split. eauto.
Qed.

(** The mapper returns an item exactly when the price dictionary has
    both keys. *)
Lemma map_to_beckn_item_returns (rest : list (string * string))
    (get_image_urls : ExtractedAttributes -> list string)
    (map_csis_to_tags : list CSI -> gmap string string)
    (e : ExtractedAttributes) :
  is_Some (price e !! "value") -> is_Some (price e !! "currency") ->
  exists item, map_to_beckn_item rest get_image_urls map_csis_to_tags e = Ok item.
Proof.
  intros [v Hv] [cur Hc].
  unfold map_to_beckn_item, generate_item_id, hash_input, id_components, getitem.
  rewrite Hv, Hc. cbn [mbind result_bind]. eauto.
Qed.




Example map_to_beckn_item_saree :
  exists item,
    map_to_beckn_item [] Sample.get_image_urls Sample.map_csis_to_tags Sample.saree
    = Ok item
    /\ id item = "item_9b6b68c5f65325bf"
    /\ name (descriptor item) = "Handwoven Banarasi silk saree"
    /\ item_price item = Some {| currency := PyStr "INR"; value := PyStr "2500" |}
    /\ category_id item = "Fashion:Ethnic Wear:Sarees"
    /\ tags item !! "material" = Some "silk,zari"
    /\ tags item !! "csi_zari" = Some "zari".
Proof. eexists. split; [vm_compute; reflexivity |]. repeat split. Qed.

(** A missing price makes the mapper raise instead of returning. *)
Example map_to_beckn_item_no_price :
  map_to_beckn_item [] Sample.get_image_urls Sample.map_csis_to_tags
    (Resolver.resolve
       {| Resolver.i_category := Some "pottery"; Resolver.i_subcategory := None;
          Resolver.i_material := None; Resolver.i_colors := None;
          Resolver.i_dimensions := None; Resolver.i_weight := None;
          Resolver.i_price := None; Resolver.i_craft_technique := None;
          Resolver.i_region_of_origin := None |}
       {| Resolver.i_category := None; Resolver.i_subcategory := None;
          Resolver.i_material := None; Resolver.i_colors := Some ["brown"];
          Resolver.i_dimensions := None; Resolver.i_weight := None;
          Resolver.i_price := None; Resolver.i_craft_technique := None;
          Resolver.i_region_of_origin := None |}
       bare_pot)
  = Raise (KeyError "value").
Proof. vm_compute. reflexivity. Qed.

(** ** Validator: hard rejections *)

Lemma validate_ondc_payload_rejects (is_valid_price : pyval -> bool)
    (is_valid_url : string -> bool) (payload : ONDCCatalogItem) (pr : Price) :
  item_price payload = Some pr ->
  hard_defect is_valid_price is_valid_url payload pr ->
  exists errs,
    validate_ondc_payload is_valid_price is_valid_url payload
    = Ok {| is_valid := false; errors := errs |}
    /\ errs <> [].
Proof.
  intros Hp Hd.
  pose proof (validate_ondc_payload_errors is_valid_price is_valid_url payload pr Hp)
    as Hv.
  cbv zeta in Hv. set (errs := (when _ _ ++ _)) in Hv.
  assert (Hin : exists msg, In msg errs).
  { subst errs.
    destruct Hd as [Hn | [Ht | [Hnum | [Hc | [Hi | (url & Hin & Hbad)]]]]].
    - exists "descriptor.name is required".
      rewrite in_app_iff, when_In. left. split; [| reflexivity].
      now apply String.eqb_eq.
    - exists "price.value is required".
      rewrite !in_app_iff, !when_In. right. left. now rewrite Ht.
    - destruct (Py.truthy (value pr)) eqn:Ht.
      + exists "price.value must be numeric string".
        rewrite !in_app_iff, !when_In. do 3 right. left. now rewrite Hnum.
      + exists "price.value is required".
        rewrite !in_app_iff, !when_In. right. left. auto.
    - exists "category_id is required".
      rewrite !in_app_iff, !when_In. do 2 right. left. split; [| reflexivity].
      now apply String.eqb_eq.
    - exists "At least one image is required".
      rewrite !in_app_iff, !when_In. do 6 right. left. now rewrite Hi.
    - exists ("Invalid image URL: " +:+ url).
      rewrite !in_app_iff, image_errors_In. do 7 right. eauto. }
  exists errs. rewrite Hv.
  destruct errs as [|msg0 errs']; [destruct Hin as [? []] |].
  split; [reflexivity | discriminate].
Qed.

(** C7: a payload (with its price object, as every mapped item has) that
    has an empty name, a missing or non-numeric price value, an empty
    category, no image or a malformed image URL is returned as not valid,
    with at least one error; and the check in front of the marketplace
    gateway then leaves the world as it was, whatever the gateway call
    would do: no submission is attempted. *)
Theorem validate_ondc_payload_hard_rejection (is_valid_price : pyval -> bool)
    (is_valid_url : string -> bool) (payload : ONDCCatalogItem) (pr : Price) :
  item_price payload = Some pr ->
  hard_defect is_valid_price is_valid_url payload pr ->
  (exists errs,
     validate_ondc_payload is_valid_price is_valid_url payload
     = Ok {| is_valid := false; errors := errs |}
     /\ errs <> [])
  /\ (forall (W : Type) (gateway : ONDCCatalogItem -> W -> W) (w : W),
        submit_if_valid is_valid_price is_valid_url gateway payload w = Ok w).
Proof.
  intros Hp Hd.
  destruct (validate_ondc_payload_rejects _ _ _ _ Hp Hd) as (errs & Hv & Hne).
  split; [eauto |].
  intros W gateway w. unfold submit_if_valid. now rewrite Hv.
Qed.

Lemma validate_ondc_payload_hard_rejection_witness :
  (exists errs,
     validate_ondc_payload Sample.is_valid_price Sample.is_valid_url unpriced_item
     = Ok {| is_valid := false; errors := errs |}
     /\ errs <> [])
  /\ (forall (W : Type) (gateway : ONDCCatalogItem -> W -> W) (w : W),
        submit_if_valid Sample.is_valid_price Sample.is_valid_url gateway
          unpriced_item w = Ok w).
Proof.
  apply (validate_ondc_payload_hard_rejection
           Sample.is_valid_price Sample.is_valid_url unpriced_item
           {| currency := PyStr "INR"; value := PyStr "" |}).
  - reflexivity.
  - right. left. reflexivity.
Defined.

Example validate_ondc_payload_unpriced :
  validate_ondc_payload Sample.is_valid_price Sample.is_valid_url unpriced_item
  = Ok {| is_valid := false; errors := ["price.value is required"] |}.
Proof. vm_compute. reflexivity. Qed.

Example validate_ondc_payload_saree :
  (item ← map_to_beckn_item [] Sample.get_image_urls Sample.map_csis_to_tags
            Sample.saree;
   validate_ondc_payload Sample.is_valid_price Sample.is_valid_url item)
  = Ok {| is_valid := true; errors := [] |}.
Proof. vm_compute. reflexivity. Qed.

(** ** ASR error handler *)

(** C5, as stated, fails: on a model timeout the handler puts the ASR
    stage back to PENDING and publishes the record again at high
    priority; the stage is not SKIPPED and no empty transcription is
    recorded.  (An unsupported language marks the stage FAILED.) *)
Lemma handle_asr_error_timeout_requeues :
  let '(record, effects) :=
    ProcessingErrorHandler.handle_asr_error Sample.blank_record ModelTimeoutError in
  asr_status record = PENDING
  /\ asr_status record <> SKIPPED
  /\ asr_result record !! "transcription" = None
  /\ effects = [QueuePublish record "high"].
Proof. cbn. repeat split. discriminate. Qed.

(** C5 (amended): for every ASR failure other than a model timeout and
    an unsupported language, the handler marks the ASR stage SKIPPED,
    records the empty transcription with confidence 0.0 and only logs the
    error: nothing is re-queued and no other field of the record
    changes.  A model timeout sets the stage to PENDING and publishes the
    record again at high priority; an unsupported language sets the stage
    to FAILED with a manual fallback and notifies manual review. *)
Theorem handle_asr_error_cases (record : CatalogProcessingRecord) (error : pyexc) :
  (error <> ModelTimeoutError -> error <> UnsupportedLanguageError ->
   ProcessingErrorHandler.handle_asr_error record error
   = (set_asr record SKIPPED
        (dict_of [("transcription", PyStr ""); ("confidence", PyFloat "0.0")]),
      [LoggerError ("ASR failed for " +:+ tracking_id record +:+ ": "
                    +:+ exc_str error)]))
  /\ (error = ModelTimeoutError ->
      ProcessingErrorHandler.handle_asr_error record error
      = (set_asr record PENDING (asr_result record),
         [QueuePublish (set_asr record PENDING (asr_result record)) "high"]))
  /\ (error = UnsupportedLanguageError ->
      let failed :=
        set_asr record FAILED
          (dict_of [("error", PyStr "unsupported_language");
                    ("fallback", PyStr "manual")]) in
      ProcessingErrorHandler.handle_asr_error record error
      = (failed, [NotifyManualReview failed None])).
Proof.
  split; [| split].
  - intros H1 H2. destruct error; try reflexivity; contradiction.
  - intros ->. reflexivity.
  - intros ->. reflexivity.
Qed.

Lemma handle_asr_error_cases_witness :
  let '(record, effects) :=
    ProcessingErrorHandler.handle_asr_error Sample.blank_record
      (OtherError "connection reset") in
  asr_status record = SKIPPED
  /\ asr_result record !! "transcription" = Some (PyStr "")
  /\ asr_result record !! "confidence" = Some (PyFloat "0.0")
  /\ effects = [LoggerError "ASR failed for trk-1: connection reset"].
Proof.
  rewrite (proj1 (handle_asr_error_cases Sample.blank_record
                    (OtherError "connection reset")));
    [| discriminate | discriminate].
  repeat split.
Defined.

(** ** Validation error handler *)

(** The handler itself runs no validation: it marks the stage COMPLETED
    with whatever payload [auto_correct] hands back.  With a helper that
    only truncates, the payload with an over-long name and no image is
    marked COMPLETED although the validator still rejects it; the
    re-validation pass has to be the helper's. *)
Example handle_validation_error_trusts_helper :
  exists corrected,
    ProcessingErrorHandler.handle_validation_error Sample.auto_correct
      overlong_record overlong_errors
    = (set_mapping overlong_record COMPLETED (Some corrected), [])
    /\ validate_ondc_payload Sample.is_valid_price Sample.is_valid_url corrected
       = Ok {| is_valid := false;
               errors := ["At least one image is required"] |}.
Proof. eexists. split; [reflexivity |]. vm_compute. reflexivity. Qed.

(** C9: one run of [handle_validation_error], with the auto-correction
    of the specification for [self.auto_correct].  The corrections are
    applied once, to the payload of the record and the reported errors
    (the outcome depends on them at that one point only).  The mapping
    stage is marked COMPLETED exactly when the corrected payload passes
    the re-validation, and the record then holds the corrected payload.
    When the re-validation fails, and also when the record holds no
    payload, the stage is marked FAILED and manual review is notified
    with the errors.  The handler returns in every case, with the stage
    COMPLETED or FAILED: it does not loop. *)
Theorem handle_validation_error_once
    (is_valid_price : pyval -> bool) (is_valid_url : string -> bool)
    (correct : ONDCCatalogItem -> list string -> ONDCCatalogItem)
    (record : CatalogProcessingRecord) (errors : list string) :
  let revalidated (item : ONDCCatalogItem) : bool :=
    match validate_ondc_payload is_valid_price is_valid_url (correct item errors) with
    | Ok checked => is_valid checked
    | Raise _ => false
    end in
  let outcome :=
    ProcessingErrorHandler.handle_validation_error
      (Corrector.auto_correct is_valid_price is_valid_url correct) record errors in
  let failed := set_mapping record FAILED (ondc_payload record) in
  (forall other,
     (forall item, ondc_payload record = Some item ->
                   other item errors = correct item errors) ->
     ProcessingErrorHandler.handle_validation_error
       (Corrector.auto_correct is_valid_price is_valid_url other) record errors
     = outcome)
  /\ (mapping_status outcome.1 = COMPLETED
      <-> exists item, ondc_payload record = Some item /\ revalidated item = true)
  /\ (forall item,
        ondc_payload record = Some item -> revalidated item = true ->
        outcome = (set_mapping record COMPLETED (Some (correct item errors)), []))
  /\ (forall item,
        ondc_payload record = Some item -> revalidated item = false ->
        outcome = (failed, [NotifyManualReview failed (Some errors)]))
  /\ (ondc_payload record = None ->
      outcome = (failed, [NotifyManualReview failed (Some errors)]))
  /\ (mapping_status outcome.1 = COMPLETED \/ mapping_status outcome.1 = FAILED).
Proof.
  cbv zeta.
  unfold ProcessingErrorHandler.handle_validation_error, Corrector.auto_correct.
  destruct (ondc_payload record) as [item|] eqn:Hp.
  - split.
    { intros other Hother. now rewrite (Hother item eq_refl). }
    destruct (validate_ondc_payload is_valid_price is_valid_url (correct item errors))
      as [checked | ex] eqn:Hv.
    + destruct (is_valid checked) eqn:Hc; cbn.
      * split; [split; [intros _; exists item; rewrite Hv; auto | reflexivity] |].
        split; [intros item' [= <-] _; reflexivity |].
        split; [intros item' [= <-]; rewrite Hv; congruence |].
        split; [discriminate | now left].
      * split.
        { split; [discriminate |].
          intros (item' & [= <-] & H). rewrite Hv in H. congruence. }
        split; [intros item' [= <-]; rewrite Hv; congruence |].
        split; [intros item' [= <-] _; reflexivity |].
        split; [discriminate | now right].
    + cbn. split.
      { split; [discriminate |].
        intros (item' & [= <-] & H). rewrite Hv in H. discriminate. }
      split; [intros item' [= <-]; rewrite Hv; discriminate |].
      split; [intros item' [= <-] _; reflexivity |].
      split; [discriminate | now right].
  - cbn. split; [reflexivity |].
    split; [split; [discriminate | intros (item & H & _); discriminate] |].
    split; [discriminate |]. split; [discriminate |].
    split; [reflexivity | now right].
Qed.

(** The payload with an over-long name and no image: truncation repairs
    the name, the re-validation still misses an image, and the record
    goes to manual review. *)
Example handle_validation_error_overlong :
  ProcessingErrorHandler.handle_validation_error
    (Corrector.auto_correct Sample.is_valid_price Sample.is_valid_url
       (fun item _ => Sample.truncate item))
    overlong_record overlong_errors
  = (set_mapping overlong_record FAILED (Some overlong_item),
     [NotifyManualReview (set_mapping overlong_record FAILED (Some overlong_item))
        (Some overlong_errors)]).
Proof. vm_compute. reflexivity. Qed.

(** ** Circuit breaker *)

Section BreakerProperties.

Context {W A : Type}.
Variable clock : W -> Double.t.

Lemma call_settled (self : CircuitBreaker.t) (func : W -> result A * W) (w : W) :
  settled self -> settled (CircuitBreaker.call clock self func w).1.2.
Proof.
  intros [Hh Ho]. unfold CircuitBreaker.call, CircuitBreaker.before_call.
  destruct self as [count threshold timeout st last]; cbn in *.
  destruct st; [| | contradiction].
  - destruct (func w) as [[r | e] w']; cbn; [split; [discriminate | discriminate] |].
    unfold CircuitBreaker.on_failure; cbn.
    destruct (threshold <=? count + 1) eqn:E; cbn; split; try discriminate.
    intros _. apply Z.leb_le in E. cbn. split; [lia | eauto].
  - destruct (Ho eq_refl) as [Hc [t ->]].
    destruct (CircuitBreaker.cooled_down (clock w) t timeout); cbn.
    + destruct (func w) as [[r | e] w']; cbn; [split; discriminate |].
      unfold CircuitBreaker.on_failure; cbn.
      destruct (threshold <=? count + 1) eqn:E; cbn;
        [apply Z.leb_le in E | apply Z.leb_gt in E; lia].
      split; [discriminate |]. intros _. cbn. split; [lia | eauto].
    + split; [discriminate |]. intros _. cbn. split; [lia | eauto].
Qed.

Lemma reachable_settled (self : CircuitBreaker.t) :
  reachable (A := A) clock self -> settled self.
Proof.
  induction 1 as [threshold timeout | self func w _ IH].
  - split; [discriminate | discriminate].
  - now apply call_settled.
Qed.

Lemma call_closed_success (self : CircuitBreaker.t) (func : W -> result A * W)
    (w w' : W) (r : A) :
  CircuitBreaker.state self = CircuitBreaker.CLOSED ->
  func w = (Ok r, w') ->
  CircuitBreaker.call clock self func w = (Ok r, self, w').
Proof.
  intros Hs Hf. unfold CircuitBreaker.call, CircuitBreaker.before_call.
  rewrite Hs, Hf. unfold CircuitBreaker.on_success. now rewrite Hs.
Qed.

Lemma call_closed_failure (self : CircuitBreaker.t) (func : W -> result A * W)
    (w w' : W) (e : pyexc) :
  CircuitBreaker.state self = CircuitBreaker.CLOSED ->
  func w = (Raise e, w') ->
  exists self',
    CircuitBreaker.call clock self func w = (Raise e, self', w')
    /\ CircuitBreaker.failure_count self' = CircuitBreaker.failure_count self + 1
    /\ CircuitBreaker.last_failure_time self' = Some (clock w')
    /\ CircuitBreaker.state self'
       = if CircuitBreaker.failure_threshold self
            <=? CircuitBreaker.failure_count self + 1
         then CircuitBreaker.OPEN else CircuitBreaker.CLOSED.
Proof.
  intros Hs Hf. unfold CircuitBreaker.call, CircuitBreaker.before_call.
  rewrite Hs, Hf. eexists. split; [reflexivity |].
  unfold CircuitBreaker.on_failure. cbn.
  destruct (CircuitBreaker.failure_threshold self
            <=? CircuitBreaker.failure_count self + 1); cbn; auto.
Qed.

Lemma call_open_fails_fast (self : CircuitBreaker.t) (func : W -> result A * W)
    (w : W) (last : Double.t) :
  CircuitBreaker.state self = CircuitBreaker.OPEN ->
  CircuitBreaker.last_failure_time self = Some last ->
  CircuitBreaker.cooled_down (clock w) last (CircuitBreaker.timeout self) = false ->
  CircuitBreaker.call clock self func w = (Raise CircuitBreakerOpenError, self, w).
Proof.
  intros Hs Hl Hc. unfold CircuitBreaker.call, CircuitBreaker.before_call.
  now rewrite Hs, Hl, Hc.
Qed.

Lemma call_half_open_success (self : CircuitBreaker.t) (func : W -> result A * W)
    (w w' : W) (last : Double.t) (r : A) :
  CircuitBreaker.state self = CircuitBreaker.OPEN ->
  CircuitBreaker.last_failure_time self = Some last ->
  CircuitBreaker.cooled_down (clock w) last (CircuitBreaker.timeout self) = true ->
  func w = (Ok r, w') ->
  CircuitBreaker.call clock self func w
  = (Ok r,
     CircuitBreaker.set_failure_count
       (CircuitBreaker.set_state self CircuitBreaker.CLOSED) 0,
     w').
Proof.
  intros Hs Hl Hc Hf. unfold CircuitBreaker.call, CircuitBreaker.before_call.
  now rewrite Hs, Hl, Hc, Hf.
Qed.

Lemma call_half_open_failure (self : CircuitBreaker.t) (func : W -> result A * W)
    (w w' : W) (last : Double.t) (e : pyexc) :
  settled self ->
  CircuitBreaker.state self = CircuitBreaker.OPEN ->
  CircuitBreaker.last_failure_time self = Some last ->
  CircuitBreaker.cooled_down (clock w) last (CircuitBreaker.timeout self) = true ->
  func w = (Raise e, w') ->
  exists self',
    CircuitBreaker.call clock self func w = (Raise e, self', w')
    /\ CircuitBreaker.state self' = CircuitBreaker.OPEN
    /\ CircuitBreaker.last_failure_time self' = Some (clock w')
    /\ CircuitBreaker.failure_count self' = CircuitBreaker.failure_count self + 1.
Proof.
  intros [_ Ho] Hs Hl Hc Hf. destruct (Ho Hs) as [Hcount _].
  unfold CircuitBreaker.call, CircuitBreaker.before_call.
  rewrite Hs, Hl, Hc, Hf. eexists. split; [reflexivity |].
  unfold CircuitBreaker.on_failure. cbn.
  destruct (CircuitBreaker.failure_threshold self
            <=? CircuitBreaker.failure_count self + 1) eqn:E; cbn;
    [auto | apply Z.leb_gt in E; lia].
Qed.

End BreakerProperties.

(** C6, as stated, fails: a success while CLOSED does not reset the
    failure counter.  With threshold 2, a failure, a success and a
    failure open the breaker although no two failures were consecutive. *)
Lemma breaker_counter_is_not_reset :
  CircuitBreaker.failure_count
    (CircuitBreaker.run seconds (CircuitBreaker.init 2 60)
       [failing_call; passing_call] (Double.of_Z 0)).1 = 1
  /\ CircuitBreaker.state
       (CircuitBreaker.run seconds (CircuitBreaker.init 2 60)
          [failing_call; passing_call] (Double.of_Z 0)).1 = CircuitBreaker.CLOSED
  /\ CircuitBreaker.state
       (CircuitBreaker.run seconds (CircuitBreaker.init 2 60)
          [failing_call; passing_call; failing_call] (Double.of_Z 0)).1 = CircuitBreaker.OPEN.
Proof. repeat split. Qed.

(** C6 (amended): for a breaker built by [__init__] and used through
    [call] only.  Between calls it is never HALF_OPEN and it is OPEN only
    with the failure counter at or above the threshold and a recorded
    failure time.  While CLOSED every call is tried: a success leaves the breaker as it is (it does
    not reset the counter), a failure adds one to the counter, records
    the time, and opens the breaker exactly when the counter reaches the
    threshold; so the counter counts the failures since the breaker was
    created or last closed by a trial call, and a call moves the breaker
    from CLOSED to OPEN only when the wrapped function raises and the
    counter reaches the threshold.  While OPEN and before the cooldown
    has elapsed, [call] raises [CircuitBreakerOpenError] and the world
    is as it was, whatever the wrapped function is.  After the cooldown
    the call is tried: its success closes the breaker with the counter
    at zero, its failure leaves the breaker OPEN and records the time of
    this failure, from which the next cooldown runs. *)
Theorem circuit_breaker_transitions {W A : Type} (clock : W -> Double.t)
    (self : CircuitBreaker.t) (func : W -> result A * W) (w : W) :
  reachable (A := A) clock self ->
  CircuitBreaker.state self <> CircuitBreaker.HALF_OPEN
  /\ (CircuitBreaker.state self = CircuitBreaker.OPEN ->
      CircuitBreaker.failure_threshold self <= CircuitBreaker.failure_count self)
  /\ (CircuitBreaker.state self = CircuitBreaker.OPEN ->
      is_Some (CircuitBreaker.last_failure_time self))
  /\ (forall r w',
        CircuitBreaker.state self = CircuitBreaker.CLOSED ->
        func w = (Ok r, w') ->
        CircuitBreaker.call clock self func w = (Ok r, self, w'))
  /\ (forall e w',
        CircuitBreaker.state self = CircuitBreaker.CLOSED ->
        func w = (Raise e, w') ->
        exists self',
          CircuitBreaker.call clock self func w = (Raise e, self', w')
          /\ CircuitBreaker.failure_count self'
             = CircuitBreaker.failure_count self + 1
          /\ CircuitBreaker.last_failure_time self' = Some (clock w')
          /\ CircuitBreaker.state self'
             = if CircuitBreaker.failure_threshold self
                  <=? CircuitBreaker.failure_count self + 1
               then CircuitBreaker.OPEN else CircuitBreaker.CLOSED)
  /\ (CircuitBreaker.state self = CircuitBreaker.CLOSED ->
      CircuitBreaker.state (CircuitBreaker.call clock self func w).1.2
      = CircuitBreaker.OPEN ->
      (exists e, (func w).1 = Raise e)
      /\ CircuitBreaker.failure_threshold self
         <= CircuitBreaker.failure_count self + 1)
  /\ (forall last,
        CircuitBreaker.state self = CircuitBreaker.OPEN ->
        CircuitBreaker.last_failure_time self = Some last ->
        Double.gt_int (Double.sub (clock w) last) (CircuitBreaker.timeout self)
        = false ->
        CircuitBreaker.call clock self func w
        = (Raise CircuitBreakerOpenError, self, w))
  /\ (forall last r w',
        CircuitBreaker.state self = CircuitBreaker.OPEN ->
        CircuitBreaker.last_failure_time self = Some last ->
        Double.gt_int (Double.sub (clock w) last) (CircuitBreaker.timeout self)
        = true ->
        func w = (Ok r, w') ->
        CircuitBreaker.call clock self func w
        = (Ok r,
           CircuitBreaker.set_failure_count
             (CircuitBreaker.set_state self CircuitBreaker.CLOSED) 0,
           w'))
  /\ (forall last e w',
        CircuitBreaker.state self = CircuitBreaker.OPEN ->
        CircuitBreaker.last_failure_time self = Some last ->
        Double.gt_int (Double.sub (clock w) last) (CircuitBreaker.timeout self)
        = true ->
        func w = (Raise e, w') ->
        exists self',
          CircuitBreaker.call clock self func w = (Raise e, self', w')
          /\ CircuitBreaker.state self' = CircuitBreaker.OPEN
          /\ CircuitBreaker.last_failure_time self' = Some (clock w')
          /\ CircuitBreaker.failure_count self'
             = CircuitBreaker.failure_count self + 1).
Proof.
  intros Hr. pose proof (reachable_settled clock self Hr) as Hs.
  destruct Hs as [Hh Ho].
  split; [exact Hh |]. split; [intros H; exact (proj1 (Ho H)) |].
  split; [intros H; exact (proj2 (Ho H)) |].
  split; [intros r w'; apply call_closed_success |].
  split; [intros e w'; apply call_closed_failure |].
  split.
  { intros Hc Hopen. destruct (func w) as [[r | e] w'] eqn:Hf.
    - rewrite (call_closed_success clock self func w w' r Hc Hf) in Hopen.
      cbn in Hopen. congruence.
    - destruct (call_closed_failure clock self func w w' e Hc Hf)
        as (self' & Hcall & _ & _ & Hst).
      rewrite Hcall in Hopen. cbn in Hopen. rewrite Hst in Hopen.
      split; [cbn; eauto |].
      destruct (CircuitBreaker.failure_threshold self
                <=? CircuitBreaker.failure_count self + 1) eqn:E;
        [now apply Z.leb_le in E | discriminate]. }
  split; [intros last; apply call_open_fails_fast |].
  split; [intros last r w'; apply call_half_open_success |].
  intros last e w'. apply call_half_open_failure. now split.
Qed.

Lemma failed_once_reachable : reachable (A := unit) seconds failed_once.
Proof.
  exact (reachable_call seconds (CircuitBreaker.init 2 60) failing_call
           (Double.of_Z 0) (reachable_init seconds 2 60)).
Qed.

(** After one failure the counter is 1; a success then leaves it at 1,
    and a second failure brings it to the threshold and opens the
    breaker. *)
Lemma circuit_breaker_transitions_witness :
  CircuitBreaker.failure_count failed_once = 1
  /\ CircuitBreaker.call seconds failed_once passing_call (Double.of_Z 1)
     = (Ok tt, failed_once, Double.of_Z 2)
  /\ exists self',
       CircuitBreaker.call seconds failed_once failing_call (Double.of_Z 1)
       = (Raise (OtherError "503 Service Unavailable"), self', Double.of_Z 2)
       /\ CircuitBreaker.failure_count self' = 1 + 1
       /\ CircuitBreaker.last_failure_time self' = Some (Double.of_Z 2)
       /\ CircuitBreaker.state self' = CircuitBreaker.OPEN.
Proof.
  split; [reflexivity |]. split.
  - apply (proj1 (proj2 (proj2 (proj2 (circuit_breaker_transitions
                                         seconds failed_once passing_call
                                         (Double.of_Z 1)
                                         failed_once_reachable))))).
    + reflexivity.
    + reflexivity.
  - apply (proj1 (proj2 (proj2 (proj2 (proj2 (circuit_breaker_transitions
                                                seconds failed_once failing_call
                                                (Double.of_Z 1)
                                                failed_once_reachable)))))).
    + reflexivity.
    + reflexivity.
Defined.

(** The breaker through an outage: two failures open it, a call within
    the cooldown is refused without reaching the gateway (the time does
    not advance), and the trial call after the cooldown closes it. *)
Example circuit_breaker_outage :
  let opened :=
    CircuitBreaker.run seconds (CircuitBreaker.init 2 60)
      [failing_call; failing_call] (Double.of_Z 0) in
  CircuitBreaker.state opened.1 = CircuitBreaker.OPEN
  /\ CircuitBreaker.call seconds opened.1 passing_call opened.2
     = (Raise CircuitBreakerOpenError, opened.1, opened.2)
  /\ CircuitBreaker.call seconds opened.1 passing_call (Double.of_Z 100)
     = (Ok tt, CircuitBreaker.set_failure_count
                 (CircuitBreaker.set_state opened.1 CircuitBreaker.CLOSED) 0,
        (Double.of_Z 101)).
Proof. repeat split. Qed.

(** ** Voice priority *)

(** C1: for every attribute field, a value that the voice-derived
    interpretation gives is the value of that field in the resolved
    [ExtractedAttributes], whatever vision gives for it; and a field that
    voice does not mention takes the vision-derived value.  The rule is
    applied field by field: the same pair of interpretations can give one
    field from voice and another from vision. *)
Theorem resolve_voice_priority (voice vision : Resolver.Interpretation)
    (generated : ExtractedAttributes) (f : Resolver.field) :
  (forall v,
     Resolver.mentioned f voice = Some v ->
     Resolver.extracted_value f (Resolver.resolve voice vision generated) = v)
  /\ (forall w,
        Resolver.mentioned f voice = None ->
        Resolver.mentioned f vision = Some w ->
        Resolver.extracted_value f (Resolver.resolve voice vision generated) = w).
Proof.
  destruct voice as [vc vs vm vk vd vw vp vt vr],
           vision as [wc ws wm wk wd ww wp wt wr].
  split.
  - intros v H.
    destruct f; cbn in *;
      match type of H with
      | _ <$> ?o = Some _ => destruct o; cbn in H; [| discriminate]
      end; now injection H as <-.
  - intros w Hv Hw.
    destruct f; cbn in *;
      match type of Hv with
      | _ <$> ?o = None => destruct o; cbn in Hv; [discriminate |]
      end;
      match type of Hw with
      | _ <$> ?o = Some _ => destruct o; cbn in Hw; [| discriminate]
      end; now injection Hw as <-.
Qed.

Lemma resolve_voice_priority_witness :
  category (Resolver.resolve voice_says vision_sees Sample.saree) = "banarasi saree"
  /\ colors (Resolver.resolve voice_says vision_sees Sample.saree) = ["red"].
Proof.
  split.
  - exact (f_equal (fun x => match x with Resolver.Text s => s | _ => "" end)
             (proj1 (resolve_voice_priority voice_says vision_sees Sample.saree
                       Resolver.Category)
                (Resolver.Text "banarasi saree") eq_refl)).
  - exact (f_equal (fun x => match x with Resolver.Items l => l | _ => [] end)
             (proj2 (resolve_voice_priority voice_says vision_sees Sample.saree
                       Resolver.Colors)
                (Resolver.Items ["red"]) eq_refl eq_refl)).
Defined.

Example resolve_scenario :
  let resolved := Resolver.resolve voice_says vision_sees Sample.saree in
  category resolved = "banarasi saree"
  /\ colors resolved = ["red"]
  /\ price resolved !! "value" = Some (PyInt 2500)
  /\ price resolved !! "currency" = Some (PyStr "INR").
Proof. repeat split. Qed.

(** ** Catalog id of a record *)

Lemma handle_validation_error_catalog_id
    (auto_correct : option ONDCCatalogItem -> list string -> option ONDCCatalogItem)
    (record : CatalogProcessingRecord) (errors : list string) :
  ondc_catalog_id
    (ProcessingErrorHandler.handle_validation_error auto_correct record errors).1
  = ondc_catalog_id record.
Proof.
  unfold ProcessingErrorHandler.handle_validation_error.
  now destruct (auto_correct (ondc_payload record) errors).
Qed.

(** The submission error handler of the sources never writes the catalog
    id, whatever the response. *)
Lemma handle_submission_error_catalog_id
    (auto_correct : option ONDCCatalogItem -> list string -> option ONDCCatalogItem)
    (parse_validation_errors : ONDCResponse -> list string)
    (record : CatalogProcessingRecord) (response : ONDCResponse) :
  ondc_catalog_id
    (ONDCErrorHandler.handle_submission_error
       (ProcessingErrorHandler.handle_validation_error auto_correct)
       parse_validation_errors record response).1
  = ondc_catalog_id record.
Proof.
  unfold ONDCErrorHandler.handle_submission_error.
  destruct (ONDCErrorHandler.categorize_error response); try reflexivity.
  apply handle_validation_error_catalog_id.
Qed.

Section SubmissionProperties.

Variable auto_correct :
  option ONDCCatalogItem -> list string -> option ONDCCatalogItem.
Variable parse_validation_errors : ONDCResponse -> list string.

Lemma submit_keeps_catalog_id (store : gmap string SubmissionManager.Entry)
    (tid : string) (outcome : SubmissionManager.gateway_outcome)
    (tid0 cid : string) :
  stored_catalog_id store tid0 = Some cid ->
  stored_catalog_id
    (SubmissionManager.submit auto_correct parse_validation_errors store tid outcome).1
    tid0
  = Some cid.
Proof.
  intros H. unfold SubmissionManager.submit.
  destruct (store !! tid) as [e|] eqn:He; [| exact H].
  destruct (decide (tid = tid0)) as [-> | Hne].
  - assert (Hid : ondc_catalog_id (SubmissionManager.entry_record e) = Some cid).
    { unfold stored_catalog_id in H. rewrite He in H. exact H. }
    unfold stored_catalog_id.
    destruct outcome as [assigned code | response].
    + destruct (SubmissionManager.existing_catalog_id store
                  (SubmissionManager.idempotency_key e));
        cbn; rewrite lookup_insert_eq; cbn; now rewrite Hid.
    + pose proof (handle_submission_error_catalog_id auto_correct
                    parse_validation_errors (SubmissionManager.entry_record e)
                    response) as Hk.
      destruct (ONDCErrorHandler.handle_submission_error _ _ _ _) as [record effects].
      cbn in *. rewrite lookup_insert_eq. cbn. congruence.
  - unfold stored_catalog_id in *.
    destruct outcome as [assigned code | response].
    + destruct (SubmissionManager.existing_catalog_id store
                  (SubmissionManager.idempotency_key e));
        cbn; now rewrite lookup_insert_ne.
    + destruct (ONDCErrorHandler.handle_submission_error _ _ _ _) as [record effects].
      cbn. now rewrite lookup_insert_ne.
Qed.

Lemma submit_all_keeps_catalog_id
    (attempts : list (string * SubmissionManager.gateway_outcome))
    (store : gmap string SubmissionManager.Entry) (tid0 cid : string) :
  stored_catalog_id store tid0 = Some cid ->
  stored_catalog_id
    (SubmissionManager.submit_all auto_correct parse_validation_errors store attempts)
    tid0
  = Some cid.
Proof.
  revert store. induction attempts as [|[tid outcome] attempts IH]; intros store H.
  - exact H.
  - simpl. apply IH. now apply submit_keeps_catalog_id.
Qed.

Lemma submit_accepted (store : gmap string SubmissionManager.Entry)
    (tid assigned : string) (code : Z) (e : SubmissionManager.Entry) :
  store !! tid = Some e ->
  let store' :=
    (SubmissionManager.submit auto_correct parse_validation_errors store tid
       (SubmissionManager.Accepted assigned code)).1 in
  match SubmissionManager.existing_catalog_id store
          (SubmissionManager.idempotency_key e) with
  | Some original =>
      stored_catalog_id store' tid
      = Some (default original
                (ondc_catalog_id (SubmissionManager.entry_record e)))
      /\ stored_version store' tid = Some (SubmissionManager.version e + 1)
  | None =>
      stored_catalog_id store' tid
      = Some (default assigned
                (ondc_catalog_id (SubmissionManager.entry_record e)))
      /\ stored_version store' tid = Some (SubmissionManager.version e)
  end.
Proof.
  intros He. unfold SubmissionManager.submit, stored_catalog_id, stored_version.
  rewrite He.
  destruct (SubmissionManager.existing_catalog_id store
              (SubmissionManager.idempotency_key e));
    cbn; rewrite lookup_insert_eq; cbn; auto.
Qed.

End SubmissionProperties.

(** C4: in the Record Store, a catalog id that a record holds is the id
    it holds after any further sequence of submission attempts, accepted
    or rejected, on this record or on others (so the id is written at
    most once, by the first accepted submission, and no retry or update
    changes it); an accepted submission of a record whose idempotency key
    already has a catalog id in the store is an update: it leaves the
    record with the original id (its own, or the one found for the key,
    never the one that the gateway returns) and increments the version;
    a rejected attempt leaves id and version as they were. *)
Theorem ondc_catalog_id_set_once
    (auto_correct : option ONDCCatalogItem -> list string -> option ONDCCatalogItem)
    (parse_validation_errors : ONDCResponse -> list string)
    (store : gmap string SubmissionManager.Entry) (tid : string)
    (e : SubmissionManager.Entry) :
  store !! tid = Some e ->
  (forall cid attempts,
     ondc_catalog_id (SubmissionManager.entry_record e) = Some cid ->
     stored_catalog_id
       (SubmissionManager.submit_all auto_correct parse_validation_errors
          store attempts) tid
     = Some cid)
  /\ (forall assigned code attempts,
        ondc_catalog_id (SubmissionManager.entry_record e) = None ->
        SubmissionManager.existing_catalog_id store
          (SubmissionManager.idempotency_key e) = None ->
        stored_catalog_id
          (SubmissionManager.submit_all auto_correct parse_validation_errors store
             ((tid, SubmissionManager.Accepted assigned code) :: attempts)) tid
        = Some assigned)
  /\ (forall original assigned code,
        SubmissionManager.existing_catalog_id store
          (SubmissionManager.idempotency_key e) = Some original ->
        let store' :=
          (SubmissionManager.submit auto_correct parse_validation_errors store tid
             (SubmissionManager.Accepted assigned code)).1 in
        stored_catalog_id store' tid
        = Some (default original
                  (ondc_catalog_id (SubmissionManager.entry_record e)))
        /\ stored_version store' tid = Some (SubmissionManager.version e + 1))
  /\ (forall response,
        let store' :=
          (SubmissionManager.submit auto_correct parse_validation_errors store tid
             (SubmissionManager.Rejected response)).1 in
        stored_catalog_id store' tid
        = ondc_catalog_id (SubmissionManager.entry_record e)
        /\ stored_version store' tid = Some (SubmissionManager.version e)).
Proof.
  intros He. split; [| split; [| split]].
  - intros cid attempts Hid. apply submit_all_keeps_catalog_id.
    unfold stored_catalog_id. now rewrite He.
  - intros assigned code attempts Hnone Hex. simpl.
    apply submit_all_keeps_catalog_id.
    pose proof (submit_accepted auto_correct parse_validation_errors
                  store tid assigned code e He) as H.
    cbv zeta in H. rewrite Hex, Hnone in H. exact (proj1 H).
  - intros original assigned code Hex.
    pose proof (submit_accepted auto_correct parse_validation_errors
                  store tid assigned code e He) as H.
    cbv zeta in H. now rewrite Hex in H.
  - intros response. cbv zeta.
    unfold SubmissionManager.submit, stored_catalog_id, stored_version.
    rewrite He.
    pose proof (handle_submission_error_catalog_id auto_correct
                  parse_validation_errors (SubmissionManager.entry_record e)
                  response) as Hk.
    destruct (ONDCErrorHandler.handle_submission_error _ _ _ _) as [record effects].
    cbn in *. rewrite lookup_insert_eq. cbn. auto.
Qed.

Lemma ondc_catalog_id_set_once_witness :
  stored_catalog_id
    (SubmissionManager.submit_all Sample.auto_correct Sample.parse_validation_errors
       sample_store
       [ ("trk-1", SubmissionManager.Rejected {| status_code := 503; body := "" |});
         ("trk-1", SubmissionManager.Accepted "cat-9" 200);
         ("trk-2", SubmissionManager.Accepted "cat-7" 200) ]) "trk-1"
  = Some "cat-1".
Proof.
  apply (proj1 (ondc_catalog_id_set_once Sample.auto_correct
                  Sample.parse_validation_errors sample_store "trk-1"
                  published_entry eq_refl)).
  reflexivity.
Defined.

(** The scenario of the specification: the second submission of the same
    product is an update that carries the first catalog id and increments
    the version, whatever id the gateway returns. *)
Example submit_update_scenario :
  let store' :=
    (SubmissionManager.submit Sample.auto_correct Sample.parse_validation_errors
       sample_store "trk-2" (SubmissionManager.Accepted "cat-7" 200)).1 in
  SubmissionManager.existing_catalog_id sample_store "item_9b6b68c5f65325bf"
  = Some "cat-1"
  /\ stored_catalog_id store' "trk-2" = Some "cat-1"
  /\ stored_version store' "trk-2" = Some 2
  /\ stored_catalog_id store' "trk-1" = Some "cat-1".
Proof. vm_compute. repeat split. Qed.

(** * Further properties of the code *)

(** ** Validator: when a payload is valid, and what is reported *)

Lemma image_errors_filter (is_valid_url : string -> bool) (urls : list string) :
  image_errors is_valid_url urls
  = map (fun url => "Invalid image URL: " +:+ url)
        (List.filter (fun url => negb (is_valid_url url)) urls).
Proof.
  unfold image_errors. induction urls as [|url urls IH]; [reflexivity |].
  cbn [flat_map List.filter]. destruct (is_valid_url url); cbn; now rewrite IH.
Qed.

Lemma image_errors_nil (is_valid_url : string -> bool) (urls : list string) :
  image_errors is_valid_url urls = []
  <-> List.Forall (fun url => is_valid_url url = true) urls.
Proof.
  unfold image_errors. induction urls as [|url urls IH]; cbn [flat_map].
  - split; [constructor | reflexivity].
  - destruct (is_valid_url url) eqn:E; cbn.
    + rewrite IH. split; [now constructor | now inversion 1].
    + split; [discriminate | inversion 1; congruence].
Qed.

(** X1: a payload with its price object is returned as valid exactly
    when the name is non-empty and at most 100 characters, the short
    description at most 500 characters, the price value truthy and
    accepted by [is_valid_price], the category non-empty and the image
    list non-empty with every URL accepted by [is_valid_url]; and it is
    valid exactly when no error is listed. *)
Theorem validate_ondc_payload_valid_iff (is_valid_price : pyval -> bool)
    (is_valid_url : string -> bool) (payload : ONDCCatalogItem) (pr : Price) :
  item_price payload = Some pr ->
  exists v,
    validate_ondc_payload is_valid_price is_valid_url payload = Ok v
    /\ (is_valid v = true <-> errors v = [])
    /\ (is_valid v = true <->
        name (descriptor payload) <> ""
        /\ (String.length (name (descriptor payload)) <= 100)%nat
        /\ (String.length (short_desc (descriptor payload)) <= 500)%nat
        /\ Py.truthy (value pr) = true
        /\ is_valid_price (value pr) = true
        /\ category_id payload <> ""
        /\ images (descriptor payload) <> []
        /\ List.Forall (fun url => is_valid_url url = true)
             (images (descriptor payload))).
Proof.
  intros Hp. eexists. split; [apply (validate_ondc_payload_errors _ _ _ _ Hp) |].
  cbn [is_valid errors]. split.
  { rewrite Nat.eqb_eq. apply length_zero_iff_nil. }
  rewrite Nat.eqb_eq, length_zero_iff_nil.
  destruct (String.eqb_spec (name (descriptor payload)) "") as [Hn | Hn].
  { cbn. split; [discriminate | tauto]. }
  destruct (Py.truthy (value pr)) eqn:Ht; cbn [negb when app];
    [| split; [discriminate | intros (_ & _ & _ & H & _); discriminate]].
  destruct (String.eqb_spec (category_id payload) "") as [Hc | Hc].
  { cbn. split; [discriminate | tauto]. }
  destruct (is_valid_price (value pr)) eqn:Hv; cbn [negb andb when app];
    [| split; [discriminate | intros (_ & _ & _ & _ & H & _); discriminate]].
  destruct (Nat.ltb_spec 100 (String.length (name (descriptor payload))))
    as [Hl | Hl]; cbn [when app]; [split; [discriminate | lia] |].
  destruct (Nat.ltb_spec 500 (String.length (short_desc (descriptor payload))))
    as [Hs | Hs]; cbn [when app]; [split; [discriminate | lia] |].
  destruct (images (descriptor payload)) as [|url urls] eqn:Hi; cbn [when app].
  { split; [discriminate | intros (_ & _ & _ & _ & _ & _ & H & _); congruence]. }
  rewrite image_errors_nil. split.
  - intros H. repeat split; auto; discriminate.
  - intros (_ & _ & _ & _ & _ & _ & _ & H). exact H.
Qed.

Lemma validate_ondc_payload_valid_iff_witness :
  exists v,
    validate_ondc_payload Sample.is_valid_price Sample.is_valid_url unpriced_item
    = Ok v
    /\ (is_valid v = true <-> errors v = [])
    /\ (is_valid v = true <->
        name (descriptor unpriced_item) <> ""
        /\ (String.length (name (descriptor unpriced_item)) <= 100)%nat
        /\ (String.length (short_desc (descriptor unpriced_item)) <= 500)%nat
        /\ Py.truthy (PyStr "") = true
        /\ Sample.is_valid_price (PyStr "") = true
        /\ category_id unpriced_item <> ""
        /\ images (descriptor unpriced_item) <> []
        /\ List.Forall (fun url => Sample.is_valid_url url = true)
             (images (descriptor unpriced_item))).
Proof.
  exact (validate_ondc_payload_valid_iff Sample.is_valid_price Sample.is_valid_url
           unpriced_item {| currency := PyStr "INR"; value := PyStr "" |} eq_refl).
Defined.

(** X2: the error list is at most five field errors followed by one
    error per image reference that [is_valid_url] rejects, in the order
    of the image list and with the URL in the message (a URL listed twice
    is reported twice); the two price errors are never reported
    together, nor are the two errors on the name. *)
Theorem validate_ondc_payload_error_list (is_valid_price : pyval -> bool)
    (is_valid_url : string -> bool) (payload : ONDCCatalogItem) (pr : Price) :
  item_price payload = Some pr ->
  exists v field_errors,
    validate_ondc_payload is_valid_price is_valid_url payload = Ok v
    /\ errors v
       = field_errors
         ++ map (fun url => "Invalid image URL: " +:+ url)
                (List.filter (fun url => negb (is_valid_url url))
                   (images (descriptor payload)))
    /\ (length field_errors <= 5)%nat
    /\ ~ (In "price.value is required" (errors v)
          /\ In "price.value must be numeric string" (errors v))
    /\ ~ (In "descriptor.name is required" (errors v)
          /\ In "descriptor.name must be <= 100 characters" (errors v)).
Proof.
  intros Hp.
  pose proof (validate_ondc_payload_errors is_valid_price is_valid_url payload pr Hp)
    as Hv. cbv zeta in Hv.
  eexists.
  exists (when (String.eqb (name (descriptor payload)) "")
            "descriptor.name is required"
          ++ when (negb (Py.truthy (value pr))) "price.value is required"
          ++ when (String.eqb (category_id payload) "") "category_id is required"
          ++ when (Py.truthy (value pr) && negb (is_valid_price (value pr)))
                  "price.value must be numeric string"
          ++ when (100 <? String.length (name (descriptor payload)))%nat
                  "descriptor.name must be <= 100 characters"
          ++ when (500 <? String.length (short_desc (descriptor payload)))%nat
                  "descriptor.short_desc must be <= 500 characters"
          ++ when (match images (descriptor payload) with
                   | [] => true | _ => false end)
                  "At least one image is required").
  split; [exact Hv |]. cbn [errors].
  rewrite image_errors_filter.
  split; [now rewrite <- !app_assoc |]. split.
  - rewrite !length_app.
    assert (Hex : String.eqb (name (descriptor payload)) "" = true ->
                  (100 <? String.length (name (descriptor payload)))%nat = false).
    { intros H. apply String.eqb_eq in H. now rewrite H. }
    revert Hex.
    destruct (String.eqb (name (descriptor payload)) ""),
      (Py.truthy (value pr)), (String.eqb (category_id payload) ""),
      (is_valid_price (value pr)),
      (100 <? String.length (name (descriptor payload)))%nat,
      (500 <? String.length (short_desc (descriptor payload)))%nat,
      (images (descriptor payload)); intros Hex;
      try (specialize (Hex eq_refl); discriminate); cbn; lia.
  - rewrite <- image_errors_filter.
    split; intros [H1 H2]; revert H1 H2;
      rewrite !in_app_iff, !when_In, !image_errors_In.
    + intros H1 H2.
      assert (T1 : Py.truthy (value pr) = false).
      { destruct H1 as [[_ H] | [[H _] | [[_ H] | [[_ H] | [[_ H] | [[_ H] | [[_ H] | (u & _ & _ & H)]]]]]]];
          try discriminate. now destruct (Py.truthy (value pr)). }
      destruct H2 as [[_ H] | [[_ H] | [[_ H] | [[H _] | [[_ H] | [[_ H] | [[_ H] | (u & _ & _ & H)]]]]]]];
        try discriminate. rewrite T1 in H. discriminate.
    + intros H1 H2.
      assert (T1 : name (descriptor payload) = "").
      { destruct H1 as [[H _] | [[_ H] | [[_ H] | [[_ H] | [[_ H] | [[_ H] | [[_ H] | (u & _ & _ & H)]]]]]]];
          try discriminate. now apply String.eqb_eq. }
      destruct H2 as [[_ H] | [[_ H] | [[_ H] | [[_ H] | [[H _] | [[_ H] | [[_ H] | (u & _ & _ & H)]]]]]]];
        try discriminate. rewrite T1 in H. discriminate.
Qed.

Lemma validate_ondc_payload_error_list_witness :
  exists v field_errors,
    validate_ondc_payload Sample.is_valid_price Sample.is_valid_url overlong_item
    = Ok v
    /\ errors v
       = field_errors
         ++ map (fun url => "Invalid image URL: " +:+ url)
                (List.filter (fun url => negb (Sample.is_valid_url url))
                   (images (descriptor overlong_item)))
    /\ (length field_errors <= 5)%nat
    /\ ~ (In "price.value is required" (errors v)
          /\ In "price.value must be numeric string" (errors v))
    /\ ~ (In "descriptor.name is required" (errors v)
          /\ In "descriptor.name must be <= 100 characters" (errors v)).
Proof.
  exact (validate_ondc_payload_error_list Sample.is_valid_price Sample.is_valid_url
           overlong_item {| currency := PyStr "INR"; value := PyStr "250" |}
           eq_refl).
Defined.

(** X3: a payload whose price object is absent makes the validator
    raise [AttributeError] instead of returning a result, although its
    required-field check tests for the absent object first. *)
Theorem validate_ondc_payload_absent_price (is_valid_price : pyval -> bool)
    (is_valid_url : string -> bool) (payload : ONDCCatalogItem) :
  item_price payload = None ->
  price_value_missing payload = true
  /\ validate_ondc_payload is_valid_price is_valid_url payload
     = Raise (AttributeError "'NoneType' object has no attribute 'value'").
Proof.
  intros Hp. split.
  - unfold price_value_missing. now rewrite Hp.
  - now apply validate_ondc_payload_no_price.
Qed.

Lemma validate_ondc_payload_absent_price_witness :
  price_value_missing
    {| id := "item_0"; descriptor := descriptor unpriced_item;
       item_price := None; category_id := ""; tags := ∅ |} = true
  /\ validate_ondc_payload Sample.is_valid_price Sample.is_valid_url
       {| id := "item_0"; descriptor := descriptor unpriced_item;
          item_price := None; category_id := ""; tags := ∅ |}
     = Raise (AttributeError "'NoneType' object has no attribute 'value'").
Proof.
  exact (validate_ondc_payload_absent_price Sample.is_valid_price
           Sample.is_valid_url
           {| id := "item_0"; descriptor := descriptor unpriced_item;
              item_price := None; category_id := ""; tags := ∅ |} eq_refl).
Defined.

(** ** Mapper: outcome, tags, and validation of a mapped item *)

Lemma validate_ondc_payload_In (is_valid_price : pyval -> bool)
    (is_valid_url : string -> bool) (payload : ONDCCatalogItem) (pr : Price) :
  item_price payload = Some pr ->
  exists v,
    validate_ondc_payload is_valid_price is_valid_url payload = Ok v
    /\ forall msg,
         In msg (errors v) <->
         (name (descriptor payload) = "" /\ msg = "descriptor.name is required")
         \/ (Py.truthy (value pr) = false /\ msg = "price.value is required")
         \/ (category_id payload = "" /\ msg = "category_id is required")
         \/ (Py.truthy (value pr) = true /\ is_valid_price (value pr) = false
             /\ msg = "price.value must be numeric string")
         \/ ((100 < String.length (name (descriptor payload)))%nat
             /\ msg = "descriptor.name must be <= 100 characters")
         \/ ((500 < String.length (short_desc (descriptor payload)))%nat
             /\ msg = "descriptor.short_desc must be <= 500 characters")
         \/ (images (descriptor payload) = []
             /\ msg = "At least one image is required")
         \/ (exists url, In url (images (descriptor payload))
                         /\ is_valid_url url = false
                         /\ msg = "Invalid image URL: " +:+ url).
Proof.
  intros Hp. eexists. split; [apply (validate_ondc_payload_errors _ _ _ _ Hp) |].
  intros msg. cbn [errors].
  rewrite !in_app_iff, !when_In, image_errors_In.
  rewrite String.eqb_eq, String.eqb_eq, !Nat.ltb_lt, negb_true_iff, andb_true_iff,
    negb_true_iff.
  assert (Hi : match images (descriptor payload) with [] => true | _ => false end
               = true <-> images (descriptor payload) = []).
  { destruct (images (descriptor payload)); split; congruence. }
  rewrite Hi. tauto.
Qed.

Lemma prefix_length (n : nat) (s : string) :
  String.length (Py.prefix n s) = Nat.min n (String.length s).
Proof.
  unfold Py.prefix. revert n.
  induction s as [|c s IH]; intros [|n]; cbn; try reflexivity.
  now rewrite IH.
Qed.

Lemma length_zero_string (s : string) : String.length s = 0%nat <-> s = "".
Proof. destruct s; cbn; split; congruence. Qed.

(** X4: validation of a mapped item never raises, and never reports an
    over-long name, because the mapper truncates the name to 100
    characters; it reports a missing name exactly when the short
    description is empty, an over-long short description exactly when
    the short description has more than 500 characters (the mapper does
    not truncate that field), and a missing image exactly when
    [get_image_urls] gives none. *)
Theorem mapped_item_validation (rest : list (string * string))
    (get_image_urls : ExtractedAttributes -> list string)
    (map_csis_to_tags : list CSI -> gmap string string)
    (is_valid_price : pyval -> bool) (is_valid_url : string -> bool)
    (e : ExtractedAttributes) (item : ONDCCatalogItem) :
  map_to_beckn_item rest get_image_urls map_csis_to_tags e = Ok item ->
  exists v,
    validate_ondc_payload is_valid_price is_valid_url item = Ok v
    /\ ~ In "descriptor.name must be <= 100 characters" (errors v)
    /\ (In "descriptor.name is required" (errors v) <-> short_description e = "")
    /\ (In "descriptor.short_desc must be <= 500 characters" (errors v)
        <-> (500 < String.length (short_description e))%nat)
    /\ (In "At least one image is required" (errors v) <-> get_image_urls e = []).
Proof.
  intros Hm.
  assert (Hfields : name (descriptor item) = Py.prefix 100 (short_description e)
                    /\ short_desc (descriptor item) = short_description e
                    /\ images (descriptor item) = get_image_urls e
                    /\ exists pr, item_price item = Some pr).
  { revert Hm. unfold map_to_beckn_item, getitem.
    destruct (generate_item_id e); cbn [mbind result_bind]; [| discriminate].
    destruct (price e !! "currency"); cbn [mbind result_bind]; [| discriminate].
    destruct (price e !! "value"); cbn [mbind result_bind]; [| discriminate].
    intros [= <-]. cbn. eauto. }
  destruct Hfields as (Hn & Hs & Hi & pr & Hp).
  destruct (validate_ondc_payload_In is_valid_price is_valid_url item pr Hp)
    as (v & Hv & HIn).
  exists v. split; [exact Hv |].
  assert (Hlen : (String.length (name (descriptor item)) <= 100)%nat).
  { rewrite Hn, prefix_length. lia. }
  assert (Hempty : name (descriptor item) = "" <-> short_description e = "").
  { rewrite <- !length_zero_string, Hn, prefix_length. lia. }
  rewrite !HIn, Hs, Hi. repeat split.
  - intros [[_ H] | [[_ H] | [[_ H] | [(_ & _ & H) | [[H _] | [[_ H] | [[_ H]
           | (u & _ & _ & H)]]]]]]]; try discriminate. lia.
  - intros [[H _] | [[_ H] | [[_ H] | [(_ & _ & H) | [[_ H] | [[_ H] | [[_ H]
           | (u & _ & _ & H)]]]]]]]; try discriminate. now apply Hempty.
  - intros H. left. split; [now apply Hempty | reflexivity].
  - intros [[_ H] | [[_ H] | [[_ H] | [(_ & _ & H) | [[_ H] | [[H _] | [[_ H]
           | (u & _ & _ & H)]]]]]]]; try discriminate. exact H.
  - intros H. do 5 right. left. auto.
  - intros [[_ H] | [[_ H] | [[_ H] | [(_ & _ & H) | [[_ H] | [[_ H] | [[H _]
           | (u & _ & _ & H)]]]]]]]; try discriminate. exact H.
  - intros H. do 6 right. left. auto.
Qed.

Lemma mapped_item_validation_witness :
  exists v,
    validate_ondc_payload Sample.is_valid_price Sample.is_valid_url
      {| id := "item_9b6b68c5f65325bf";
         descriptor :=
           {| name := Py.prefix 100 (short_description Sample.saree);
              short_desc := short_description Sample.saree;
              long_desc := build_long_description Sample.saree;
              images := Sample.get_image_urls Sample.saree |};
         item_price := Some {| currency := PyStr "INR"; value := PyStr "2500" |};
         category_id := map_category_to_ondc [] (category Sample.saree);
         tags :=
           Sample.map_csis_to_tags (csis Sample.saree)
           ∪ dict_of [ ("material", Py.join "," (material Sample.saree));
                       ("color", Py.join "," (colors Sample.saree));
                       ("craft_technique", craft_technique Sample.saree);
                       ("region", region_of_origin Sample.saree) ] |}
    = Ok v
    /\ ~ In "descriptor.name must be <= 100 characters" (errors v)
    /\ (In "descriptor.name is required" (errors v)
        <-> short_description Sample.saree = "")
    /\ (In "descriptor.short_desc must be <= 500 characters" (errors v)
        <-> (500 < String.length (short_description Sample.saree))%nat)
    /\ (In "At least one image is required" (errors v)
        <-> Sample.get_image_urls Sample.saree = []).
Proof.
  apply (mapped_item_validation [] Sample.get_image_urls Sample.map_csis_to_tags
           Sample.is_valid_price Sample.is_valid_url Sample.saree).
  vm_compute. reflexivity.
Defined.


Lemma dict_of_four_lookup (k1 k2 k3 k4 v1 v2 v3 v4 k : string) :
  dict_of [(k1, v1); (k2, v2); (k3, v3); (k4, v4)] !! k
  = if decide (k4 = k) then Some v4
    else if decide (k3 = k) then Some v3
    else if decide (k2 = k) then Some v2
    else if decide (k1 = k) then Some v1
    else None.
Proof.
  unfold dict_of. cbn [fold_left fst snd].
  rewrite !lookup_insert, lookup_empty.
  repeat case_decide; reflexivity.
Qed.

(** X6: in the tags of a mapped item a key produced by
    [map_csis_to_tags] takes precedence over the four fixed keys;
    otherwise ['material'] and ['color'] hold the comma-joined lists in
    the order given (not sorted, unlike in the id), ['craft_technique']
    and ['region'] hold the two attributes, and no other key is present. *)
Theorem map_to_beckn_item_tags (rest : list (string * string))
    (get_image_urls : ExtractedAttributes -> list string)
    (map_csis_to_tags : list CSI -> gmap string string)
    (e : ExtractedAttributes) (item : ONDCCatalogItem) (k : string) :
  map_to_beckn_item rest get_image_urls map_csis_to_tags e = Ok item ->
  tags item !! k
  = match map_csis_to_tags (csis e) !! k with
    | Some v => Some v
    | None =>
        if decide (k = "material") then Some (Py.join "," (material e))
        else if decide (k = "color") then Some (Py.join "," (colors e))
        else if decide (k = "craft_technique") then Some (craft_technique e)
        else if decide (k = "region") then Some (region_of_origin e)
        else None
    end.
Proof.
  unfold map_to_beckn_item, getitem.
  destruct (generate_item_id e); cbn [mbind result_bind]; [| discriminate].
  destruct (price e !! "currency"); cbn [mbind result_bind]; [| discriminate].
  destruct (price e !! "value"); cbn [mbind result_bind]; [| discriminate].
  intros [= <-]. cbn [tags].
  rewrite lookup_union, dict_of_four_lookup.
  destruct (map_csis_to_tags (csis e) !! k) as [v|]; cbn.
  - now destruct (if decide _ then _ else _).
  - repeat case_decide; subst; try reflexivity; try congruence.
Qed.

Lemma map_to_beckn_item_tags_witness :
  exists item,
    map_to_beckn_item [] Sample.get_image_urls Sample.map_csis_to_tags
      Collision.saree_reordered = Ok item
    /\ tags item !! "material" = Some "zari,silk".
Proof.
  eexists. split; [vm_compute; reflexivity |].
  exact (eq_trans
           (map_to_beckn_item_tags [] Sample.get_image_urls Sample.map_csis_to_tags
              Collision.saree_reordered _ "material" eq_refl)
           eq_refl).
Defined.

(** ** Item id: format, order of the lists, and the separator *)

Lemma round_length (st : list Z * list Z) (k : Z) :
  length st.1 = 8%nat -> length (SHA256.round st k).1 = 8%nat.
Proof.
  destruct st as [regs window]. cbn [fst].
  destruct regs as [|a [|b [|c [|d [|e [|f [|g [|h [|i regs]]]]]]]]];
    try discriminate. reflexivity.
Qed.

Lemma rounds_length (ks : list Z) (st : list Z * list Z) :
  length st.1 = 8%nat -> length (fold_left SHA256.round ks st).1 = 8%nat.
Proof.
  revert st. induction ks as [|k ks IH]; intros st H; [exact H |].
  cbn [fold_left]. apply IH. now apply round_length.
Qed.

Lemma add_all_length (xs ys : list Z) :
  length xs = length ys -> length (SHA256.add_all xs ys) = length xs.
Proof.
  revert ys. induction xs as [|x xs IH]; intros [|y ys] H; cbn in *;
    try congruence. f_equal. apply IH. congruence.
Qed.

Lemma blocks_length (fuel : nat) (h ws : list Z) :
  length h = 8%nat -> length (SHA256.blocks fuel h ws) = 8%nat.
Proof.
  revert h ws. induction fuel as [|fuel IH]; intros h ws H; [exact H |].
  destruct ws as [|w ws]; [exact H |].
  cbn [SHA256.blocks]. apply IH. unfold SHA256.compress.
  rewrite add_all_length; [exact H |].
  rewrite rounds_length; [exact H | exact H].
Qed.

Lemma be_bytes_length (n : nat) (x : Z) : length (SHA256.be_bytes n x) = n.
Proof. induction n as [|n IH]; cbn; congruence. Qed.

Lemma be_bytes_range (n : nat) (x : Z) :
  List.Forall (fun b => 0 <= b < 256) (SHA256.be_bytes n x).
Proof.
  induction n as [|n IH]; cbn [SHA256.be_bytes]; constructor; [| exact IH].
  change 255 with (Z.ones 8). rewrite Z.land_ones by lia.
  apply Z.mod_pos_bound. lia.
Qed.

Lemma digest_length (msg : list Z) : length (SHA256.digest msg) = 32%nat.
Proof.
  unfold SHA256.digest.
  pose proof (blocks_length (length (SHA256.words (SHA256.pad msg))) SHA256.H0
                (SHA256.words (SHA256.pad msg)) eq_refl) as H.
  destruct (SHA256.blocks _ _ _)
    as [|a [|b [|c [|d [|e [|f [|g [|h [|i regs]]]]]]]]]; try discriminate.
  cbn [flat_map]. rewrite !length_app, !be_bytes_length. reflexivity.
Qed.

Lemma digest_range (msg : list Z) :
  List.Forall (fun b => 0 <= b < 256) (SHA256.digest msg).
Proof.
  unfold SHA256.digest. induction (SHA256.blocks _ _ _) as [|w ws IH];
    cbn [flat_map]; [constructor |].
  apply Forall_app. split; [apply be_bytes_range | exact IH].
Qed.

Lemma hex_digit_lower (n : Z) :
  0 <= n < 16 -> is_lower_hex (SHA256.hex_digit n) = true.
Proof.
  intros H. rewrite <- (Z2Nat.id n) by lia.
  assert (Hk : (Z.to_nat n < 16)%nat) by lia.
  revert Hk. generalize (Z.to_nat n) as k. intros k Hk.
  do 16 (destruct k as [|k]; [reflexivity |]). lia.
Qed.

Lemma hex_format (bytes : list Z) :
  List.Forall (fun b => 0 <= b < 256) bytes ->
  String.length (SHA256.hex bytes) = (2 * length bytes)%nat
  /\ all_chars is_lower_hex (SHA256.hex bytes) = true.
Proof.
  induction 1 as [|b bytes Hb _ [IHl IHc]]; [split; reflexivity |].
  cbn [SHA256.hex String.length all_chars length]. split; [lia |].
  rewrite IHc, !hex_digit_lower; [reflexivity | |].
  - change 15 with (Z.ones 4). rewrite Z.land_ones by lia.
    apply Z.mod_pos_bound. lia.
  - rewrite Z.shiftr_div_pow2 by lia. change (2 ^ 4) with 16.
    split; [apply Z.div_pos; lia | apply Z.div_lt_upper_bound; lia].
Qed.

Lemma prefix_all_chars (p : ascii -> bool) (n : nat) (s : string) :
  all_chars p s = true -> all_chars p (Py.prefix n s) = true.
Proof.
  unfold Py.prefix. revert n.
  induction s as [|c s IH]; intros [|n] H; cbn in *; try reflexivity.
  apply andb_true_iff in H as [Hc Hs]. rewrite Hc. cbn. now apply IH.
Qed.

Lemma item_hash_format (input : string) :
  String.length (item_hash input) = 16%nat
  /\ all_chars is_lower_hex (item_hash input) = true.
Proof.
  unfold item_hash, SHA256.hexdigest.
  destruct (hex_format _ (digest_range (Py.encode input))) as [Hl Hc].
  rewrite digest_length in Hl. split.
  - rewrite prefix_length, Hl. reflexivity.
  - now apply prefix_all_chars.
Qed.

(** X7: whenever [generate_item_id] returns, the id is ["item_"]
    followed by exactly sixteen characters, each one of [0-9a-f]: 21
    characters whatever the attributes are. *)
Theorem generate_item_id_format (e : ExtractedAttributes) (item_id : string) :
  generate_item_id e = Ok item_id ->
  exists digits,
    item_id = "item_" +:+ digits
    /\ String.length digits = 16%nat
    /\ all_chars is_lower_hex digits = true
    /\ String.length item_id = 21%nat.
Proof.
  unfold generate_item_id.
  destruct (hash_input e) as [input|]; cbn [mbind result_bind]; [| discriminate].
  intros [= <-]. exists (item_hash input).
  destruct (item_hash_format input) as [Hl Hc].
  repeat split; try assumption.
  rewrite length_append, Hl. reflexivity.
Qed.

Lemma generate_item_id_format_witness :
  exists digits,
    "item_9b6b68c5f65325bf" = "item_" +:+ digits
    /\ String.length digits = 16%nat
    /\ all_chars is_lower_hex digits = true
    /\ String.length "item_9b6b68c5f65325bf" = 21%nat.
Proof.
  apply (generate_item_id_format Sample.saree).
  vm_compute. reflexivity.
Defined.



(** X9: the separator is not escaped: moving a ["|"] from inside the
    category to inside the subcategory (category [a|b] with subcategory
    [c], against category [a] with subcategory [b|c]) leaves the id
    unchanged when the other components agree. *)
Theorem generate_item_id_separator (e1 e2 : ExtractedAttributes) (a b c : string) :
  category e1 = a +:+ "|" +:+ b ->
  subcategory e1 = c ->
  category e2 = a ->
  subcategory e2 = b +:+ "|" +:+ c ->
  Py.sorted (material e1) = Py.sorted (material e2) ->
  Py.sorted (colors e1) = Py.sorted (colors e2) ->
  price e1 !! "value" = price e2 !! "value" ->
  generate_item_id e1 = generate_item_id e2.
Proof.
  intros H1 H2 H3 H4 Hm Hc Hp.
  unfold generate_item_id, hash_input, id_components, getitem.
  rewrite H1, H2, H3, H4, Hm, Hc, Hp.
  destruct (price e2 !! "value"); cbn [mbind result_bind]; [| reflexivity].
  rewrite !join_cons, !append_assoc. reflexivity.
Qed.

Lemma generate_item_id_separator_witness :
  generate_item_id piped_category = generate_item_id piped_subcategory.
Proof.
  apply (generate_item_id_separator piped_category piped_subcategory
           "Home" "Decor" "Pottery"); reflexivity.
Defined.

(** ** Long description: what survives into it *)

Lemma occurs_in_refl (t : string) : occurs_in t t.
Proof. exists "", "". now rewrite append_nil_r. Qed.

Lemma occurs_in_app_l (t s u : string) : occurs_in t s -> occurs_in t (s +:+ u).
Proof.
  intros (before & after & ->). exists before, (after +:+ u).
  now rewrite !append_assoc.
Qed.

Lemma occurs_in_app_r (t s u : string) : occurs_in t s -> occurs_in t (u +:+ s).
Proof.
  intros (before & after & ->). exists (u +:+ before), after.
  now rewrite !append_assoc.
Qed.

Lemma occurs_in_trans (t s u : string) :
  occurs_in t s -> occurs_in s u -> occurs_in t u.
Proof.
  intros (b1 & a1 & ->) (b2 & a2 & ->). exists (b2 +:+ b1), (a1 +:+ a2).
  now rewrite !append_assoc.
Qed.

Lemma occurs_in_join (sep x : string) (l : list string) :
  In x l -> occurs_in x (Py.join sep l).
Proof.
  induction l as [|y l IH]; [intros [] |].
  intros [-> | Hin].
  - destruct l as [|z l]; [apply occurs_in_refl |].
    rewrite join_cons. apply occurs_in_app_l, occurs_in_refl.
  - destruct l as [|z l]; [destruct Hin |].
    rewrite join_cons. apply occurs_in_app_r, occurs_in_app_r. now apply IH.
Qed.

Lemma csi_line_keeps (csi : CSI) :
  occurs_in (vernacular_term csi) (csi_line csi)
  /\ occurs_in (transliteration csi) (csi_line csi)
  /\ occurs_in (english_context csi) (csi_line csi).
Proof.
  unfold csi_line. repeat split.
  - apply occurs_in_app_r, occurs_in_app_l, occurs_in_refl.
  - do 3 apply occurs_in_app_r. apply occurs_in_app_l, occurs_in_refl.
  - do 5 apply occurs_in_app_r. apply occurs_in_app_l, occurs_in_refl.
Qed.

Lemma csi_line_in_description (e : ExtractedAttributes) (csi : CSI) :
  In csi (csis e) -> occurs_in (csi_line csi) (build_long_description e).
Proof.
  intros Hin. rewrite build_long_description_parts.
  apply occurs_in_trans with (csi_section (csis e)).
  - unfold csi_section. rewrite csi_section_fold.
    apply occurs_in_app_r, occurs_in_join, in_map, Hin.
  - apply occurs_in_join. right. unfold later_sections.
    destruct (csis e); [destruct Hin |]. now left.
Qed.

Lemma csi_line_printed_fields (items items' : list CSI) :
  map printed_fields items' = map printed_fields items ->
  map csi_line items' = map csi_line items.
Proof.
  revert items'. induction items as [|csi items IH]; intros [|csi' items'];
    cbn; try discriminate; [reflexivity |].
  intros [= H1 H2 H3 H]. unfold csi_line at 1 3.
  now rewrite H1, H2, H3, (IH items' H).
Qed.

(** X10: what of the attributes reaches the long description.  The
    vernacular term, the transliteration and the English context of
    every CSI occur verbatim in the result, and so do the long
    description and the craft technique; the fourth field of a CSI, its
    cultural significance, is never printed: the result is the same for
    any attributes with the same long description, the same craft
    technique and the same three printed fields in every CSI, whatever
    the cultural significances and the other fields are.  The long
    description of a mapped item is this result. *)
Theorem build_long_description_keeps_csis (e : ExtractedAttributes) :
  (forall csi,
     In csi (csis e) ->
     occurs_in (vernacular_term csi) (build_long_description e)
     /\ occurs_in (transliteration csi) (build_long_description e)
     /\ occurs_in (english_context csi) (build_long_description e))
  /\ occurs_in (long_description e) (build_long_description e)
  /\ occurs_in (craft_technique e) (build_long_description e)
  /\ (forall e',
        long_description e' = long_description e ->
        craft_technique e' = craft_technique e ->
        map printed_fields (csis e') = map printed_fields (csis e) ->
        build_long_description e' = build_long_description e)
  /\ (forall rest get_image_urls map_csis_to_tags item,
        map_to_beckn_item rest get_image_urls map_csis_to_tags e = Ok item ->
        long_desc (descriptor item) = build_long_description e).
Proof.
  split; [| split; [| split; [| split]]].
  - intros csi Hin. pose proof (csi_line_in_description e csi Hin) as H.
    destruct (csi_line_keeps csi) as (H1 & H2 & H3).
    repeat split; eapply occurs_in_trans; eauto.
  - rewrite build_long_description_parts. apply occurs_in_join. now left.
  - rewrite build_long_description_parts.
    destruct (String.eqb_spec (craft_technique e) "") as [-> | Hne].
    + exists "", (Py.join (String "010" (String "010" ""))
                    (long_description e :: later_sections e)).
      reflexivity.
    + apply occurs_in_trans with ("Craft Technique: " +:+ craft_technique e).
      * apply occurs_in_app_r, occurs_in_refl.
      * apply occurs_in_join. right. unfold later_sections.
        apply in_or_app. right.
        destruct (String.eqb_spec (craft_technique e) ""); [contradiction |].
        now left.
  - intros e' Hl Ht Hc. rewrite !build_long_description_parts, Hl.
    f_equal. f_equal. unfold later_sections. rewrite Ht. f_equal.
    pose proof (csi_line_printed_fields _ _ Hc) as Hlines.
    unfold csi_section. rewrite !csi_section_fold, Hlines.
    destruct (csis e') as [|c' l']; destruct (csis e) as [|c l];
      try discriminate; reflexivity.
  - intros rest giu mct item H.
    exact (proj1 (proj2 (proj2 (map_to_beckn_item_ok _ _ _ _ _ H)))).
Qed.

Lemma build_long_description_keeps_csis_witness :
  occurs_in "zari" (build_long_description Sample.saree)
  /\ occurs_in "zari" (build_long_description Sample.saree)
  /\ occurs_in "metallic thread work" (build_long_description Sample.saree).
Proof.
  apply (proj1 (build_long_description_keeps_csis Sample.saree)
           {| vernacular_term := "zari"; transliteration := "zari";
              english_context := "metallic thread work";
              cultural_significance := "wedding wear" |}).
  left. reflexivity.
Defined.

(** The cultural significance of the saree's CSI is not in its long
    description. *)
Example cultural_significance_not_printed :
  index 0 "wedding wear" (build_long_description Sample.saree) = None
  /\ index 0 "metallic thread work" (build_long_description Sample.saree)
     = Some 77%nat.
Proof. vm_compute. split; reflexivity. Qed.

(** ** Category table: keys that can be hit *)

Lemma fold_insert_skip {V : Type} (k j : string) (entries : list (string * V)) :
  j <> k ->
  forall m m' : gmap string V,
    m !! j = m' !! j ->
    fold_left (fun d kv => <[kv.1 := kv.2]> d) entries m !! j
    = fold_left (fun d kv => <[kv.1 := kv.2]> d)
        (List.filter (fun kv => negb (String.eqb kv.1 k)) entries) m' !! j.
Proof.
  intros Hj. induction entries as [|[k0 v0] entries IH]; intros m m' Hm.
  - exact Hm.
  - cbn [fold_left List.filter fst snd].
    destruct (String.eqb_spec k0 k) as [-> | Hne]; cbn [negb fold_left fst snd].
    + apply IH. rewrite lookup_insert_ne by congruence. exact Hm.
    + apply IH. rewrite !lookup_insert. case_decide; [reflexivity | exact Hm].
Qed.

(** X11: the table is looked up with the lower-cased category only, so
    an entry whose key is not already lower-case can never be hit:
    removing all entries with such a key from the table changes no
    result. *)
Theorem category_mapping_dead_key (rest : list (string * string)) (k c : string) :
  Py.lower k <> k ->
  map_category_to_ondc rest c
  = map_category_to_ondc
      (List.filter (fun kv => negb (String.eqb kv.1 k)) rest) c.
Proof.
  intros Hk. unfold map_category_to_ondc, category_mapping, dict_of.
  rewrite !fold_left_app. f_equal.
  apply fold_insert_skip; [| reflexivity].
  intros E. apply Hk. rewrite <- E. apply lower_idempotent.
Qed.

Lemma category_mapping_dead_key_witness :
  map_category_to_ondc [("Brassware", "Home & Decor:Handicrafts:Brass")] "Brassware"
  = map_category_to_ondc [] "Brassware".
Proof.
  apply (category_mapping_dead_key
           [("Brassware", "Home & Decor:Handicrafts:Brass")] "Brassware" "Brassware").
  discriminate.
Defined.

(** ** Backend error handlers *)

(** X12: how a gateway response is classified.  It is RETRYABLE exactly
    when the status is 500 or above, or 429; VALIDATION_ERROR exactly
    when the status is 400 and the body contains ["validation"]; and
    PERMANENT in every other case, which includes every status below
    400 and a 400 whose body does not contain that word. *)
Theorem categorize_error_classes (response : ONDCResponse) :
  (ONDCErrorHandler.categorize_error response = ONDCErrorHandler.RETRYABLE
   <-> 500 <= status_code response \/ status_code response = 429)
  /\ (ONDCErrorHandler.categorize_error response = ONDCErrorHandler.VALIDATION_ERROR
      <-> status_code response = 400
          /\ ONDCErrorHandler.mentions_validation (body response) = true)
  /\ (ONDCErrorHandler.categorize_error response = ONDCErrorHandler.PERMANENT
      <-> status_code response < 500 /\ status_code response <> 429
          /\ (status_code response = 400 ->
              ONDCErrorHandler.mentions_validation (body response) = false))
  /\ (status_code response < 400 ->
      ONDCErrorHandler.categorize_error response = ONDCErrorHandler.PERMANENT).
Proof.
  unfold ONDCErrorHandler.categorize_error.
  destruct (Z.leb_spec 500 (status_code response)) as [H5 | H5].
  { repeat split; try discriminate; try lia; auto. }
  destruct (Z.eqb_spec (status_code response) 429) as [H4 | H4].
  { repeat split; try discriminate; try lia; auto. }
  destruct (Z.eqb_spec (status_code response) 400) as [H0 | H0]; cbn [andb].
  - destruct (ONDCErrorHandler.mentions_validation (body response));
      repeat split; try discriminate; try lia; auto;
      try (intros [? | ?]; lia); try (intros [_ ?]; discriminate);
      try (intros (_ & _ & H); specialize (H H0); discriminate).
  - repeat split; try discriminate; try lia; auto;
      try (intros [? | ?]; lia); try (intros [? _]; lia).
Qed.

(** X13: on a retryable response the handler changes nothing but the
    submission status, which becomes PENDING, and publishes the record
    once with a delay of 60 seconds; the payload, and with it the item
    id used as idempotency key, is the one of the failed attempt.  The
    handler keeps no count of attempts: handling a second retryable
    response gives the same record and the same single publish again. *)
Theorem handle_submission_error_retry
    (handle_validation_error :
       CatalogProcessingRecord -> list string
       -> CatalogProcessingRecord * list effect)
    (parse_validation_errors : ONDCResponse -> list string)
    (record : CatalogProcessingRecord) (response again : ONDCResponse) :
  ONDCErrorHandler.categorize_error response = ONDCErrorHandler.RETRYABLE ->
  ONDCErrorHandler.categorize_error again = ONDCErrorHandler.RETRYABLE ->
  let retried := set_submission_status record PENDING in
  ONDCErrorHandler.handle_submission_error handle_validation_error
    parse_validation_errors record response
  = (retried, [QueuePublishWithDelay retried 60])
  /\ ondc_payload retried = ondc_payload record
  /\ id <$> ondc_payload retried = id <$> ondc_payload record
  /\ ONDCErrorHandler.handle_submission_error handle_validation_error
       parse_validation_errors retried again
     = (retried, [QueuePublishWithDelay retried 60]).
Proof.
  intros H1 H2. cbv zeta. unfold ONDCErrorHandler.handle_submission_error.
  rewrite H1, H2. repeat split.
Qed.

Lemma handle_submission_error_retry_witness :
  ONDCErrorHandler.handle_submission_error
    (ProcessingErrorHandler.handle_validation_error Sample.auto_correct)
    Sample.parse_validation_errors overlong_record
    {| status_code := 503; body := "" |}
  = (set_submission_status overlong_record PENDING,
     [QueuePublishWithDelay (set_submission_status overlong_record PENDING) 60]).
Proof.
  apply (handle_submission_error_retry
           (ProcessingErrorHandler.handle_validation_error Sample.auto_correct)
           Sample.parse_validation_errors overlong_record
           {| status_code := 503; body := "" |}
           {| status_code := 429; body := "" |}); reflexivity.
Defined.

(** X15: what the three backend handlers never touch.  Whatever the
    error, each of them leaves the identity of the record, its media
    keys and language, the vision and extraction stages, the catalog id
    and the times as they were; [handle_asr_error] moreover leaves the
    mapping and submission stages, and [handle_validation_error] the ASR
    and submission stages.  For [handle_submission_error] this holds
    with any method for [self.handle_validation_error] that leaves these
    fields itself, as the one of [ProcessingErrorHandler] does; on a
    response that is not a validation error it holds whatever that
    method is. *)
Theorem handlers_frame
    (auto_correct : option ONDCCatalogItem -> list string -> option ONDCCatalogItem)
    (parse_validation_errors : ONDCResponse -> list string)
    (record : CatalogProcessingRecord) (error : pyexc) (errors : list string)
    (response : ONDCResponse) :
  (let r' := (ProcessingErrorHandler.handle_asr_error record error).1 in
   same_outside_stages record r'
   /\ mapping_status r' = mapping_status record
   /\ ondc_payload r' = ondc_payload record
   /\ submission_status r' = submission_status record)
  /\ (let r' :=
        (ProcessingErrorHandler.handle_validation_error auto_correct record errors).1
      in
      same_outside_stages record r'
      /\ asr_status r' = asr_status record /\ asr_result r' = asr_result record
      /\ submission_status r' = submission_status record)
  /\ (let r' :=
        (ONDCErrorHandler.handle_submission_error
           (ProcessingErrorHandler.handle_validation_error auto_correct)
           parse_validation_errors record response).1 in
      same_outside_stages record r'
      /\ asr_status r' = asr_status record /\ asr_result r' = asr_result record)
  /\ (forall handle_validation_error,
        let r' :=
          (ONDCErrorHandler.handle_submission_error handle_validation_error
             parse_validation_errors record response).1 in
        ONDCErrorHandler.categorize_error response
        <> ONDCErrorHandler.VALIDATION_ERROR
        \/ (let kept :=
              (handle_validation_error record
                 (parse_validation_errors response)).1 in
            same_outside_stages record kept
            /\ asr_status kept = asr_status record
            /\ asr_result kept = asr_result record) ->
        same_outside_stages record r'
        /\ asr_status r' = asr_status record /\ asr_result r' = asr_result record).
Proof.
  cbv zeta. unfold same_outside_stages. split; [| split; [| split]].
  - destruct error; cbn; repeat split.
  - unfold ProcessingErrorHandler.handle_validation_error.
    destruct (auto_correct (ondc_payload record) errors); cbn; repeat split.
  - unfold ONDCErrorHandler.handle_submission_error,
      ProcessingErrorHandler.handle_validation_error.
    destruct (ONDCErrorHandler.categorize_error response);
      [| destruct (auto_correct _ _) |]; cbn; repeat split.
  - intros delegate H. unfold ONDCErrorHandler.handle_submission_error.
    destruct (ONDCErrorHandler.categorize_error response).
    + cbn. repeat split.
    + destruct H as [H | H]; [contradiction | exact H].
    + cbn. repeat split.
Qed.

(** X16: model timeouts are retried without bound.  After any positive
    number of consecutive [ModelTimeoutError]s the record is PENDING
    with its ASR result as before the first one, and it has been put
    on the queue at high priority once per timeout; nothing else was
    done, in particular the stage is never marked SKIPPED or FAILED. *)
Theorem handle_asr_errors_timeouts (record : CatalogProcessingRecord) (n : nat) :
  let pending := set_asr record PENDING (asr_result record) in
  handle_asr_errors record (repeat ModelTimeoutError (S n))
  = (pending, repeat (QueuePublish pending "high") (S n)).
Proof.
  cbv zeta.
  assert (Hstep : forall m r,
            r = set_asr record PENDING (asr_result record) ->
            handle_asr_errors r (repeat ModelTimeoutError m)
            = (r, repeat (QueuePublish r "high") m)).
  { induction m as [|m IH]; intros r Hr; [reflexivity |].
    cbn [repeat handle_asr_errors ProcessingErrorHandler.handle_asr_error].
    assert (E : set_asr r PENDING (asr_result r) = r) by (subst r; reflexivity).
    rewrite E, (IH r Hr). reflexivity. }
  cbn [repeat handle_asr_errors ProcessingErrorHandler.handle_asr_error].
  rewrite (Hstep n _ eq_refl). reflexivity.
Qed.

(** ** Circuit breaker: configuration, pass-through, opening, cooldown *)

Lemma call_configuration {W A : Type} (clock : W -> Double.t) (self : CircuitBreaker.t)
    (func : W -> result A * W) (w : W) :
  CircuitBreaker.failure_threshold (CircuitBreaker.call clock self func w).1.2
  = CircuitBreaker.failure_threshold self
  /\ CircuitBreaker.timeout (CircuitBreaker.call clock self func w).1.2
     = CircuitBreaker.timeout self.
Proof.
  unfold CircuitBreaker.call, CircuitBreaker.before_call.
  destruct self as [count threshold timeout st last]; cbn.
  destruct st; cbn.
  - destruct (func w) as [[r | e] w']; cbn; [auto |].
    unfold CircuitBreaker.on_failure; cbn.
    destruct (threshold <=? count + 1); cbn; auto.
  - destruct last as [t|]; cbn; [| auto].
    destruct (CircuitBreaker.cooled_down (clock w) t timeout); cbn; [| auto].
    destruct (func w) as [[r | e] w']; cbn; [auto |].
    unfold CircuitBreaker.on_failure; cbn.
    destruct (threshold <=? count + 1); cbn; auto.
  - destruct (func w) as [[r | e] w']; cbn; [auto |].
    unfold CircuitBreaker.on_failure; cbn.
    destruct (threshold <=? count + 1); cbn; auto.
Qed.

Lemma call_counts {W A : Type} (clock : W -> Double.t) (self : CircuitBreaker.t)
    (func : W -> result A * W) (w : W) :
  0 <= CircuitBreaker.failure_count self
  /\ (0 < CircuitBreaker.failure_count self ->
      is_Some (CircuitBreaker.last_failure_time self)) ->
  let self' := (CircuitBreaker.call clock self func w).1.2 in
  0 <= CircuitBreaker.failure_count self'
  /\ (0 < CircuitBreaker.failure_count self' ->
      is_Some (CircuitBreaker.last_failure_time self')).
Proof.
  intros [H0 Hl]. cbv zeta.
  unfold CircuitBreaker.call, CircuitBreaker.before_call.
  destruct self as [count threshold timeout st last]; cbn in *.
  destruct st; cbn.
  - destruct (func w) as [[r | e] w']; cbn; [auto |].
    unfold CircuitBreaker.on_failure; cbn.
    destruct (threshold <=? count + 1); cbn; split; try lia; eauto.
  - destruct last as [t|]; cbn; [| auto].
    destruct (CircuitBreaker.cooled_down (clock w) t timeout); cbn; [| auto].
    destruct (func w) as [[r | e] w']; cbn; [split; [lia | eauto] |].
    unfold CircuitBreaker.on_failure; cbn.
    destruct (threshold <=? count + 1); cbn; split; try lia; eauto.
  - destruct (func w) as [[r | e] w']; cbn; [split; [lia | lia] |].
    unfold CircuitBreaker.on_failure; cbn.
    destruct (threshold <=? count + 1); cbn; split; try lia; eauto.
Qed.

(** X17: [call] never changes the configuration of a breaker (threshold
    and timeout stay as given to [__init__]); and on a breaker built by
    [__init__] and used through [call] only, the failure counter is
    never negative and a positive counter comes with a recorded failure
    time. *)
Theorem circuit_breaker_configuration {W A : Type} (clock : W -> Double.t)
    (self : CircuitBreaker.t) (func : W -> result A * W) (w : W) :
  (CircuitBreaker.failure_threshold (CircuitBreaker.call clock self func w).1.2
   = CircuitBreaker.failure_threshold self
   /\ CircuitBreaker.timeout (CircuitBreaker.call clock self func w).1.2
      = CircuitBreaker.timeout self)
  /\ (reachable (A := A) clock self ->
      0 <= CircuitBreaker.failure_count self
      /\ (0 < CircuitBreaker.failure_count self ->
          is_Some (CircuitBreaker.last_failure_time self))).
Proof.
  split; [apply call_configuration |].
  induction 1 as [threshold timeout | self0 func0 w0 _ IH].
  - cbn. split; [lia | lia].
  - now apply call_counts.
Qed.

Lemma circuit_breaker_configuration_witness :
  0 <= CircuitBreaker.failure_count
         (CircuitBreaker.call seconds (CircuitBreaker.init 2 60) failing_call (Double.of_Z 0)).1.2
  /\ (0 < CircuitBreaker.failure_count
            (CircuitBreaker.call seconds (CircuitBreaker.init 2 60)
               failing_call (Double.of_Z 0)).1.2 ->
      is_Some (CircuitBreaker.last_failure_time
                 (CircuitBreaker.call seconds (CircuitBreaker.init 2 60)
                    failing_call (Double.of_Z 0)).1.2)).
Proof.
  apply (proj2 (circuit_breaker_configuration seconds
                  (CircuitBreaker.call seconds (CircuitBreaker.init 2 60)
                     failing_call (Double.of_Z 0)).1.2 failing_call (Double.of_Z 0))).
  apply (reachable_call seconds (CircuitBreaker.init 2 60) failing_call (Double.of_Z 0)).
  apply reachable_init.
Defined.

(** X18: [call] adds nothing of its own to a call that it lets through.
    On a breaker built by [__init__] and used through [call] only, a
    call either is refused with [CircuitBreakerOpenError], breaker and
    world unchanged, or returns exactly the result or the exception of
    the wrapped function with the world that the function left; in
    particular the subtraction from an unset failure time never
    raises. *)
Theorem circuit_breaker_pass_through {W A : Type} (clock : W -> Double.t)
    (self : CircuitBreaker.t) (func : W -> result A * W) (w : W) :
  reachable (A := A) clock self ->
  CircuitBreaker.call clock self func w = (Raise CircuitBreakerOpenError, self, w)
  \/ (exists self',
        CircuitBreaker.call clock self func w = ((func w).1, self', (func w).2)).
Proof.
  intros Hr. destruct (reachable_settled clock self Hr) as [Hh Ho].
  unfold CircuitBreaker.call, CircuitBreaker.before_call.
  destruct (CircuitBreaker.state self) eqn:Hs; [| | contradiction].
  - right. destruct (func w) as [[r | e] w']; cbn; eauto.
  - destruct (Ho eq_refl) as [_ [t Ht]]. rewrite Ht.
    destruct (CircuitBreaker.cooled_down (clock w) t (CircuitBreaker.timeout self)).
    + right. destruct (func w) as [[r | e] w']; cbn; eauto.
    + now left.
Qed.

Lemma circuit_breaker_pass_through_witness :
  CircuitBreaker.call seconds (CircuitBreaker.init 2 60) failing_call (Double.of_Z 0)
  = (Raise CircuitBreakerOpenError, CircuitBreaker.init 2 60, (Double.of_Z 0))
  \/ (exists self',
        CircuitBreaker.call seconds (CircuitBreaker.init 2 60) failing_call (Double.of_Z 0)
        = ((failing_call (Double.of_Z 0)).1, self', (failing_call (Double.of_Z 0)).2)).
Proof.
  exact (circuit_breaker_pass_through seconds (CircuitBreaker.init 2 60)
           failing_call (Double.of_Z 0) (reachable_init seconds 2 60)).
Defined.

Lemma run_failures {W A : Type} (clock : W -> Double.t)
    (funcs : list (W -> result A * W)) :
  List.Forall always_raises funcs ->
  forall (self : CircuitBreaker.t) (w : W),
    CircuitBreaker.state self = CircuitBreaker.CLOSED ->
    CircuitBreaker.failure_count self + Z.of_nat (length funcs)
    <= CircuitBreaker.failure_threshold self ->
    CircuitBreaker.failure_count self < CircuitBreaker.failure_threshold self ->
    let self' := (CircuitBreaker.run clock self funcs w).1 in
    CircuitBreaker.failure_count self'
    = CircuitBreaker.failure_count self + Z.of_nat (length funcs)
    /\ CircuitBreaker.state self'
       = if CircuitBreaker.failure_count self + Z.of_nat (length funcs)
            =? CircuitBreaker.failure_threshold self
         then CircuitBreaker.OPEN else CircuitBreaker.CLOSED.
Proof.
  induction 1 as [|func funcs Hf _ IH]; intros self w Hs Hle Hlt; cbv zeta.
  - cbn. rewrite Z.add_0_r. split; [reflexivity |].
    destruct (Z.eqb_spec (CircuitBreaker.failure_count self)
                (CircuitBreaker.failure_threshold self)); [lia | exact Hs].
  - cbn [CircuitBreaker.run length] in *.
    destruct (Hf w) as (e & w' & Hfw).
    destruct (call_closed_failure clock self func w w' e Hs Hfw)
      as (self1 & Hcall & Hcount & _ & Hstate).
    destruct (call_configuration clock self func w) as [Hth _].
    rewrite Hcall in *. cbn [fst snd] in Hth.
    destruct (Z.leb_spec (CircuitBreaker.failure_threshold self)
                (CircuitBreaker.failure_count self + 1)) as [Hopen | Hopen].
    + assert (Hnil : funcs = []) by (destruct funcs; [reflexivity | cbn in Hle; lia]).
      subst funcs. cbn. rewrite Hcount. split; [lia |].
      rewrite Hstate.
      destruct (Z.eqb_spec (CircuitBreaker.failure_count self + Z.of_nat 1)
                  (CircuitBreaker.failure_threshold self)); [reflexivity | lia].
    + specialize (IH self1 w' Hstate). cbv zeta in IH.
      rewrite Hth, Hcount in IH.
      destruct IH as [IHc IHs]; [lia | lia |].
      split; [rewrite IHc; lia |].
      rewrite IHs.
      replace (CircuitBreaker.failure_count self + 1 + Z.of_nat (length funcs))
        with (CircuitBreaker.failure_count self + Z.of_nat (S (length funcs)))
        by lia.
      reflexivity.
Qed.

(** X19: a new breaker with threshold [n >= 1] stays CLOSED through
    fewer than [n] failing calls and is OPEN after exactly [n] of them,
    the counter being the number of failures; and with a threshold of 1
    or less (zero and negative values included) the first failure opens
    it. *)
Theorem circuit_breaker_opens_at_threshold {W A : Type} (clock : W -> Double.t)
    (threshold timeout : Z) (funcs : list (W -> result A * W)) (w : W) :
  List.Forall always_raises funcs ->
  (1 <= threshold ->
   Z.of_nat (length funcs) <= threshold ->
   let self' :=
     (CircuitBreaker.run clock (CircuitBreaker.init threshold timeout) funcs w).1 in
   CircuitBreaker.failure_count self' = Z.of_nat (length funcs)
   /\ CircuitBreaker.state self'
      = if Z.of_nat (length funcs) =? threshold
        then CircuitBreaker.OPEN else CircuitBreaker.CLOSED)
  /\ (threshold <= 1 ->
      forall func, In func funcs ->
        CircuitBreaker.state
          (CircuitBreaker.call clock (CircuitBreaker.init threshold timeout)
             func w).1.2
        = CircuitBreaker.OPEN).
Proof.
  intros Hf. split.
  - intros Hn Hlen.
    apply (run_failures clock funcs Hf (CircuitBreaker.init threshold timeout) w
             eq_refl); cbn; lia.
  - intros Hn func Hin.
    rewrite List.Forall_forall in Hf. destruct (Hf func Hin w) as (e & w' & Hfw).
    destruct (call_closed_failure clock (CircuitBreaker.init threshold timeout)
                func w w' e eq_refl Hfw) as (self1 & Hcall & _ & _ & Hstate).
    rewrite Hcall. cbn [fst snd]. rewrite Hstate. cbn.
    destruct (Z.leb_spec threshold (0 + 1)); [reflexivity | lia].
Qed.

Lemma failing_call_always_raises : always_raises failing_call.
Proof. intros w. unfold failing_call. eauto. Qed.

Lemma three_failing_calls :
  List.Forall always_raises [failing_call; failing_call; failing_call].
Proof. repeat constructor; apply failing_call_always_raises. Qed.

Lemma circuit_breaker_opens_at_threshold_witness :
  CircuitBreaker.state
    (CircuitBreaker.run seconds (CircuitBreaker.init 3 60)
       [failing_call; failing_call; failing_call] (Double.of_Z 0)).1
  = CircuitBreaker.OPEN.
Proof.
  apply (proj1 (circuit_breaker_opens_at_threshold seconds 3 60
                  [failing_call; failing_call; failing_call] (Double.of_Z 0)
                  three_failing_calls)).
  - lia.
  - cbn. lia.
Defined.

(** X20: the cooldown test is strict, and it is made on the float that
    the subtraction [time.time() - self.last_failure_time] rounds to.
    An OPEN breaker refuses the call when this difference stands for a
    number at most [timeout] (so also at exactly [timeout]), or is a NaN
    or minus infinity; it lets the wrapped function run when the
    difference stands for a number strictly above [timeout], or is plus
    infinity. *)
Theorem circuit_breaker_cooldown_boundary {W A : Type} (clock : W -> Double.t)
    (self : CircuitBreaker.t) (func : W -> result A * W) (w : W)
    (last : Double.t) :
  CircuitBreaker.state self = CircuitBreaker.OPEN ->
  CircuitBreaker.last_failure_time self = Some last ->
  let difference := Double.sub (clock w) last in
  let refused :=
    CircuitBreaker.call clock self func w = (Raise CircuitBreakerOpenError, self, w) in
  let tried :=
    exists self',
      CircuitBreaker.call clock self func w = ((func w).1, self', (func w).2) in
  (forall elapsed,
     Double.value difference = Some elapsed ->
     ((elapsed <= inject_Z (CircuitBreaker.timeout self))%Q -> refused)
     /\ ((inject_Z (CircuitBreaker.timeout self) < elapsed)%Q -> tried))
  /\ (difference = S754_nan \/ difference = S754_infinity true -> refused)
  /\ (difference = S754_infinity false -> tried).
Proof.
  intros Hs Hl. cbv zeta.
  unfold CircuitBreaker.call, CircuitBreaker.before_call.
  rewrite Hs, Hl. unfold CircuitBreaker.cooled_down, Double.gt_int.
  split; [| split].
  - intros elapsed Hv.
    destruct (Double.sub (clock w) last) as [s | s | | s m e];
      try discriminate; rewrite Hv; split.
    + intros Hle. apply Qle_bool_iff in Hle. now rewrite Hle.
    + intros Hlt.
      destruct (Qle_bool elapsed (inject_Z (CircuitBreaker.timeout self))) eqn:E.
      * apply Qle_bool_iff in E. exfalso. exact (Qlt_not_le _ _ Hlt E).
      * cbn. destruct (func w) as [[r | ex] w']; cbn; eauto.
    + intros Hle. apply Qle_bool_iff in Hle. now rewrite Hle.
    + intros Hlt.
      destruct (Qle_bool elapsed (inject_Z (CircuitBreaker.timeout self))) eqn:E.
      * apply Qle_bool_iff in E. exfalso. exact (Qlt_not_le _ _ Hlt E).
      * cbn. destruct (func w) as [[r | ex] w']; cbn; eauto.
  - intros [-> | ->]; reflexivity.
  - intros ->. cbn. destruct (func w) as [[r | ex] w']; cbn; eauto.
Qed.

(** With a timeout of 60 and the failure at [0.2], a call at [60.2] is
    refused: the two floats are more than 60 apart, and their difference
    rounds to [60.0]. *)
Lemma circuit_breaker_cooldown_boundary_witness :
  (exists now last,
     Double.value sixty_and_fifth = Some now
     /\ Double.value fifth = Some last
     /\ (60 < now - last)%Q)
  /\ Double.sub sixty_and_fifth fifth = Double.of_Z 60
  /\ CircuitBreaker.call seconds (tripped fifth) passing_call sixty_and_fifth
     = (Raise CircuitBreakerOpenError, tripped fifth, sixty_and_fifth).
Proof.
  split; [do 2 eexists; split; [reflexivity |]; split; [reflexivity |];
          vm_compute; reflexivity |].
  split; [vm_compute; reflexivity |].
  refine (proj1 (proj1 (circuit_breaker_cooldown_boundary seconds
                          (tripped fifth) passing_call sixty_and_fifth fifth
                          eq_refl eq_refl) _ eq_refl) _).
  vm_compute. discriminate.
Defined.

(** ** Edge client error handler *)

(** X21: [handleCaptureError] shows exactly one localized message for
    every capture error, and it logs the error only when the type is
    neither CAMERA_PERMISSION_DENIED nor STORAGE_FULL; the settings are
    opened for the first type only and a cleanup is suggested for the
    second only. *)
Theorem handleCaptureError_messages (error : EdgeClient.CaptureError) :
  let made := EdgeClient.handleCaptureError error in
  length (List.filter (fun e => match e with
                                | EdgeClient.ShowLocalizedMessage _ => true
                                | _ => false end) made) = 1%nat
  /\ (In (EdgeClient.LogError error) made <->
      EdgeClient.error_type error <> "CAMERA_PERMISSION_DENIED"
      /\ EdgeClient.error_type error <> "STORAGE_FULL")
  /\ (In EdgeClient.OpenAppSettings made <->
      EdgeClient.error_type error = "CAMERA_PERMISSION_DENIED")
  /\ (In EdgeClient.SuggestCleanup made <->
      EdgeClient.error_type error = "STORAGE_FULL").
Proof.
  cbv zeta. unfold EdgeClient.handleCaptureError.
  assert (Hin : forall (x : EdgeClient.ui_effect) a b,
            In x [a; b] <-> a = x \/ b = x).
  { intros x a b. cbn. tauto. }
  destruct (String.eqb_spec (EdgeClient.error_type error) "CAMERA_PERMISSION_DENIED")
    as [H1 | H1];
    [| destruct (String.eqb_spec (EdgeClient.error_type error) "STORAGE_FULL")
         as [H2 | H2]];
    (split; [reflexivity |]); rewrite !Hin;
    (split; [| split]); split;
    try (intros [H | H]; discriminate H);
    try (intros [Ha Hb]; congruence);
    try (intros H; rewrite H in *; discriminate);
    try (intros H; contradiction);
    auto.
Qed.

Section SyncProperties.

Context {SyncError : Type}.
Variable isTransientError : SyncError -> bool.
Variable calculateBackoff : Double.t -> Double.t.
Variable localizeError : SyncError -> string.

Lemma handleSyncErrors_cons_transient (error : SyncError)
    (errors : list SyncError) (entry : EdgeClient.LocalQueueEntry) :
  isTransientError error = true ->
  EdgeClient.handleSyncErrors isTransientError calculateBackoff localizeError
    entry (error :: errors)
  = let retried :=
      (EdgeClient.handleSyncError isTransientError calculateBackoff localizeError
         entry error).1 in
    let later :=
      EdgeClient.handleSyncErrors isTransientError calculateBackoff localizeError
        retried errors in
    (later.1,
     EdgeClient.ScheduleRetry retried
       (calculateBackoff (EdgeClient.increment (EdgeClient.retryCount entry)))
     :: later.2).
Proof.
  intros Ht. cbn [EdgeClient.handleSyncErrors].
  unfold EdgeClient.handleSyncError. rewrite Ht. cbn [fst snd].
  now destruct (EdgeClient.handleSyncErrors _ _ _ _ errors).
Qed.

Lemma iter_increment_shift (n : nat) (count : Double.t) :
  Nat.iter n EdgeClient.increment (EdgeClient.increment count)
  = Nat.iter (S n) EdgeClient.increment count.
Proof. symmetry. apply Nat.iter_succ_r. Qed.

Lemma handleSyncErrors_transient (errors : list SyncError)
    (entry : EdgeClient.LocalQueueEntry) :
  List.Forall (fun error => isTransientError error = true) errors ->
  let outcome :=
    EdgeClient.handleSyncErrors isTransientError calculateBackoff localizeError
      entry errors in
  EdgeClient.retryCount outcome.1
  = Nat.iter (length errors) EdgeClient.increment (EdgeClient.retryCount entry)
  /\ scheduled_delays outcome.2
     = map (fun i => calculateBackoff
                       (Nat.iter i EdgeClient.increment
                          (EdgeClient.retryCount entry)))
           (seq 1 (length errors))
  /\ length outcome.2 = length errors
  /\ EdgeClient.errorMessage outcome.1 = EdgeClient.errorMessage entry
  /\ (errors <> [] -> EdgeClient.syncStatus outcome.1 = EdgeClient.QUEUED).
Proof.
  intros H. revert entry. cbv zeta.
  induction H as [|error errors Ht _ IH]; intros entry.
  - cbn. repeat split. congruence.
  - rewrite (handleSyncErrors_cons_transient error errors entry Ht). cbv zeta.
    set (retried := (EdgeClient.handleSyncError isTransientError calculateBackoff
                       localizeError entry error).1).
    assert (Hr : EdgeClient.retryCount retried
                 = EdgeClient.increment (EdgeClient.retryCount entry)
                 /\ EdgeClient.errorMessage retried = EdgeClient.errorMessage entry
                 /\ EdgeClient.syncStatus retried = EdgeClient.QUEUED).
    { subst retried. unfold EdgeClient.handleSyncError. rewrite Ht. cbn. auto. }
    destruct Hr as (Hrc & Hrm & Hrs).
    destruct (IH retried) as (IHc & IHd & IHl & IHm & IHs).
    cbn [fst snd]. repeat split.
    + rewrite IHc, Hrc. cbn [length]. apply iter_increment_shift.
    + unfold scheduled_delays in *. cbn [omap list_omap length seq map].
      apply (f_equal2 cons); [reflexivity |].
      rewrite IHd, <- (seq_shift (length errors) 1), List.map_map.
      apply List.map_ext.
      intros i. rewrite Hrc. f_equal. apply iter_increment_shift.
    + cbn [length]. now rewrite IHl.
    + congruence.
    + intros _. destruct errors as [|error' errors].
      * cbn. exact Hrs.
      * apply IHs. discriminate.
Qed.

End SyncProperties.

Lemma iter_increment_stuck (n : nat) (count : Double.t) :
  EdgeClient.increment count = count ->
  Nat.iter n EdgeClient.increment count = count.
Proof.
  intros H. induction n as [|n IH]; [reflexivity |].
  now rewrite Nat.iter_succ, IH.
Qed.

(** [2^53 + 1] is not a float: the sum rounds back to [2^53]. *)
Example increment_stuck_at_2_53 :
  EdgeClient.increment (Double.of_Z (2 ^ 53 - 1)) = Double.of_Z (2 ^ 53)
  /\ EdgeClient.increment (Double.of_Z (2 ^ 53)) = Double.of_Z (2 ^ 53).
Proof. split; vm_compute; reflexivity. Qed.

(** X22: the sync error handler of the edge client keeps no limit on
    retries.  After any number of consecutive transient errors the entry
    is queued again (never marked failed), its error message is
    untouched, one retry was scheduled per error, and the retry count is
    the initial count after that many [++]; the [k]-th retry was
    scheduled with the backoff computed from the count after the [k]-th
    [++].  The count is a float: once [++] no longer changes it (at
    [2^53]) the count stays there and every further retry is scheduled
    with the same backoff. *)
Theorem handleSyncError_unbounded_retries {SyncError : Type}
    (isTransientError : SyncError -> bool)
    (calculateBackoff : Double.t -> Double.t)
    (localizeError : SyncError -> string)
    (entry : EdgeClient.LocalQueueEntry) (errors : list SyncError) :
  List.Forall (fun error => isTransientError error = true) errors ->
  errors <> [] ->
  let outcome :=
    EdgeClient.handleSyncErrors isTransientError calculateBackoff localizeError
      entry errors in
  EdgeClient.retryCount outcome.1
  = Nat.iter (length errors) EdgeClient.increment (EdgeClient.retryCount entry)
  /\ EdgeClient.syncStatus outcome.1 = EdgeClient.QUEUED
  /\ EdgeClient.errorMessage outcome.1 = EdgeClient.errorMessage entry
  /\ length outcome.2 = length errors
  /\ scheduled_delays outcome.2
     = map (fun k => calculateBackoff
                       (Nat.iter k EdgeClient.increment
                          (EdgeClient.retryCount entry)))
           (seq 1 (length errors))
  /\ (EdgeClient.increment (EdgeClient.retryCount entry)
      = EdgeClient.retryCount entry ->
      EdgeClient.retryCount outcome.1 = EdgeClient.retryCount entry
      /\ scheduled_delays outcome.2
         = repeat (calculateBackoff (EdgeClient.retryCount entry))
                  (length errors)).
Proof.
  intros Ht Hne. cbv zeta.
  destruct (handleSyncErrors_transient isTransientError calculateBackoff
              localizeError errors entry Ht) as (Hc & Hd & Hl & Hm & Hs).
  repeat split; auto.
  - rewrite Hc. now apply iter_increment_stuck.
  - rewrite Hd. clear - H.
    generalize 1%nat as start.
    induction (length errors) as [|n IH]; intros start; [reflexivity |].
    cbn [seq map repeat]. rewrite IH.
    now rewrite (iter_increment_stuck start _ H).
Qed.

(** From [2^53 - 1] retries on, three transient errors: the count goes
    to [2^53] with the first and stays there. *)
Lemma handleSyncError_unbounded_retries_witness :
  EdgeClient.retryCount
    (EdgeClient.handleSyncErrors sample_is_transient sample_backoff sample_localize
       worn_entry [503; 502; 504]).1 = Double.of_Z (2 ^ 53)
  /\ scheduled_delays
       (EdgeClient.handleSyncErrors sample_is_transient sample_backoff
          sample_localize worn_entry [503; 502; 504]).2
     = repeat (sample_backoff (Double.of_Z (2 ^ 53))) 3.
Proof.
  pose proof (handleSyncError_unbounded_retries sample_is_transient sample_backoff
                sample_localize worn_entry [503; 502; 504]) as H.
  destruct H as (Hc & _ & _ & _ & Hd & _).
  - repeat constructor.
  - discriminate.
  - split.
    + exact (eq_trans Hc eq_refl).
    + exact (eq_trans Hd eq_refl).
Defined.


(** ** CDK application entry point *)

(** X23: the region given to the stack is never empty: it is
    [CDK_DEFAULT_REGION] when that variable is set to a non-empty value
    and ['ap-south-1'] when it is unset or empty; the account has no
    such fallback and is undefined exactly when [CDK_DEFAULT_ACCOUNT] is
    unset. *)
Theorem stack_env_region (process_env : gmap string string) :
  CdkApp.region (CdkApp.stack_env process_env) <> ""
  /\ (forall r, process_env !! "CDK_DEFAULT_REGION" = Some r -> r <> "" ->
        CdkApp.region (CdkApp.stack_env process_env) = r)
  /\ (process_env !! "CDK_DEFAULT_REGION" = None
      \/ process_env !! "CDK_DEFAULT_REGION" = Some "" ->
      CdkApp.region (CdkApp.stack_env process_env) = "ap-south-1")
  /\ (CdkApp.account (CdkApp.stack_env process_env) = None
      <-> process_env !! "CDK_DEFAULT_ACCOUNT" = None).
Proof.
  unfold CdkApp.stack_env, CdkApp.or_else. cbn [CdkApp.region CdkApp.account].
  destruct (process_env !! "CDK_DEFAULT_REGION") as [r|] eqn:E.
  - destruct (String.eqb_spec r "") as [-> | Hr].
    + repeat split; try discriminate; auto.
      intros r' [= <-] H. contradiction.
    + repeat split; auto.
      * intros r' [= <-] _. reflexivity.
      * intros [H | H]; [discriminate | congruence].
  - repeat split; try discriminate; auto.
Qed.

Lemma stack_env_region_witness :
  CdkApp.region (CdkApp.stack_env (dict_of [("CDK_DEFAULT_REGION", "")]))
  = "ap-south-1".
Proof.
  apply (proj1 (proj2 (proj2 (stack_env_region
                                (dict_of [("CDK_DEFAULT_REGION", "")]))))).
  right. reflexivity.
Defined.

(** ** Deployment script *)

Ltac script_cases status :=
  unfold prerequisites_met, build_succeeds, DeployScript.deploy_infrastructure,
    DeployScript.check_node, DeployScript.check_cdk,
    DeployScript.check_credentials, DeployScript.deploy_steps,
    DeployScript.then_run;
  repeat match goal with
         | |- context [DeployScript.ok status ?c] =>
             let E := fresh "E" in
             destruct (DeployScript.ok status c) eqn:E
         end;
  repeat match goal with
         | E : DeployScript.ok status _ = false |- _ =>
             unfold DeployScript.ok in E; apply Z.eqb_neq in E
         | E : DeployScript.ok status _ = true |- _ =>
             unfold DeployScript.ok in E; apply Z.eqb_eq in E
         end;
  cbn.

(** X24: the script ends with status 0 exactly when the checks pass
    ([aws] and [node] are found, [cdk] is found or could be installed,
    the credentials are valid), the steps before the deployment succeed
    (entering the CDK directory, [npm install], [cdk synth]) and
    [cdk deploy] succeeds; whether [cdk bootstrap] succeeds does not
    matter. *)
Theorem deploy_infrastructure_exit_status (status : DeployScript.command -> Z) :
  (DeployScript.deploy_infrastructure status).1 = 0
  <-> prerequisites_met status = true
      /\ build_succeeds status = true
      /\ DeployScript.ok status DeployScript.CdkDeploy = true.
Proof.
  script_cases status; split; intros; repeat match goal with
    | H : _ /\ _ |- _ => destruct H end;
    try discriminate; try congruence; try lia; auto.
Qed.

(** X25: [cdk deploy] is run exactly when the checks pass and the steps
    before it succeed: never with a tool missing or invalid credentials,
    and also after a failed [cdk bootstrap]; and when it is run, every
    other command of the script except the global CDK installation has
    been run before it. *)
Theorem deploy_infrastructure_deploys (status : DeployScript.command -> Z) :
  let run := DeployScript.commands_run (DeployScript.deploy_infrastructure status).2 in
  (In DeployScript.CdkDeploy run
   <-> prerequisites_met status = true /\ build_succeeds status = true)
  /\ (In DeployScript.CdkDeploy run ->
      exists installs,
        run = [DeployScript.CommandV "aws"; DeployScript.CommandV "node";
               DeployScript.CommandV "cdk"]
              ++ installs
              ++ [DeployScript.AwsStsGetCallerIdentity;
                  DeployScript.CdBackendInfrastructureCdk;
                  DeployScript.NpmInstall; DeployScript.CdkBootstrap;
                  DeployScript.CdkSynth; DeployScript.CdkDeploy]
        /\ (installs = [] \/ installs = [DeployScript.NpmInstallGlobalCdk])).
Proof.
  cbv zeta. unfold DeployScript.commands_run.
  script_cases status; (split; [split |]); intros;
    repeat match goal with
           | H : _ /\ _ |- _ => destruct H
           | H : _ \/ _ |- _ => destruct H
           | H : False |- _ => destruct H
           end;
    try discriminate; try congruence; auto;
    try (exists []; split; [reflexivity | now left]);
    try (exists [DeployScript.NpmInstallGlobalCdk]; split; [reflexivity | now right]);
    try (repeat (try (left; reflexivity); right)).
Qed.

(** X26: when a check of the script fails, the script ends with a
    status other than 0 before anything is installed locally,
    bootstrapped, synthesized or deployed: the only commands run are the
    checks themselves and the global CDK installation when [cdk] was
    missing.  The status is 1 when [aws] or [node] is missing and when
    the credentials are invalid; when [cdk] is missing and its global
    installation fails, it is the status of that [npm] command, and the
    credentials are not checked at all. *)
Theorem deploy_infrastructure_stops_early (status : DeployScript.command -> Z) :
  prerequisites_met status = false ->
  let outcome := DeployScript.deploy_infrastructure status in
  let install_failed :=
    DeployScript.ok status (DeployScript.CommandV "aws")
    && DeployScript.ok status (DeployScript.CommandV "node")
    && negb (DeployScript.ok status (DeployScript.CommandV "cdk"))
    && negb (DeployScript.ok status DeployScript.NpmInstallGlobalCdk) in
  outcome.1 <> 0
  /\ outcome.1
     = (if install_failed then status DeployScript.NpmInstallGlobalCdk else 1)
  /\ (install_failed = true ->
      ~ In DeployScript.AwsStsGetCallerIdentity
          (DeployScript.commands_run outcome.2))
  /\ forall c,
       In c (DeployScript.commands_run outcome.2) ->
       c <> DeployScript.CdBackendInfrastructureCdk /\ c <> DeployScript.NpmInstall
       /\ c <> DeployScript.CdkBootstrap /\ c <> DeployScript.CdkSynth
       /\ c <> DeployScript.CdkDeploy.
Proof.
  unfold DeployScript.commands_run. cbv zeta.
  script_cases status; intros Hp; try discriminate;
    (split; [lia |]); (split; [reflexivity |]);
    (split; [try discriminate; intros _ Hin;
             repeat (destruct Hin as [Hin | Hin]; [discriminate |]);
             destruct Hin |]);
    intros c Hin;
    repeat (destruct Hin as [<- | Hin]; [repeat split; discriminate |]);
    destruct Hin.
Qed.

Lemma deploy_infrastructure_exit_status_witness :
  (DeployScript.deploy_infrastructure bootstrapped_machine).1 = 0.
Proof.
  apply (proj2 (deploy_infrastructure_exit_status bootstrapped_machine)).
  repeat split.
Defined.

(** Without [cdk], with [npm install -g] failing with 243 and with
    invalid credentials, the script ends with 243. *)
Lemma deploy_infrastructure_stops_early_witness :
  (DeployScript.deploy_infrastructure bare_machine).1 = 243.
Proof.
  exact (proj1 (proj2 (deploy_infrastructure_stops_early bare_machine eq_refl))).
Defined.

(** ** Item id: when the hashed string identifies the components *)

Lemma free_of_append (sep : ascii) (s t : string) :
  free_of sep (s +:+ t) = free_of sep s && free_of sep t.
Proof.
  unfold free_of. induction s as [|c s IH]; [reflexivity |].
  rewrite append_cons. cbn [all_chars]. rewrite IH. apply andb_assoc.
Qed.

Lemma free_of_cut (sep : ascii) (s t : string) :
  free_of sep (s +:+ String sep t) = false.
Proof.
  rewrite free_of_append. unfold free_of at 2. cbn [all_chars].
  rewrite Ascii.eqb_refl. cbn. apply andb_false_r.
Qed.

Lemma cut_unique (sep : ascii) (s s' t t' : string) :
  free_of sep s = true -> free_of sep s' = true ->
  s +:+ String sep t = s' +:+ String sep t' -> s = s' /\ t = t'.
Proof.
  revert s'. induction s as [|c s IH]; intros [|c' s'] Hs Hs' E.
  - cbn in E. injection E as E. auto.
  - rewrite append_cons in E. cbn in E. injection E as <- _.
    unfold free_of in Hs'. cbn in Hs'. rewrite Ascii.eqb_refl in Hs'. discriminate.
  - rewrite append_cons in E. cbn in E. injection E as -> _.
    unfold free_of in Hs. cbn in Hs. rewrite Ascii.eqb_refl in Hs. discriminate.
  - rewrite !append_cons in E. injection E as <- E.
    unfold free_of in Hs, Hs'. cbn in Hs, Hs'.
    apply andb_true_iff in Hs as [_ Hs]. apply andb_true_iff in Hs' as [_ Hs'].
    destruct (IH s' Hs Hs' E) as [-> ->]. auto.
Qed.

Lemma free_of_cut_string (sep : ascii) (s t : string) :
  free_of sep (s +:+ String sep "" +:+ t) = false.
Proof. exact (free_of_cut sep s t). Qed.

Lemma cut_unique_string (sep : ascii) (s s' t t' : string) :
  free_of sep s = true -> free_of sep s' = true ->
  s +:+ String sep "" +:+ t = s' +:+ String sep "" +:+ t' -> s = s' /\ t = t'.
Proof. exact (cut_unique sep s s' t t'). Qed.

Lemma join_free_of (sep other : ascii) (l : list string) :
  Ascii.eqb sep other = false ->
  List.Forall (fun x => free_of other x = true) l ->
  free_of other (Py.join (String sep "") l) = true.
Proof.
  intros Hsep. induction 1 as [|x l Hx Hl IH]; [reflexivity |].
  destruct l as [|y l]; [exact Hx |].
  rewrite join_cons, !free_of_append, Hx, IH. unfold free_of at 1. cbn.
  now rewrite Hsep.
Qed.

Lemma join_comma_inj (l l' : list string) :
  List.Forall plain_element l -> List.Forall plain_element l' ->
  Py.join "," l = Py.join "," l' -> l = l'.
Proof.
  intros H. revert l'. induction H as [|x l [Hx [Hc _]] Hl IH]; intros l' H' E.
  - destruct H' as [|y l' [Hy _] Hl']; [reflexivity |].
    destruct l' as [|z l'].
    + change (Py.join "," [y]) with y in E. cbn in E. congruence.
    + rewrite join_cons in E. cbn [Py.join] in E.
      destruct y; [contradiction | rewrite append_cons in E; discriminate].
  - destruct H' as [|y l' [Hy [Hc' _]] Hl'].
    { destruct l as [|z l].
      - change (Py.join "," [x]) with x in E. cbn in E. congruence.
      - rewrite join_cons in E. cbn [Py.join] in E.
        destruct x; [contradiction | rewrite append_cons in E; discriminate]. }
    destruct l as [|z l], l' as [|z' l'].
    + change (Py.join "," [x]) with x in E.
      change (Py.join "," [y]) with y in E. congruence.
    + change (Py.join "," [x]) with x in E. rewrite join_cons in E. subst x.
      rewrite free_of_cut_string in Hc. discriminate.
    + change (Py.join "," [y]) with y in E. rewrite join_cons in E. subst y.
      rewrite free_of_cut_string in Hc'. discriminate.
    + rewrite !join_cons in E.
      destruct (cut_unique_string _ _ _ _ _ Hc Hc' E) as [-> E'].
      f_equal. now apply IH.
Qed.

Lemma insert_sorted_In (x y : string) (l : list string) :
  In y (Py.insert_sorted x l) <-> y = x \/ In y l.
Proof.
  induction l as [|z l IH]; cbn; [intuition |].
  destruct (String.leb x z); cbn; [intuition |]. rewrite IH. intuition.
Qed.

Lemma sorted_In (y : string) (l : list string) : In y (Py.sorted l) <-> In y l.
Proof.
  induction l as [|x l IH]; cbn; [tauto |].
  rewrite insert_sorted_In, IH. intuition.
Qed.

Lemma sorted_plain (l : list string) :
  List.Forall plain_element l -> List.Forall plain_element (Py.sorted l).
Proof.
  rewrite !List.Forall_forall. intros H x Hx. apply H. now apply sorted_In.
Qed.

Lemma plain_join_free (l : list string) :
  List.Forall plain_element l -> free_of "|" (Py.join "," l) = true.
Proof.
  intros H. apply (join_free_of "," "|"); [reflexivity |].
  rewrite List.Forall_forall in *. intros x Hx. exact (proj2 (proj2 (H x Hx))).
Qed.

(** X27: when neither category nor subcategory contains ["|"] and every
    material and colour is non-empty and contains neither [","] nor
    ["|"], the hashed string determines the components: two such
    attribute sets are hashed from the same string only if they have the
    same category, the same subcategory, the same sorted materials, the
    same sorted colours and the same rendering of the price value. *)
Theorem hash_input_identifies (e1 e2 : ExtractedAttributes) (input : string) :
  unambiguous e1 -> unambiguous e2 ->
  hash_input e1 = Ok input -> hash_input e2 = Ok input ->
  category e1 = category e2
  /\ subcategory e1 = subcategory e2
  /\ Py.sorted (material e1) = Py.sorted (material e2)
  /\ Py.sorted (colors e1) = Py.sorted (colors e2)
  /\ Py.str <$> (price e1 !! "value") = Py.str <$> (price e2 !! "value").
Proof.
  intros (Hc1 & Hs1 & Hm1 & Hk1) (Hc2 & Hs2 & Hm2 & Hk2).
  unfold hash_input, id_components, getitem.
  destruct (price e1 !! "value") as [v1|]; cbn [mbind result_bind];
    [| discriminate].
  destruct (price e2 !! "value") as [v2|]; cbn [mbind result_bind];
    [| discriminate].
  intros [= <-] [= E]. symmetry in E.
  apply sorted_plain in Hm1, Hm2, Hk1, Hk2.
  destruct (cut_unique_string _ _ _ _ _ Hc1 Hc2 E) as [Ec E1].
  destruct (cut_unique_string _ _ _ _ _ Hs1 Hs2 E1) as [Es E2].
  destruct (cut_unique_string _ _ _ _ _ (plain_join_free _ Hm1)
              (plain_join_free _ Hm2) E2) as [Em E3].
  destruct (cut_unique_string _ _ _ _ _ (plain_join_free _ Hk1)
              (plain_join_free _ Hk2) E3) as [Ek Ep].
  repeat split; auto using join_comma_inj.
  cbn. now rewrite Ep.
Qed.

Lemma saree_unambiguous :
  unambiguous Sample.saree /\ unambiguous Collision.saree_reordered.
Proof.
  split; (split; [reflexivity |]); (split; [reflexivity |]);
    split; repeat constructor; discriminate.
Qed.

Lemma hash_input_identifies_witness :
  category Sample.saree = category Collision.saree_reordered
  /\ subcategory Sample.saree = subcategory Collision.saree_reordered
  /\ Py.sorted (material Sample.saree)
     = Py.sorted (material Collision.saree_reordered)
  /\ Py.sorted (colors Sample.saree) = Py.sorted (colors Collision.saree_reordered)
  /\ Py.str <$> (price Sample.saree !! "value")
     = Py.str <$> (price Collision.saree_reordered !! "value").
Proof.
  apply (hash_input_identifies Sample.saree Collision.saree_reordered
           "Handloom Saree|Banarasi Silk|silk,zari|gold,red|2500"
           (proj1 saree_unambiguous) (proj2 saree_unambiguous)).
  - vm_compute. reflexivity.
  - vm_compute. reflexivity.
Defined.
